(** * The Tezos chain adapter of the gateway: controllers

    A shallow embedding of [src/chains/tezos/tezos.controllers.ts]
    ([getTokenSymbolsToTokens], [nonce], [balances], [poll], [allowances],
    [approve], [toTezosTransaction]) and of the parts of the JavaScript
    runtime and of the ethers library those functions call, followed by the
    properties of the controllers.

    Conventions of the embedding.
    - A JavaScript string is a [string] holding its UTF-8 encoding; digits,
      signs and the dot are single bytes, and so is the white space of
      ASCII, while the other white space characters take two or three.
    - A JavaScript number is a [JS.number]: not-a-number, an infinity, or a
      double whose value is an integer.  The controllers only build numbers
      with [parseInt] and [+], which never leave that set.
    - An arbitrary precision integer (ethers' BigNumber) is a [Z].
    - A call of the chain client is a pure answer of the client, recorded in
      a log of calls; a rejected promise is [Rejected reason].
    - A controller is a function from the world (the log and the number of
      clock readings so far) to its outcome and the new world. *)

From Stdlib Require Import ZArith List String Ascii Bool Lia Permutation.
Import ListNotations.
Local Open Scope string_scope.
Local Open Scope Z_scope.

(** ** The JavaScript runtime *)

Module JS.

(** *** Decimal numerals *)

Definition is_digit (c : ascii) : bool :=
  let n := Z.of_N (N_of_ascii c) in (48 <=? n) && (n <=? 57).

Definition digit_value (c : ascii) : Z := Z.of_N (N_of_ascii c) - 48.

Definition digit_char (d : Z) : ascii := ascii_of_N (Z.to_N (48 + d)).

(** The value of the longest prefix of decimal digits of [s], read after
    the digits whose value is [acc]. *)
Fixpoint parse_digits (acc : Z) (s : string) : Z :=
  match s with
  | String c s' =>
      if is_digit c then parse_digits (10 * acc + digit_value c) s' else acc
  | EmptyString => acc
  end.

Fixpoint all_digits (s : string) : bool :=
  match s with
  | String c s' => is_digit c && all_digits s'
  | EmptyString => true
  end.

(** The digits of [n], most significant first, put in front of [acc]. *)
Fixpoint digits_onto (fuel : nat) (n : Z) (acc : string) : string :=
  match fuel with
  | O => acc
  | S fuel' =>
      let acc' := String (digit_char (n mod 10)) acc in
      if n <? 10 then acc' else digits_onto fuel' (n / 10) acc'
  end.

(** The decimal numeral of a non-negative integer, without leading zeros. *)
Definition decimal (n : Z) : string :=
  digits_onto (S (Z.to_nat (Z.log2 n))) n "".

(** The number of decimal digits of [n] (1 for 0). *)
Definition num_digits (n : Z) : nat := String.length (decimal n).

(** *** Numbers *)

Inductive number : Type :=
| NaN
| Infinity (negative : bool)
| Finite (value : Z).

(** Rounding of a non-negative integer to the nearest integer that a double
    represents: 53 significant bits, ties to the even significand. *)
Definition round53 (n : Z) : Z :=
  let e := Z.log2 n - 52 in
  if e <=? 0 then n
  else
    let q := n / 2 ^ e in
    let r := n mod 2 ^ e in
    let half := 2 ^ (e - 1) in
    let q' := if (half <? r) || ((r =? half) && Z.odd q) then q + 1 else q in
    q' * 2 ^ e.

(** The number value of a mathematical integer. *)
Definition of_integer (z : Z) : number :=
  let a := round53 (Z.abs z) in
  if 2 ^ 1024 <=? a then Infinity (z <? 0)
  else Finite (Z.sgn z * a).

(** [x + y] on numbers. *)
Definition add (x y : number) : number :=
  match x, y with
  | NaN, _ | _, NaN => NaN
  | Infinity a, Infinity b => if Bool.eqb a b then Infinity a else NaN
  | Infinity a, Finite _ | Finite _, Infinity a => Infinity a
  | Finite a, Finite b => of_integer (a + b)
  end.

(** [parseInt(string)] without a radix.  Leading white space is skipped
    (the white space and the line terminators of the language, ASCII or
    not), then an optional sign, then [0x] or [0X] selects radix 16; the longest
    prefix of digits is read, and no digit at all gives [NaN].  The value is
    the mathematical value of the digits, rounded once (the standard lets an
    implementation replace the decimal digits after the twentieth by zeros;
    the model, as V8 does, keeps them). *)
Definition is_white_space (c : ascii) : bool :=
  let n := Z.of_N (N_of_ascii c) in ((9 <=? n) && (n <=? 13)) || (n =? 32).

(** The white space and line terminators beyond ASCII, by their encodings:
    U+00A0 as two bytes; U+1680, U+2000 to U+200A, U+2028, U+2029, U+202F,
    U+205F, U+3000 and U+FEFF as three. *)
Definition is_white_space2 (c1 c2 : ascii) : bool :=
  (Z.of_N (N_of_ascii c1) =? 194) && (Z.of_N (N_of_ascii c2) =? 160).

Definition is_white_space3 (c1 c2 c3 : ascii) : bool :=
  let n1 := Z.of_N (N_of_ascii c1) in
  let n2 := Z.of_N (N_of_ascii c2) in
  let n3 := Z.of_N (N_of_ascii c3) in
  ((n1 =? 225) && (n2 =? 154) && (n3 =? 128)) ||
  ((n1 =? 226) && (n2 =? 128) &&
   (((128 <=? n3) && (n3 <=? 138)) || (n3 =? 168) || (n3 =? 169) ||
    (n3 =? 175))) ||
  ((n1 =? 226) && (n2 =? 129) && (n3 =? 159)) ||
  ((n1 =? 227) && (n2 =? 128) && (n3 =? 128)) ||
  ((n1 =? 239) && (n2 =? 187) && (n3 =? 191)).

Fixpoint trim_start (s : string) : string :=
  match s with
  | String c1 s1 =>
      if is_white_space c1 then trim_start s1
      else
        match s1 with
        | String c2 s2 =>
            if is_white_space2 c1 c2 then trim_start s2
            else
              match s2 with
              | String c3 s3 =>
                  if is_white_space3 c1 c2 c3 then trim_start s3 else s
              | EmptyString => s
              end
        | EmptyString => s
        end
  | EmptyString => s
  end.

Definition hex_digit_value (c : ascii) : option Z :=
  let n := Z.of_N (N_of_ascii c) in
  if (48 <=? n) && (n <=? 57) then Some (n - 48)
  else if (97 <=? n) && (n <=? 102) then Some (n - 87)
  else if (65 <=? n) && (n <=? 70) then Some (n - 55)
  else None.

Fixpoint parse_hex_digits (acc : Z) (s : string) : Z :=
  match s with
  | String c s' =>
      match hex_digit_value c with
      | Some d => parse_hex_digits (16 * acc + d) s'
      | None => acc
      end
  | EmptyString => acc
  end.

Definition strip_sign (s : string) : bool * string :=
  match s with
  | String c s' =>
      if Ascii.eqb c "-" then (true, s')
      else if Ascii.eqb c "+" then (false, s')
      else (false, s)
  | EmptyString => (false, s)
  end.

Definition strip_hex_prefix (s : string) : bool * string :=
  match s with
  | String c (String x s') =>
      if Ascii.eqb c "0" && (Ascii.eqb x "x" || Ascii.eqb x "X")
      then (true, s')
      else (false, s)
  | _ => (false, s)
  end.

Definition parseInt (input : string) : number :=
  let (negative, s1) := strip_sign (trim_start input) in
  let (hex, s2) := strip_hex_prefix s1 in
  let signed (v : Z) := of_integer (if negative then - v else v) in
  match s2 with
  | String c _ =>
      if hex then
        match hex_digit_value c with
        | Some _ => signed (parse_hex_digits 0 s2)
        | None => NaN
        end
      else if is_digit c then signed (parse_digits 0 s2)
      else NaN
  | EmptyString => NaN
  end.

(** [String(x)] for a number (Number::toString, radix 10).  For a positive
    double [m] the standard prints the decimal [s * 10^(n-k)] that has the
    fewest significant digits [k] among the decimals whose number value is
    [m], and of several such the one closest to [m].  [shortest m] is that
    integer: the candidates with the most trailing zeros are tried first,
    and the two multiples of [10^j] around [m] are the only ones that
    can round to [m]. *)
Definition shortest_at (m p : Z) : option Z :=
  let lo := (m / p) * p in
  let hi := lo + p in
  match round53 lo =? m, round53 hi =? m with
  | true, true =>
      Some (if m - lo <? hi - m then lo
            else if hi - m <? m - lo then hi
            else if Z.even (lo / p) then lo else hi)
  | true, false => Some lo
  | false, true => Some hi
  | false, false => None
  end.

Fixpoint shortest_from (j : nat) (m : Z) : Z :=
  match j with
  | O => m
  | S j' =>
      match shortest_at m (10 ^ Z.of_nat j) with
      | Some x => x
      | None => shortest_from j' m
      end
  end.

Definition shortest (m : Z) : Z := shortest_from (num_digits m - 1) m.

Fixpoint strip_trailing_zeros (fuel : nat) (x : Z) : Z :=
  match fuel with
  | O => x
  | S fuel' =>
      if (x mod 10 =? 0) && (0 <? x) then strip_trailing_zeros fuel' (x / 10)
      else x
  end.

(** The form [d.ddde+N], which the standard uses from [10^21] on. *)
Definition exponent_notation (x : Z) : string :=
  let n := num_digits x in
  let e := "e+" ++ decimal (Z.of_nat n - 1) in
  match decimal (strip_trailing_zeros n x) with
  | String c EmptyString => String c e
  | String c rest => String c ("." ++ rest ++ e)
  | EmptyString => e
  end.

Definition magnitude_to_string (m : Z) : string :=
  if m =? 0 then "0"
  else
    let x := shortest m in
    if x <? 10 ^ 21 then decimal x else exponent_notation x.

Definition ToString (x : number) : string :=
  match x with
  | NaN => "NaN"
  | Infinity false => "Infinity"
  | Infinity true => "-Infinity"
  | Finite z =>
      if z <? 0 then "-" ++ magnitude_to_string (- z) else magnitude_to_string z
  end.

(** *** Values

    The data the controllers pass along without looking inside it (operation
    contents, Michelson parameters, token amounts) and the arguments of the
    contract calls they build. *)
#[warnings="-register-all"]
Inductive value : Type :=
| Undefined
| Null
| Boolean (b : bool)
| Number (n : number)
| BigNumber (n : Z)
| Str (s : string)
| Array (items : list value)
| Object (properties : list (string * value)).

(** The condition of [if (v)] and of [v ? a : b]. *)
Definition truthy (v : value) : bool :=
  match v with
  | Undefined | Null => false
  | Boolean b => b
  | Number NaN => false
  | Number (Infinity _) => true
  | Number (Finite z) => negb (z =? 0)
  | BigNumber _ => true
  | Str s => negb (s =? "")%string
  | Array _ | Object _ => true
  end.

(** *** Objects used as maps: [Record<string, V>]

    The own properties of an object created by [{}], in creation order. *)
Definition Record (V : Type) : Type := list (string * V).

Fixpoint get {V : Type} (o : Record V) (k : string) : option V :=
  match o with
  | [] => None
  | (k', v) :: o' => if (k' =? k)%string then Some v else get o' k
  end.

Fixpoint update {V : Type} (k : string) (v : V) (o : Record V) : Record V :=
  match o with
  | [] => [(k, v)]
  | (k', v') :: o' =>
      if (k' =? k)%string then (k, v) :: o' else (k', v') :: update k v o'
  end.

(** [o[k] = v].  An assignment to the key [__proto__] reaches the accessor
    of [Object.prototype]: it creates no own property. *)
Definition set {V : Type} (k : string) (v : V) (o : Record V) : Record V :=
  if (k =? "__proto__")%string then o else update k v o.

(** A key is an array index when it is the decimal numeral of an integer
    below [2^32 - 1]. *)
Definition array_index (k : string) : option Z :=
  let n := parse_digits 0 k in
  if (decimal n =? k)%string && (n <? 2 ^ 32 - 1) then Some n else None.

Fixpoint insert_by_index {V : Type} (i : Z) (p : string * V)
    (l : list (Z * (string * V))) : list (Z * (string * V)) :=
  match l with
  | [] => [(i, p)]
  | (j, q) :: l' =>
      if i <? j then (i, p) :: l else (j, q) :: insert_by_index i p l'
  end.

(** The array-index keys in ascending order, and the other keys. *)
Fixpoint split_keys {V : Type} (o : Record V)
    : list (Z * (string * V)) * list (string * V) :=
  match o with
  | [] => ([], [])
  | (k, v) :: o' =>
      let (indices, names) := split_keys o' in
      match array_index k with
      | Some i => (insert_by_index i (k, v) indices, names)
      | None => (indices, (k, v) :: names)
      end
  end.

(** [Object.keys(o)]: array indices first, ascending, then the other keys
    in creation order. *)
Definition keys {V : Type} (o : Record V) : list string :=
  let (indices, names) := split_keys o in
  map (fun p => fst (snd p)) indices ++ map fst names.

(** [a.includes(x)] on an array of strings. *)
Definition includes (a : list string) (x : string) : bool :=
  existsb (fun y => (y =? x)%string) a.

End JS.

(** ** Outcomes: exceptions and promises *)

(** What a controller throws: an [HttpException] it builds itself (status,
    message, error code), or whatever a callee threw, kept as the text that
    string concatenation gives it. *)
Inductive exn : Type :=
| HttpException (status : Z) (message : string) (errorCode : Z)
| Uncaught (reason : string).

Inductive result (A : Type) : Type :=
| Ok (a : A)
| Throw (e : exn).
Arguments Ok {A} a.
Arguments Throw {A} e.

(** A settled promise of the chain client. *)
Inductive promise (A : Type) : Type :=
| Resolved (a : A)
| Rejected (reason : string).
Arguments Resolved {A} a.
Arguments Rejected {A} reason.

(** [await p] with no handler around it. *)
Definition await {A : Type} (p : promise A) : result A :=
  match p with
  | Resolved a => Ok a
  | Rejected reason => Throw (Uncaught reason)
  end.

(** ** ethers: [utils.parseUnits] and [constants.MaxUint256] (ethers v5) *)

Module ethers.

Definition MaxUint256 : Z := 2 ^ 256 - 1.

Fixpoint zeros (n : nat) : string :=
  match n with
  | O => ""
  | S n' => String "0" (zeros n')
  end.

(** [getMultiplier(decimals)]: the numeral of [10^decimals] for an integer
    from 0 to 256. *)
Definition getMultiplier (decimals : Z) : result string :=
  if (0 <=? decimals) && (decimals <=? 256)
  then Ok (String "1" (zeros (Z.to_nat decimals)))
  else Throw (Uncaught "invalid decimal size").

Fixpoint digits_or_dots (s : string) : bool :=
  match s with
  | String c s' => (JS.is_digit c || Ascii.eqb c ".") && digits_or_dots s'
  | EmptyString => true
  end.

(** [value.substring(0, 1) === "-"] and [value.substring(1)] *)
Definition starts_with_minus (s : string) : bool :=
  match s with
  | String c _ => Ascii.eqb c "-"
  | EmptyString => false
  end.

Definition drop_first (s : string) : string :=
  match s with
  | String _ s' => s'
  | EmptyString => ""
  end.

(** [value.match(/^-?[0-9.]+$/)] *)
Definition matches_decimal (s : string) : bool :=
  let body := if starts_with_minus s then drop_first s else s in
  negb (body =? "")%string && digits_or_dots body.

(** [value.split(".")], as the first component and the others. *)
Fixpoint split_dot (s : string) : string * list string :=
  match s with
  | EmptyString => ("", [])
  | String c s' =>
      let (h, t) := split_dot s' in
      if Ascii.eqb c "." then ("", h :: t) else (String c h, t)
  end.

(** The loop that removes the zeros at the end of the fraction. *)
Fixpoint trim_trailing_zeros (s : string) : string :=
  match s with
  | EmptyString => ""
  | String c s' =>
      let t := trim_trailing_zeros s' in
      if (t =? "")%string && Ascii.eqb c "0" then "" else String c t
  end.

(** [parseFixed(value, decimals)] *)
Definition parseFixed (value : string) (decimals : Z) : result Z :=
  match getMultiplier decimals with
  | Throw e => Throw e
  | Ok multiplier =>
      if negb (matches_decimal value) then Throw (Uncaught "invalid decimal value")
      else
        let negative := starts_with_minus value in
        let value := if negative then drop_first value else value in
        if (value =? ".")%string then Throw (Uncaught "missing value")
        else
          let (whole, rest) := split_dot value in
          if (2 <? Z.of_nat (S (List.length rest))) then
            Throw (Uncaught "too many decimal points")
          else
            let whole := if (whole =? "")%string then "0" else whole in
            let fraction :=
              match rest with
              | f :: _ => if (f =? "")%string then "0" else f
              | [] => "0"
              end in
            let fraction := trim_trailing_zeros fraction in
            let places := (String.length multiplier - 1)%nat in
            if (places <? String.length fraction)%nat then
              Throw (Uncaught "fractional component exceeds decimals")
            else
              let fraction := if (fraction =? "")%string then "0" else fraction in
              let fraction :=
                fraction ++ zeros (places - String.length fraction) in
              let wholeValue := JS.parse_digits 0 whole in
              let fractionValue := JS.parse_digits 0 fraction in
              let wei :=
                wholeValue * JS.parse_digits 0 multiplier + fractionValue in
              Ok (if negative then wei * -1 else wei)
  end.

(** [utils.parseUnits(value, unitName)] with a number for [unitName]. *)
Definition parseUnits (value : string) (unitName : Z) : result Z :=
  parseFixed value unitName.

End ethers.

(** ** Data of the chain client (tezos.base, common-interfaces, taquito) *)

Module TokenInfo.
Record t : Type := mk {
  address : string;
  decimals : Z;
  standard : string;
  tokenId : option Z;  (* [None]: undefined *)
}.
End TokenInfo.

(** An entry of a mempool partition. *)
Module PendingOperation.
Record t : Type := mk {
  hash : string;
  contents : list JS.value;
}.
End PendingOperation.

(** The mempool snapshot of [getPendingTransactions]. *)
Module PendingOperations.
Record t : Type := mk {
  applied : list PendingOperation.t;
  branch_delayed : list PendingOperation.t;
  branch_refused : list PendingOperation.t;
  refused : list PendingOperation.t;
  unprocessed : list PendingOperation.t;
}.
End PendingOperations.

(** taquito's [OperationContentsAndResultTransaction], the fields read. *)
Module OperationContents.
Record t : Type := mk {
  source : string;
  destination : string;
  counter : string;
  gas_limit : string;
  storage_limit : string;
  amount : string;
  parameters : JS.value;  (* [JS.Undefined] when the operation has none *)
}.
End OperationContents.

(** taquito's [TransactionOperation], the fields read. *)
Module TransactionOperation.
Record t : Type := mk {
  hash : string;
  operationResults : list OperationContents.t;
}.
End TransactionOperation.

(** A contract handle: [contract.methods[entrypoint](params).send()]. *)
Record Contract : Type := {
  send : string -> JS.value -> promise TransactionOperation.t;
}.

(** The wallet that [getWallet] gives (taquito's [TezosToolkit]):
    [wallet.contract.at(address)] and [wallet.rpc.getChainId()]. *)
Record TezosToolkit : Type := {
  contract_at : string -> promise Contract;
  rpc_getChainId : promise string;
}.

(** The chain client, an external collaborator: what it answers to each
    call during one request. *)
Record Tezosish : Type := {
  nativeTokenSymbol : string;
  chainName : string;
  chain : string;
  getTokenForSymbol : string -> option TokenInfo.t;
  getNonce : string -> promise Z;
  getNativeBalance : string -> promise JS.value;
  getTokenBalance : string -> string -> Z -> Z -> promise JS.value;
  getTokenAllowance :
    string -> string -> string -> string -> option Z -> Z -> promise JS.value;
  getCurrentBlockNumber : promise Z;
  getPendingTransactions : promise PendingOperations.t;
  getTransaction : string -> promise JS.value;
  getWallet : string -> promise TezosToolkit;
}.

(** What the controllers import from [services/error-handler] and
    [services/base], whose sources are not part of the repository files at
    hand, and what they read from the runtime: they are parameters. *)
Record Services : Type := {
  LOAD_WALLET_ERROR_CODE : Z;
  LOAD_WALLET_ERROR_MESSAGE : string;
  TOKEN_NOT_SUPPORTED_ERROR_CODE : Z;
  TOKEN_NOT_SUPPORTED_ERROR_MESSAGE : string;
  bigNumberWithDecimalToStr : Z -> Z -> string;
  latency : Z -> Z -> JS.value;
  tokenValueToString : JS.value -> string;
  JSON_stringify : JS.value -> option string;  (* [None]: undefined *)
  Date_now : nat -> Z;  (* the successive readings of the clock *)
}.

(** ** Requests and responses (tezos.request, evm.requests) *)

Module NonceRequest.
Record t : Type := mk { address : string }.
End NonceRequest.

Module NonceResponse.
Record t : Type := mk { nonce : Z }.
End NonceResponse.

Module BalanceRequest.
Record t : Type := mk {
  address : string;
  tokenSymbols : list string;
}.
End BalanceRequest.

Module BalanceResponse.
Record t : Type := mk {
  network : string;
  timestamp : Z;
  latency : JS.value;
  balances : JS.Record string;
}.
End BalanceResponse.

Module PollRequest.
Record t : Type := mk { txHash : string }.
End PollRequest.

Module PollResponse.
Record t : Type := mk {
  network : string;
  currentBlock : Z;
  timestamp : Z;
  txHash : string;
  txStatus : Z;
  txData : JS.value;  (* [JS.Null] or the operation *)
}.
End PollResponse.

Module AllowancesRequest.
Record t : Type := mk {
  address : string;
  spender : string;
  tokenSymbols : list string;
}.
End AllowancesRequest.

Module AllowancesResponse.
Record t : Type := mk {
  network : string;
  timestamp : Z;
  latency : JS.value;
  spender : string;
  approvals : JS.Record string;
}.
End AllowancesResponse.

Module ApproveRequest.
Record t : Type := mk {
  amount : option string;  (* [None]: the field is absent *)
  address : string;
  spender : string;
  token : string;
}.
End ApproveRequest.

Module CustomTransaction.
Record t : Type := mk {
  hash : string;
  to : string;
  from : string;
  nonce : JS.number;
  gasLimit : string;
  maxFeePerGas : option string;  (* [None]: null *)
  value : string;
  chainId : string;
  data : option string;  (* [None]: undefined *)
  maxPriorityFeePerGas : option string;
}.
End CustomTransaction.

Module ApproveResponse.
Record t : Type := mk {
  network : string;
  timestamp : Z;
  latency : JS.value;
  tokenAddress : string;
  spender : string;
  amount : string;
  nonce : JS.number;
  approval : CustomTransaction.t;
}.
End ApproveResponse.

(** ** The world of a request: the log of client calls and the clock *)

Inductive call : Type :=
| GetTokenForSymbol (symbol : string)
| GetNonce (address : string)
| GetNativeBalance (address : string)
| GetTokenBalance (contractAddress owner : string) (tokenId decimals : Z)
| GetTokenAllowance (contractAddress owner spender tokenStandard : string)
    (tokenId : option Z) (decimals : Z)
| GetCurrentBlockNumber
| GetPendingTransactions
| GetTransaction (txHash : string)
| GetWallet (address : string)
| ContractAt (address : string)
| Send (entrypoint : string) (params : JS.value)
| GetChainId.

Record world : Type := {
  log : list call;  (* the calls made so far, oldest first *)
  ticks : nat;      (* how many times the clock was read *)
}.

Definition start : world := {| log := []; ticks := 0 |}.

(** A step of a controller. *)
Definition M (A : Type) : Type := world -> result A * world.

Definition ret {A : Type} (a : A) : M A := fun w => (Ok a, w).

Definition throw {A : Type} (e : exn) : M A := fun w => (Throw e, w).

Definition bind {A B : Type} (m : M A) (k : A -> M B) : M B :=
  fun w =>
    match m w with
    | (Ok a, w') => k a w'
    | (Throw e, w') => (Throw e, w')
    end.

Notation "x <- m ;; k" := (bind m (fun x => k))
  (at level 61, m at next level, right associativity).

Definition record (c : call) (w : world) : world :=
  {| log := log w ++ [c]; ticks := ticks w |}.

(** [await client.method(args)]: the call is logged, a rejection is thrown
    on. *)
Definition invoke {A : Type} (c : call) (answer : promise A) : M A :=
  fun w => (await answer, record c w).

(** [try { x = await client.method(args) } catch (err) { throw handler(err) }] *)
Definition invoke_or {A : Type} (c : call) (answer : promise A)
    (handler : string -> exn) : M A :=
  fun w =>
    match answer with
    | Resolved a => (Ok a, record c w)
    | Rejected err => (Throw (handler err), record c w)
    end.

(** A synchronous call of the client. *)
Definition lookup {A : Type} (c : call) (answer : A) : M A :=
  fun w => (Ok answer, record c w).

(** [Date.now()] *)
Definition now (svc : Services) : M Z :=
  fun w => (Ok (Date_now svc (ticks w)),
            {| log := log w; ticks := S (ticks w) |}).

(** A value computed by a library function that may throw. *)
Definition lift {A : Type} (r : result A) : M A := fun w => (r, w).

(** [array.map(async ...)]: every callback runs up to its first [await], in
    array order, so each call is issued whatever becomes of the others. *)
Fixpoint run_all {A : Type} (tasks : list (M A)) (w : world)
    : list (result A) * world :=
  match tasks with
  | [] => ([], w)
  | task :: tasks' =>
      let (r, w1) := task w in
      let (rs, w2) := run_all tasks' w1 in
      (r :: rs, w2)
  end.

(** The outcome of [Promise.all]: the results when every promise resolved,
    a rejection otherwise.  Which rejection is reported depends on the order
    in which the node answers; the model takes the first in array order. *)
Fixpoint collect {A : Type} (rs : list (result A)) : result (list A) :=
  match rs with
  | [] => Ok []
  | Throw e :: _ => Throw e
  | Ok a :: rs' =>
      match collect rs' with
      | Ok l => Ok (a :: l)
      | Throw e => Throw e
      end
  end.

Definition Promise_all {A : Type} (tasks : list (M A)) : M (list A) :=
  fun w => let (rs, w') := run_all tasks w in (collect rs, w').

(** The assignments [o[k] = v] that the callbacks of one [Promise.all] make
    to the object they share.  Each callback assigns to its own key, so the
    order in which they finish does not change which properties the object
    has nor their values, and that is all the statements below read (through
    [JS.get], and through the object being empty or not).  It does change
    the order in which the keys are created: the code creates the key of a
    callback that does not wait at once, during [map], and the others as
    the node answers, whereas the assignments are applied here in array
    order.  The order of the keys of a response is therefore not that of the
    code, and no statement relies on it. *)
Definition assign_all {V : Type} (assignments : list (option (string * V)))
    (o : JS.Record V) : JS.Record V :=
  fold_left
    (fun o a => match a with Some (k, v) => JS.set k v o | None => o end)
    assignments o.

(** ** The controllers *)

Fixpoint getTokenSymbolsToTokens_loop (tezos : Tezosish)
    (tokenSymbols : list string) (tokens : JS.Record TokenInfo.t)
    : M (JS.Record TokenInfo.t) :=
  match tokenSymbols with
  | [] => ret tokens
  | symbol :: rest =>
      token <- lookup (GetTokenForSymbol symbol) (getTokenForSymbol tezos symbol) ;;
      getTokenSymbolsToTokens_loop tezos rest
        match token with
        | Some token => JS.set symbol token tokens
        | None => tokens
        end
  end.

Definition getTokenSymbolsToTokens (tezos : Tezosish)
    (tokenSymbols : list string) : M (JS.Record TokenInfo.t) :=
  getTokenSymbolsToTokens_loop tezos tokenSymbols [].

Definition nonce (tezos : Tezosish) (req : NonceRequest.t)
    : M NonceResponse.t :=
  nonce <- invoke (GetNonce (NonceRequest.address req))
             (getNonce tezos (NonceRequest.address req)) ;;
  ret {| NonceResponse.nonce := nonce |}.

Definition token_not_supported (svc : Services) : exn :=
  HttpException 500 (TOKEN_NOT_SUPPORTED_ERROR_MESSAGE svc)
    (TOKEN_NOT_SUPPORTED_ERROR_CODE svc).

(** The callback of [balances] for one key of [tokens]; it returns the
    assignment to [balances] that it makes, if any. *)
Definition balances_callback (svc : Services) (tezos : Tezosish)
    (req : BalanceRequest.t) (tokens : JS.Record TokenInfo.t)
    (symbol : string) : M (option (string * string)) :=
  match JS.get tokens symbol with
  | Some token =>
      if negb (symbol =? nativeTokenSymbol tezos)%string then
        let contractAddress := TokenInfo.address token in
        let decimals := TokenInfo.decimals token in
        match TokenInfo.tokenId token with
        | Some tokenId =>
            balance <- invoke
                (GetTokenBalance contractAddress (BalanceRequest.address req)
                   tokenId decimals)
                (getTokenBalance tezos contractAddress
                   (BalanceRequest.address req) tokenId decimals) ;;
            ret (Some (symbol, tokenValueToString svc balance))
        | None => ret None
        end
      else ret None
  | None => ret None
  end.

Definition balances (svc : Services) (tezos : Tezosish)
    (req : BalanceRequest.t) : M BalanceResponse.t :=
  initTime <- now svc ;;
  tokens <- getTokenSymbolsToTokens tezos (BalanceRequest.tokenSymbols req) ;;
  balances <-
    (if JS.includes (BalanceRequest.tokenSymbols req) (nativeTokenSymbol tezos)
     then
       native <- invoke (GetNativeBalance (BalanceRequest.address req))
                   (getNativeBalance tezos (BalanceRequest.address req)) ;;
       ret (JS.set (nativeTokenSymbol tezos) (tokenValueToString svc native) [])
     else ret []) ;;
  assignments <-
    Promise_all (map (balances_callback svc tezos req tokens) (JS.keys tokens)) ;;
  let balances := assign_all assignments balances in
  if (List.length (JS.keys balances) =? 0)%nat then
    throw (token_not_supported svc)
  else
    endTime <- now svc ;;
    ret {| BalanceResponse.network := chainName tezos;
           BalanceResponse.timestamp := initTime;
           BalanceResponse.latency := latency svc initTime endTime;
           BalanceResponse.balances := balances |}.

(** [partition.find((tx) => tx.hash === txHash)] *)
Definition find_hash (partition : list PendingOperation.t) (txHash : string)
    : option PendingOperation.t :=
  find (fun tx => (PendingOperation.hash tx =? txHash)%string) partition.

Definition found (partition : list PendingOperation.t) (txHash : string)
    : bool :=
  match find_hash partition txHash with Some _ => true | None => false end.

Definition poll (svc : Services) (tezosish : Tezosish) (req : PollRequest.t)
    : M PollResponse.t :=
  initTime <- now svc ;;
  currentBlock <- invoke GetCurrentBlockNumber (getCurrentBlockNumber tezosish) ;;
  pendingTxs <- invoke GetPendingTransactions (getPendingTransactions tezosish) ;;
  let txHash := PollRequest.txHash req in
  classified <-
    match find_hash (PendingOperations.applied pendingTxs) txHash with
    | Some appliedTx =>
        ret (1, JS.Array (PendingOperation.contents appliedTx))
    | None =>
        if found (PendingOperations.branch_delayed pendingTxs) txHash then
          ret (2, JS.Null)
        else if found (PendingOperations.branch_refused pendingTxs) txHash then
          ret (3, JS.Null)
        else if found (PendingOperations.refused pendingTxs) txHash then
          ret (4, JS.Null)
        else if found (PendingOperations.unprocessed pendingTxs) txHash then
          ret (5, JS.Null)
        else
          tx <- invoke (GetTransaction txHash) (getTransaction tezosish txHash) ;;
          if JS.truthy tx then ret (1, tx) else ret (-1, JS.Null)
    end ;;
  ret {| PollResponse.network := chain tezosish;
         PollResponse.currentBlock := currentBlock;
         PollResponse.timestamp := initTime;
         PollResponse.txHash := txHash;
         PollResponse.txStatus := fst classified;
         PollResponse.txData := snd classified |}.

(** The callback of [allowances] for one key of [tokens], with the
    assignment to [approvals] that it makes. *)
Definition allowances_callback (svc : Services) (tezos : Tezosish)
    (req : AllowancesRequest.t) (tokens : JS.Record TokenInfo.t)
    (symbol : string) : M (option (string * string)) :=
  match JS.get tokens symbol with
  | Some token =>
      if (TokenInfo.standard token =? "fa1.2")%string then
        ret (Some (symbol, "0.000000"))
      else
        allowance <- invoke
            (GetTokenAllowance (TokenInfo.address token)
               (AllowancesRequest.address req) (AllowancesRequest.spender req)
               "fa2" (TokenInfo.tokenId token) (TokenInfo.decimals token))
            (getTokenAllowance tezos (TokenInfo.address token)
               (AllowancesRequest.address req) (AllowancesRequest.spender req)
               "fa2" (TokenInfo.tokenId token) (TokenInfo.decimals token)) ;;
        ret (Some (symbol, tokenValueToString svc allowance))
  | None => throw (Uncaught "TypeError: tokens[symbol] is undefined")
  end.

Definition allowances (svc : Services) (tezos : Tezosish)
    (req : AllowancesRequest.t) : M AllowancesResponse.t :=
  initTime <- now svc ;;
  tokens <- getTokenSymbolsToTokens tezos (AllowancesRequest.tokenSymbols req) ;;
  let spender := AllowancesRequest.spender req in
  assignments <-
    Promise_all (map (allowances_callback svc tezos req tokens) (JS.keys tokens)) ;;
  let approvals := assign_all assignments [] in
  if (List.length (JS.keys approvals) =? 0)%nat then
    throw (token_not_supported svc)
  else
    endTime <- now svc ;;
    ret {| AllowancesResponse.network := chainName tezos;
           AllowancesResponse.timestamp := initTime;
           AllowancesResponse.latency := latency svc initTime endTime;
           AllowancesResponse.spender := spender;
           AllowancesResponse.approvals := approvals |}.

Definition toTezosTransaction (svc : Services) (hash : string)
    (transaction : OperationContents.t) (chainId : string)
    : CustomTransaction.t :=
  {| CustomTransaction.hash := hash;
     CustomTransaction.to := OperationContents.destination transaction;
     CustomTransaction.from := OperationContents.source transaction;
     CustomTransaction.nonce :=
       JS.parseInt (OperationContents.counter transaction);
     CustomTransaction.gasLimit :=
       JS.ToString
         (JS.add (JS.parseInt (OperationContents.gas_limit transaction))
                 (JS.parseInt (OperationContents.storage_limit transaction)));
     CustomTransaction.maxFeePerGas := None;
     CustomTransaction.value := OperationContents.amount transaction;
     CustomTransaction.chainId := chainId;
     CustomTransaction.data :=
       JSON_stringify svc (OperationContents.parameters transaction);
     CustomTransaction.maxPriorityFeePerGas := None |}.

(** [amount ? utils.parseUnits(amount, decimals) : constants.MaxUint256] *)
Definition amountBigNumber (amount : option string) (decimals : Z)
    : result Z :=
  match amount with
  | Some amount =>
      if JS.truthy (JS.Str amount) then ethers.parseUnits amount decimals
      else Ok ethers.MaxUint256
  | None => Ok ethers.MaxUint256
  end.

(** A field of type [number | undefined] as a value. *)
Definition optional_number (n : option Z) : JS.value :=
  match n with
  | Some n => JS.Number (JS.Finite n)
  | None => JS.Undefined
  end.

(** The argument of [contract.methods.approve]. *)
Definition approve_params (spender : string) (amountBigNumber : Z)
    : JS.value :=
  JS.Object [("spender", JS.Str spender); ("value", JS.BigNumber amountBigNumber)].

(** The argument of [contract.methods.update_operators]. *)
Definition update_operators_params (address spender : string)
    (tokenId : option Z) : JS.value :=
  JS.Object
    [("add_operator",
      JS.Object [("owner", JS.Str address);
                 ("operator", JS.Str spender);
                 ("token_id", optional_number tokenId)])].

Definition approve (svc : Services) (tezos : Tezosish) (req : ApproveRequest.t)
    : M ApproveResponse.t :=
  let amount := ApproveRequest.amount req in
  let address := ApproveRequest.address req in
  let token := ApproveRequest.token req in
  let spender := ApproveRequest.spender req in
  initTime <- now svc ;;
  wallet <- invoke_or (GetWallet address) (getWallet tezos address)
              (fun err =>
                 HttpException 500 (LOAD_WALLET_ERROR_MESSAGE svc ++ err)
                   (LOAD_WALLET_ERROR_CODE svc)) ;;
  fullToken <- lookup (GetTokenForSymbol token) (getTokenForSymbol tezos token) ;;
  match fullToken with
  | None =>
      throw (HttpException 500 (TOKEN_NOT_SUPPORTED_ERROR_MESSAGE svc ++ token)
               (TOKEN_NOT_SUPPORTED_ERROR_CODE svc))
  | Some fullToken =>
      amountBigNumber <- lift (amountBigNumber amount (TokenInfo.decimals fullToken)) ;;
      contract <- invoke (ContractAt (TokenInfo.address fullToken))
                    (contract_at wallet (TokenInfo.address fullToken)) ;;
      approvalOperation <-
        (if (TokenInfo.standard fullToken =? "fa1.2")%string then
           invoke (Send "approve" (approve_params spender amountBigNumber))
             (send contract "approve" (approve_params spender amountBigNumber))
         else if (TokenInfo.standard fullToken =? "fa2")%string then
           invoke
             (Send "update_operators"
                (update_operators_params address spender (TokenInfo.tokenId fullToken)))
             (send contract "update_operators"
                (update_operators_params address spender (TokenInfo.tokenId fullToken)))
         else throw (token_not_supported svc)) ;;
      match TransactionOperation.operationResults approvalOperation with
      | op :: _ =>
          chainId <- invoke GetChainId (rpc_getChainId wallet) ;;
          endTime <- now svc ;;
          ret {| ApproveResponse.network := chainName tezos;
                 ApproveResponse.timestamp := initTime;
                 ApproveResponse.latency := latency svc initTime endTime;
                 ApproveResponse.tokenAddress := TokenInfo.address fullToken;
                 ApproveResponse.spender := spender;
                 ApproveResponse.amount :=
                   bigNumberWithDecimalToStr svc amountBigNumber
                     (TokenInfo.decimals fullToken);
                 ApproveResponse.nonce :=
                   JS.parseInt (OperationContents.counter op);
                 ApproveResponse.approval :=
                   toTezosTransaction svc
                     (TransactionOperation.hash approvalOperation) op chainId |}
      | [] => throw (token_not_supported svc)
      end
  end.

(** ** Running a controller *)

Definition outcome {A : Type} (m : M A) : result A := fst (m start).

Definition calls {A : Type} (m : M A) : list call := log (snd (m start)).

(** The mapping that [getTokenSymbolsToTokens] builds, without the log. *)
Definition resolve_onto (tezos : Tezosish) (tokenSymbols : list string)
    (tokens : JS.Record TokenInfo.t) : JS.Record TokenInfo.t :=
  fold_left
    (fun tokens symbol =>
       match getTokenForSymbol tezos symbol with
       | Some token => JS.set symbol token tokens
       | None => tokens
       end)
    tokenSymbols tokens.

Definition resolved (tezos : Tezosish) (tokenSymbols : list string)
    : JS.Record TokenInfo.t :=
  resolve_onto tezos tokenSymbols [].

(** ** Notions used in the statements *)

(** A mempool partition holds the hash. *)
Definition in_partition (partition : list PendingOperation.t) (txHash : string)
    : Prop :=
  In txHash (map PendingOperation.hash partition).

(** The internal error code of a fault built by a controller. *)
Definition fault_code (e : exn) : option Z :=
  match e with
  | HttpException _ _ code => Some code
  | Uncaught _ => None
  end.

(** The contract call that [approve] builds for a token: the entry point
    and its argument, or nothing for a standard it does not know. *)
Definition approval_call (req : ApproveRequest.t) (fullToken : TokenInfo.t)
    (amountBigNumber : Z) : option (string * JS.value) :=
  if (TokenInfo.standard fullToken =? "fa1.2")%string then
    Some ("approve", approve_params (ApproveRequest.spender req) amountBigNumber)
  else if (TokenInfo.standard fullToken =? "fa2")%string then
    Some ("update_operators",
          update_operators_params (ApproveRequest.address req)
            (ApproveRequest.spender req) (TokenInfo.tokenId fullToken))
  else None.

(** A token of [balances] is fetched when it is not the native symbol and
    has a token id. *)
Definition fetched (tezos : Tezosish) (tokens : JS.Record TokenInfo.t)
    (symbol : string) (token : TokenInfo.t) (tokenId : Z) : Prop :=
  JS.get tokens symbol = Some token /\
  symbol <> nativeTokenSymbol tezos /\
  TokenInfo.tokenId token = Some tokenId.

(** Every fetch that [balances] can issue resolves. *)
Definition balances_resolve (tezos : Tezosish) (req : BalanceRequest.t) : Prop :=
  (exists balance,
     getNativeBalance tezos (BalanceRequest.address req) = Resolved balance) /\
  (forall contractAddress tokenId decimals,
     exists balance,
       getTokenBalance tezos contractAddress (BalanceRequest.address req)
         tokenId decimals = Resolved balance).

(** Every query that [allowances] can issue resolves. *)
Definition allowances_resolve (tezos : Tezosish) (req : AllowancesRequest.t)
    : Prop :=
  forall contractAddress tokenId decimals,
    exists allowance,
      getTokenAllowance tezos contractAddress (AllowancesRequest.address req)
        (AllowancesRequest.spender req) "fa2" tokenId decimals
      = Resolved allowance.

(** The part of the log of [balances] that belongs to one key of the
    resolved mapping: a fetch for a token other than the native one that has
    a token id, and nothing otherwise. *)
Definition balance_fetches (tezos : Tezosish) (req : BalanceRequest.t)
    (tokens : JS.Record TokenInfo.t) (symbol : string) : list call :=
  match JS.get tokens symbol with
  | Some token =>
      if (symbol =? nativeTokenSymbol tezos)%string then []
      else
        match TokenInfo.tokenId token with
        | Some tokenId =>
            [GetTokenBalance (TokenInfo.address token)
               (BalanceRequest.address req) tokenId (TokenInfo.decimals token)]
        | None => []
        end
  | None => []
  end.

(** The part of the log of [allowances] that belongs to one key of the
    resolved mapping: nothing for a token of standard ['fa1.2'], one query
    for any other token. *)
Definition allowance_queries (req : AllowancesRequest.t)
    (tokens : JS.Record TokenInfo.t) (symbol : string) : list call :=
  match JS.get tokens symbol with
  | Some token =>
      if (TokenInfo.standard token =? "fa1.2")%string then []
      else
        [GetTokenAllowance (TokenInfo.address token)
           (AllowancesRequest.address req) (AllowancesRequest.spender req)
           "fa2" (TokenInfo.tokenId token) (TokenInfo.decimals token)]
  | None => []
  end.

(** ** Notions used in the proofs *)

(** The world after some more calls. *)
Definition extend (w : world) (cs : list call) : world :=
  {| log := log w ++ cs; ticks := ticks w |}.

(** A step is uniform when it does not read the clock: its outcome and the
    calls it makes are the same in every world. *)
Definition uniform {A : Type} (m : M A) : Prop :=
  forall w, m w = (outcome m, extend w (calls m)).

(** What a callback has assigned once its promise is settled. *)
Definition settled {A : Type} (r : result (option A)) : option A :=
  match r with Ok a => a | Throw _ => None end.

(** Every callback assigns to its own key at most. *)
Definition own_key {V : Type} (h : string -> option (string * V)) : Prop :=
  forall k k' v, h k = Some (k', v) -> k' = k.

(** The response of [approve]: the clock is read once at the start and
    once when the response is built. *)
Definition approve_response (svc : Services) (tezos : Tezosish)
    (req : ApproveRequest.t) (fullToken : TokenInfo.t) (amountBigNumber : Z)
    (approvalOperation : TransactionOperation.t) (op : OperationContents.t)
    (chainId : string) : ApproveResponse.t :=
  {| ApproveResponse.network := chainName tezos;
     ApproveResponse.timestamp := Date_now svc 0;
     ApproveResponse.latency := latency svc (Date_now svc 0) (Date_now svc 1);
     ApproveResponse.tokenAddress := TokenInfo.address fullToken;
     ApproveResponse.spender := ApproveRequest.spender req;
     ApproveResponse.amount :=
       bigNumberWithDecimalToStr svc amountBigNumber (TokenInfo.decimals fullToken);
     ApproveResponse.nonce := JS.parseInt (OperationContents.counter op);
     ApproveResponse.approval :=
       toTezosTransaction svc (TransactionOperation.hash approvalOperation) op chainId |}.

(** The run of [approve] laid out step by step: its outcome and the calls
    it has made. *)
Definition approve_steps (svc : Services) (tezos : Tezosish)
    (req : ApproveRequest.t) : result ApproveResponse.t * list call :=
  let address := ApproveRequest.address req in
  let token := ApproveRequest.token req in
  match getWallet tezos address with
  | Rejected err =>
      (Throw (HttpException 500 (LOAD_WALLET_ERROR_MESSAGE svc ++ err)
                (LOAD_WALLET_ERROR_CODE svc)),
       [GetWallet address])
  | Resolved wallet =>
      match getTokenForSymbol tezos token with
      | None =>
          (Throw (HttpException 500 (TOKEN_NOT_SUPPORTED_ERROR_MESSAGE svc ++ token)
                    (TOKEN_NOT_SUPPORTED_ERROR_CODE svc)),
           [GetWallet address; GetTokenForSymbol token])
      | Some fullToken =>
          let resolved := [GetWallet address; GetTokenForSymbol token] in
          match amountBigNumber (ApproveRequest.amount req)
                  (TokenInfo.decimals fullToken) with
          | Throw e => (Throw e, resolved)
          | Ok amount =>
              let located :=
                (resolved ++ [ContractAt (TokenInfo.address fullToken)])%list in
              match contract_at wallet (TokenInfo.address fullToken) with
              | Rejected reason => (Throw (Uncaught reason), located)
              | Resolved contract =>
                  match approval_call req fullToken amount with
                  | None => (Throw (token_not_supported svc), located)
                  | Some (entrypoint, params) =>
                      let sent := (located ++ [Send entrypoint params])%list in
                      match send contract entrypoint params with
                      | Rejected reason => (Throw (Uncaught reason), sent)
                      | Resolved approvalOperation =>
                          match TransactionOperation.operationResults
                                  approvalOperation with
                          | [] => (Throw (token_not_supported svc), sent)
                          | op :: _ =>
                              match rpc_getChainId wallet with
                              | Rejected reason =>
                                  (Throw (Uncaught reason),
                                   (sent ++ [GetChainId])%list)
                              | Resolved chainId =>
                                  (Ok (approve_response svc tezos req fullToken
                                         amount approvalOperation op chainId),
                                   (sent ++ [GetChainId])%list)
                              end
                          end
                      end
                  end
              end
          end
      end
  end.

(** The callbacks that [balances] hands to [Promise.all]. *)
Definition balances_tasks (svc : Services) (tezos : Tezosish)
    (req : BalanceRequest.t) : list (M (option (string * string))) :=
  let tokens := resolved tezos (BalanceRequest.tokenSymbols req) in
  map (balances_callback svc tezos req tokens) (JS.keys tokens).

Definition balances_response (svc : Services) (tezos : Tezosish)
    (balances : JS.Record string) : BalanceResponse.t :=
  {| BalanceResponse.network := chainName tezos;
     BalanceResponse.timestamp := Date_now svc 0;
     BalanceResponse.latency := latency svc (Date_now svc 0) (Date_now svc 1);
     BalanceResponse.balances := balances |}.

(** What [balances] does after the native balance: [init] is the mapping
    with the native balance, if it was requested. *)
Definition balances_finish (svc : Services) (tezos : Tezosish)
    (req : BalanceRequest.t) (init : JS.Record string)
    : result BalanceResponse.t :=
  match collect (map outcome (balances_tasks svc tezos req)) with
  | Throw e => Throw e
  | Ok assignments =>
      let balances := assign_all assignments init in
      if (List.length (JS.keys balances) =? 0)%nat
      then Throw (token_not_supported svc)
      else Ok (balances_response svc tezos balances)
  end.

(** The callbacks that [allowances] hands to [Promise.all]. *)
Definition allowances_tasks (svc : Services) (tezos : Tezosish)
    (req : AllowancesRequest.t) : list (M (option (string * string))) :=
  let tokens := resolved tezos (AllowancesRequest.tokenSymbols req) in
  map (allowances_callback svc tezos req tokens) (JS.keys tokens).

Definition allowances_response (svc : Services) (tezos : Tezosish)
    (req : AllowancesRequest.t) (approvals : JS.Record string)
    : AllowancesResponse.t :=
  {| AllowancesResponse.network := chainName tezos;
     AllowancesResponse.timestamp := Date_now svc 0;
     AllowancesResponse.latency := latency svc (Date_now svc 0) (Date_now svc 1);
     AllowancesResponse.spender := AllowancesRequest.spender req;
     AllowancesResponse.approvals := approvals |}.

(** ** The routes (tezos.routes.ts) *)

(** The body of a request: the two fields every route reads, and the fields
    of the controller's request. *)
Module Body.
Record t (R : Type) : Type := mk {
  chain : string;
  network : string;
  fields : R;
}.
Arguments mk {R} chain network fields.
Arguments chain {R} t.
Arguments network {R} t.
Arguments fields {R} t.
End Body.

(** [res.status(status).json(json)] *)
Module Reply.
Record t (A : Type) : Type := mk {
  status : Z;
  json : A;
}.
Arguments mk {A} status json.
Arguments status {A} t.
Arguments json {A} t.
End Reply.

(** The body that [/nextNonce] sends: [{...nonceRes, nonce: nonceRes.nonce + 1}]. *)
Module NextNonceResponse.
Record t : Type := mk { nonce : JS.number }.
End NextNonceResponse.

(** What the routes import from [tezos.validators] and
    [services/connection-manager], whose sources are not part of the
    repository files at hand: they are parameters.  A validator returns or
    throws. *)
Record Imports : Type := {
  validateTezosNonceRequest : Body.t NonceRequest.t -> result unit;
  validateTezosBalanceRequest : Body.t BalanceRequest.t -> result unit;
  validateTezosAllowancesRequest : Body.t AllowancesRequest.t -> result unit;
  validateTezosApproveRequest : Body.t ApproveRequest.t -> result unit;
  getChain : string -> string -> promise Tezosish;
}.

(** What a handler does before it answers. *)
Inductive step : Type :=
| Validate (validator : string)
| GetChain (chain network : string)
| Client (c : call).

(** A handler passed to [asyncHandler]: its outcome and its steps. *)
Definition Handler (A : Type) : Type := (result A * list step)%type.

Definition and_then {A B : Type} (m : Handler A) (k : A -> Handler B)
    : Handler B :=
  match m with
  | (Ok a, steps) => let (r, steps') := k a in (r, (steps ++ steps')%list)
  | (Throw e, steps) => (Throw e, steps)
  end.

Notation "x <~ m ;; k" := (and_then m (fun x => k))
  (at level 61, m at next level, right associativity).

Definition validated (validator : string) (r : result unit) : Handler unit :=
  (r, [Validate validator]).

(** [await getChain(chain, network)] *)
Definition connected (imports : Imports) (chain network : string)
    : Handler Tezosish :=
  (await (getChain imports chain network), [GetChain chain network]).

(** [await tezosControllers.f(chain, request)] *)
Definition controller {A : Type} (m : M A) : Handler A :=
  (outcome m, map Client (calls m)).

Definition respond {A : Type} (status : Z) (json : A) : Handler (Reply.t A) :=
  (Ok (Reply.mk status json), []).

Module TezosRoutes.

Definition post_nextNonce (imports : Imports) (body : Body.t NonceRequest.t)
    : Handler (Reply.t NextNonceResponse.t) :=
  _ <~ validated "validateTezosNonceRequest"
         (validateTezosNonceRequest imports body) ;;
  chain <~ connected imports (Body.chain body) (Body.network body) ;;
  nonceRes <~ controller (nonce chain (Body.fields body)) ;;
  respond 200
    {| NextNonceResponse.nonce :=
         JS.add (JS.Finite (NonceResponse.nonce nonceRes)) (JS.Finite 1) |}.

Definition post_nonce (imports : Imports) (body : Body.t NonceRequest.t)
    : Handler (Reply.t NonceResponse.t) :=
  _ <~ validated "validateTezosNonceRequest"
         (validateTezosNonceRequest imports body) ;;
  chain <~ connected imports (Body.chain body) (Body.network body) ;;
  nonceRes <~ controller (nonce chain (Body.fields body)) ;;
  respond 200 nonceRes.

Definition post_balances (svc : Services) (imports : Imports)
    (body : Body.t BalanceRequest.t) : Handler (Reply.t BalanceResponse.t) :=
  _ <~ validated "validateTezosBalanceRequest"
         (validateTezosBalanceRequest imports body) ;;
  chain <~ connected imports "tezos" (Body.network body) ;;
  balancesRes <~ controller (balances svc chain (Body.fields body)) ;;
  respond 200 balancesRes.

Definition post_poll (svc : Services) (imports : Imports)
    (body : Body.t PollRequest.t) : Handler (Reply.t PollResponse.t) :=
  chain <~ connected imports "tezos" (Body.network body) ;;
  pollRes <~ controller
               (poll svc chain
                  {| PollRequest.txHash :=
                       PollRequest.txHash (Body.fields body) |}) ;;
  respond 200 pollRes.

Definition post_allowances (svc : Services) (imports : Imports)
    (body : Body.t AllowancesRequest.t)
    : Handler (Reply.t AllowancesResponse.t) :=
  _ <~ validated "validateTezosAllowancesRequest"
         (validateTezosAllowancesRequest imports body) ;;
  chain <~ connected imports (Body.chain body) (Body.network body) ;;
  allowancesRes <~
    controller (allowances svc chain (Body.fields body)) ;;
  respond 200 allowancesRes.

Definition post_approve (svc : Services) (imports : Imports)
    (body : Body.t ApproveRequest.t) : Handler (Reply.t ApproveResponse.t) :=
  _ <~ validated "validateTezosApproveRequest"
         (validateTezosApproveRequest imports body) ;;
  chain <~ connected imports (Body.chain body) (Body.network body) ;;
  approveRes <~ controller (approve svc chain (Body.fields body)) ;;
  respond 200 approveRes.

End TezosRoutes.

(** A route that connects before it calls the controller: after the steps
    of [preamble], it asks the connection manager for [chain body] on the
    network of the request, and throws what the connection manager throws. *)
Definition connects_to {R A : Type} (imports : Imports)
    (preamble : list step) (chain : Body.t R -> string)
    (route : Body.t R -> Handler (Reply.t A)) (body : Body.t R) : Prop :=
  let connection := GetChain (chain body) (Body.network body) in
  (forall reason,
     getChain imports (chain body) (Body.network body) = Rejected reason ->
     route body = (Throw (Uncaught reason), (preamble ++ [connection])%list)) /\
  exists rest, snd (route body) = (preamble ++ connection :: rest)%list.

(** ** Notions used in the further properties *)

Definition is_send (c : call) : bool :=
  match c with Send _ _ => true | _ => false end.

(** What [parseInt] leaves unread after a numeral: nothing, or a suffix that
    starts with a character that is neither a digit nor the [x] of a
    hexadecimal prefix. *)
Definition unread_suffix (s : string) : Prop :=
  match s with
  | EmptyString => True
  | String c _ =>
      JS.is_digit c = false /\ c <> "x"%char /\ c <> "X"%char
  end.

(** ** A sample deployment, for the examples below *)

Module Sample.

(** A decimal rendering of [value / 10^decimals] with [decimals] places. *)
Definition scaled (value decimals : Z) : string :=
  let unit := 10 ^ decimals in
  let fraction := JS.decimal (value mod unit) in
  JS.decimal (value / unit) ++ "." ++
  ethers.zeros (Z.to_nat decimals - String.length fraction) ++ fraction.

Definition token_value (value decimals : Z) : JS.value :=
  JS.Object [("value", JS.BigNumber value);
             ("decimals", JS.Number (JS.Finite decimals))].

Definition services : Services :=
  {| LOAD_WALLET_ERROR_CODE := 1006;
     LOAD_WALLET_ERROR_MESSAGE := "Failed to load wallet: ";
     TOKEN_NOT_SUPPORTED_ERROR_CODE := 1007;
     TOKEN_NOT_SUPPORTED_ERROR_MESSAGE := "Token not supported: ";
     bigNumberWithDecimalToStr := scaled;
     latency := fun t0 t1 => JS.Number (JS.Finite (t1 - t0));
     tokenValueToString :=
       fun v =>
         match v with
         | JS.Object [(_, JS.BigNumber value); (_, JS.Number (JS.Finite decimals))] =>
             scaled value decimals
         | _ => "NaN"
         end;
     JSON_stringify :=
       fun v => match v with JS.Undefined => None | _ => Some "{}" end;
     Date_now := fun n => 1700000000000 + Z.of_nat n |}.

Definition USDT : TokenInfo.t :=
  {| TokenInfo.address := "KT1usdt"; TokenInfo.decimals := 6;
     TokenInfo.standard := "fa2"; TokenInfo.tokenId := Some 0 |}.

Definition CTEZ : TokenInfo.t :=
  {| TokenInfo.address := "KT1ctez"; TokenInfo.decimals := 6;
     TokenInfo.standard := "fa1.2"; TokenInfo.tokenId := None |}.

Definition OBJKT : TokenInfo.t :=
  {| TokenInfo.address := "KT1objkt"; TokenInfo.decimals := 0;
     TokenInfo.standard := "fa2"; TokenInfo.tokenId := None |}.

Definition OLD : TokenInfo.t :=
  {| TokenInfo.address := "KT1old"; TokenInfo.decimals := 8;
     TokenInfo.standard := "fa1"; TokenInfo.tokenId := Some 0 |}.

Definition operation (gas storage : string) : OperationContents.t :=
  {| OperationContents.source := "tz1owner";
     OperationContents.destination := "KT1usdt";
     OperationContents.counter := "41";
     OperationContents.gas_limit := gas;
     OperationContents.storage_limit := storage;
     OperationContents.amount := "0";
     OperationContents.parameters :=
       JS.Object [("entrypoint", JS.Str "approve")] |}.

Definition submitted : TransactionOperation.t :=
  {| TransactionOperation.hash := "op1";
     TransactionOperation.operationResults := [operation "1500" "300"] |}.

Definition contract : Contract :=
  {| send := fun entrypoint params => Resolved submitted |}.

Definition wallet : TezosToolkit :=
  {| contract_at := fun address => Resolved contract;
     rpc_getChainId := Resolved "NetXdQprcVkpaWU" |}.

Definition pending (hash : string) : PendingOperation.t :=
  {| PendingOperation.hash := hash;
     PendingOperation.contents := [JS.Str hash] |}.

Definition mempool : PendingOperations.t :=
  {| PendingOperations.applied := [pending "opA"];
     PendingOperations.branch_delayed := [pending "opB"];
     PendingOperations.branch_refused := [pending "opC"];
     PendingOperations.refused := [pending "opD"];
     PendingOperations.unprocessed := [pending "opE"] |}.

Definition tezos : Tezosish :=
  {| nativeTokenSymbol := "XTZ";
     chainName := "tezos";
     chain := "tezos";
     getTokenForSymbol := fun symbol =>
       if (symbol =? "USDT")%string then Some USDT
       else if (symbol =? "CTEZ")%string then Some CTEZ
       else if (symbol =? "OBJKT")%string then Some OBJKT
       else if (symbol =? "OLD")%string then Some OLD
       else None;
     getNonce := fun address => Resolved 41;
     getNativeBalance := fun address => Resolved (token_value 1000000 6);
     getTokenBalance := fun contractAddress owner tokenId decimals =>
       Resolved (token_value 2500000 decimals);
     getTokenAllowance :=
       fun contractAddress owner spender tokenStandard tokenId decimals =>
         Resolved (token_value 7 decimals);
     getCurrentBlockNumber := Resolved 4200000;
     getPendingTransactions := Resolved mempool;
     getTransaction := fun txHash =>
       Resolved (if (txHash =? "opF")%string
                 then JS.Object [("hash", JS.Str "opF")]
                 else JS.Null);
     getWallet := fun address =>
       if (address =? "tz1owner")%string then Resolved wallet
       else Rejected "Error: no key for this address" |}.

Definition balance_request : BalanceRequest.t :=
  {| BalanceRequest.address := "tz1owner";
     BalanceRequest.tokenSymbols := ["XTZ"; "USDT"; "CTEZ"; "NOPE"] |}.

Definition allowances_request : AllowancesRequest.t :=
  {| AllowancesRequest.address := "tz1owner";
     AllowancesRequest.spender := "tz1spender";
     AllowancesRequest.tokenSymbols := ["USDT"; "CTEZ"; "OBJKT"; "NOPE"] |}.

Definition poll_request (txHash : string) : PollRequest.t :=
  {| PollRequest.txHash := txHash |}.

Definition approve_request (amount : option string) (address token : string)
    : ApproveRequest.t :=
  {| ApproveRequest.amount := amount;
     ApproveRequest.address := address;
     ApproveRequest.spender := "tz1spender";
     ApproveRequest.token := token |}.

End Sample.

(** ** A degraded deployment, for the examples of failures

    The node answers no query, the chain id cannot be read, and the
    operations that the contract submits come back without a result. *)

Module Scenario.

Definition refused : string := "Error: connect ECONNREFUSED".

Definition unconfirmed : TransactionOperation.t :=
  {| TransactionOperation.hash := "op2";
     TransactionOperation.operationResults := [] |}.

Definition contract : Contract :=
  {| send := fun entrypoint params => Resolved unconfirmed |}.

Definition wallet : TezosToolkit :=
  {| contract_at := fun address => Resolved contract;
     rpc_getChainId := Rejected refused |}.

Definition tezos : Tezosish :=
  {| nativeTokenSymbol := "XTZ";
     chainName := "tezos";
     chain := "tezos";
     getTokenForSymbol := getTokenForSymbol Sample.tezos;
     getNonce := fun address => Rejected refused;
     getNativeBalance := fun address => Rejected refused;
     getTokenBalance := fun contractAddress owner tokenId decimals =>
       Rejected refused;
     getTokenAllowance :=
       fun contractAddress owner spender tokenStandard tokenId decimals =>
         Rejected refused;
     getCurrentBlockNumber := Rejected refused;
     getPendingTransactions := Rejected refused;
     getTransaction := fun txHash => Rejected refused;
     getWallet := fun address => Resolved wallet |}.

(** Validators that accept every body, and a connection manager that knows
    the chain [tezos]. *)
Definition imports (tezos : Tezosish) : Imports :=
  {| validateTezosNonceRequest := fun body => Ok tt;
     validateTezosBalanceRequest := fun body => Ok tt;
     validateTezosAllowancesRequest := fun body => Ok tt;
     validateTezosApproveRequest := fun body => Ok tt;
     getChain := fun chain network =>
       if (chain =? "tezos")%string then Resolved tezos
       else Rejected "unsupported chain" |}.

End Scenario.

(** * Properties *)

(** ** Decimal numerals *)

Lemma digit_char_spec (d : Z) :
  0 <= d < 10 ->
  JS.is_digit (JS.digit_char d) = true /\ JS.digit_value (JS.digit_char d) = d.
Proof.
  intros H.
  assert (d = 0 \/ d = 1 \/ d = 2 \/ d = 3 \/ d = 4 \/ d = 5 \/ d = 6 \/
          d = 7 \/ d = 8 \/ d = 9) as C by lia.
  repeat (destruct C as [-> | C]; [split; reflexivity |]).
  subst d; split; reflexivity.
Qed.

Lemma parse_digits_digit (acc d : Z) (s : string) :
  0 <= d < 10 ->
  JS.parse_digits acc (String (JS.digit_char d) s) = JS.parse_digits (10 * acc + d) s.
Proof.
  intros H. destruct (digit_char_spec d H) as [Hd Hv].
  simpl. rewrite Hd, Hv. reflexivity.
Qed.

Lemma parse_digits_onto (fuel : nat) :
  forall (n : Z) (acc : string) (v : Z),
    0 <= n < 10 ^ Z.of_nat fuel ->
    exists k : Z,
      0 <= k /\
      JS.parse_digits v (JS.digits_onto fuel n acc) = JS.parse_digits (v * 10 ^ k + n) acc.
Proof.
  induction fuel as [| fuel IH]; intros n acc v Hn.
  - exists 0. simpl in *. split; [lia |]. f_equal. lia.
  - cbn [JS.digits_onto].
    assert (0 <= n mod 10 < 10) as Hd by (apply Z.mod_pos_bound; lia).
    destruct (n <? 10) eqn:Hlt.
    + apply Z.ltb_lt in Hlt. exists 1. split; [lia |].
      rewrite parse_digits_digit by exact Hd.
      f_equal. rewrite Z.mod_small by lia. lia.
    + apply Z.ltb_ge in Hlt.
      assert (0 <= n / 10 < 10 ^ Z.of_nat fuel) as Hq.
      { split; [apply Z.div_pos; lia |].
        apply Z.div_lt_upper_bound; [lia |].
        replace (Z.of_nat (S fuel)) with (Z.of_nat fuel + 1) in Hn by lia.
        rewrite Z.pow_add_r in Hn by lia. lia. }
      destruct (IH (n / 10) (String (JS.digit_char (n mod 10)) acc) v Hq)
        as (k & Hk & E).
      exists (k + 1). split; [lia |].
      rewrite E, parse_digits_digit by exact Hd.
      f_equal. rewrite Z.pow_add_r by lia.
      pose proof (Z.div_mod n 10 ltac:(lia)). lia.
Qed.

Lemma decimal_fuel (n : Z) :
  0 <= n -> n < 10 ^ Z.of_nat (S (Z.to_nat (Z.log2 n))).
Proof.
  intros H.
  destruct (Z.eq_dec n 0) as [-> | Hne]; [reflexivity |].
  pose proof (Z.log2_nonneg n) as Hl.
  pose proof (Z.log2_spec n ltac:(lia)) as [_ Hu].
  replace (Z.of_nat (S (Z.to_nat (Z.log2 n)))) with (Z.succ (Z.log2 n)) by lia.
  eapply Z.lt_le_trans; [exact Hu |].
  apply Z.pow_le_mono_l. lia.
Qed.

Lemma parse_decimal (n : Z) : 0 <= n -> JS.parse_digits 0 (JS.decimal n) = n.
Proof.
  intros H. unfold JS.decimal.
  destruct (parse_digits_onto (S (Z.to_nat (Z.log2 n))) n "" 0) as (k & _ & E).
  - split; [exact H | apply decimal_fuel; exact H].
  - rewrite E. simpl. lia.
Qed.

Lemma all_digits_onto (fuel : nat) :
  forall (n : Z) (acc : string),
    0 <= n -> JS.all_digits acc = true ->
    JS.all_digits (JS.digits_onto fuel n acc) = true.
Proof.
  induction fuel as [| fuel IH]; intros n acc Hn Hacc; [exact Hacc |].
  cbn [JS.digits_onto].
  assert (JS.all_digits (String (JS.digit_char (n mod 10)) acc) = true) as H'.
  { simpl. rewrite Hacc.
    destruct (digit_char_spec (n mod 10)) as [-> _]; [| reflexivity].
    apply Z.mod_pos_bound; lia. }
  destruct (n <? 10); [exact H' |].
  apply IH; [apply Z.div_pos; lia | exact H'].
Qed.

Lemma digits_onto_nonempty (fuel : nat) :
  forall (n : Z) (acc : string),
    acc <> "" -> JS.digits_onto fuel n acc <> "".
Proof.
  induction fuel as [| fuel IH]; intros n acc Hacc; [exact Hacc |].
  cbn [JS.digits_onto].
  destruct (n <? 10); [discriminate |].
  apply IH. discriminate.
Qed.

Lemma decimal_shape (n : Z) :
  0 <= n ->
  exists c rest, JS.decimal n = String c rest /\
                 JS.is_digit c = true /\ JS.all_digits rest = true.
Proof.
  intros H.
  assert (JS.all_digits (JS.decimal n) = true) as Hall
    by (apply all_digits_onto; [exact H | reflexivity]).
  assert (JS.decimal n <> "") as Hne.
  { unfold JS.decimal. cbn [JS.digits_onto].
    destruct (n <? 10); [discriminate |].
    apply digits_onto_nonempty. discriminate. }
  destruct (JS.decimal n) as [| c rest]; [congruence |].
  simpl in Hall. apply andb_true_iff in Hall as [Hc Hr].
  exists c, rest. auto.
Qed.

Lemma is_digit_code (c : ascii) :
  JS.is_digit c = true -> 48 <= Z.of_N (N_of_ascii c) <= 57.
Proof. unfold JS.is_digit. intros H. apply andb_true_iff in H. lia. Qed.

Lemma digit_not (c x : ascii) :
  JS.is_digit c = true -> JS.is_digit x = false -> Ascii.eqb c x = false.
Proof.
  intros Hc Hx. destruct (Ascii.eqb c x) eqn:E; [| reflexivity].
  apply Ascii.eqb_eq in E. congruence.
Qed.

Lemma digit_not_white (c : ascii) :
  JS.is_digit c = true -> JS.is_white_space c = false.
Proof.
  intros H. apply is_digit_code in H. unfold JS.is_white_space.
  apply orb_false_iff. split; [apply andb_false_iff |]; lia.
Qed.

Lemma trim_start_digit (c : ascii) (rest : string) :
  JS.is_digit c = true -> JS.trim_start (String c rest) = String c rest.
Proof.
  intros Hc. cbn [JS.trim_start]. rewrite (digit_not_white c Hc).
  apply is_digit_code in Hc.
  assert (forall c2, JS.is_white_space2 c c2 = false) as H2.
  { intros c2. unfold JS.is_white_space2.
    assert ((Z.of_N (N_of_ascii c) =? 194) = false) as -> by lia.
    reflexivity. }
  assert (forall c2 c3, JS.is_white_space3 c c2 c3 = false) as H3.
  { intros c2 c3. unfold JS.is_white_space3. cbv zeta.
    assert ((Z.of_N (N_of_ascii c) =? 225) = false) as -> by lia.
    assert ((Z.of_N (N_of_ascii c) =? 226) = false) as -> by lia.
    assert ((Z.of_N (N_of_ascii c) =? 227) = false) as -> by lia.
    assert ((Z.of_N (N_of_ascii c) =? 239) = false) as -> by lia.
    reflexivity. }
  destruct rest as [| c2 [| c3 rest]]; [reflexivity | |];
    rewrite H2; [reflexivity |]. rewrite H3. reflexivity.
Qed.

Lemma parseInt_digits (c : ascii) (rest : string) :
  JS.is_digit c = true -> JS.all_digits rest = true ->
  JS.parseInt (String c rest) = JS.of_integer (JS.parse_digits 0 (String c rest)).
Proof.
  intros Hc Hr. unfold JS.parseInt.
  rewrite (trim_start_digit c _ Hc).
  cbn [JS.strip_sign].
  rewrite (digit_not c "-" Hc eq_refl), (digit_not c "+" Hc eq_refl).
  assert (JS.strip_hex_prefix (String c rest) = (false, String c rest)) as ->.
  { destruct rest as [| x rest']; [reflexivity |].
    simpl in Hr. apply andb_true_iff in Hr as [Hx _].
    cbn [JS.strip_hex_prefix].
    rewrite (digit_not x "x" Hx eq_refl), (digit_not x "X" Hx eq_refl).
    rewrite andb_false_r. reflexivity. }
  rewrite Hc. reflexivity.
Qed.

(** ** Doubles: [parseInt], [+] and [String] in the exact range *)

Lemma round53_exact (n : Z) : 0 <= n <= 2 ^ 53 -> JS.round53 n = n.
Proof.
  intros [H0 H1]. unfold JS.round53.
  destruct (Z.log2 n - 52 <=? 0) eqn:E; [reflexivity |].
  apply Z.leb_gt in E.
  assert (n = 2 ^ 53) as ->; [| reflexivity].
  assert (0 < n) as Hpos.
  { destruct (Z.eq_dec n 0) as [-> | ]; [simpl in E; lia | lia]. }
  pose proof (Z.log2_spec n Hpos) as [Hl _].
  assert (2 ^ 53 <= 2 ^ Z.log2 n) by (apply Z.pow_le_mono_r; lia).
  lia.
Qed.

(** Above [2^53] the rounding stays at or above [2^53], and only
    [2^53 + 1] is rounded down to it. *)
Lemma round53_large (x : Z) :
  2 ^ 53 < x ->
  2 ^ 53 <= JS.round53 x /\ (JS.round53 x = 2 ^ 53 -> x = 2 ^ 53 + 1).
Proof.
  intros Hx. unfold JS.round53.
  assert (0 < x) as Hpos by lia.
  pose proof (Z.log2_spec x Hpos) as [Hl Hu].
  assert (53 <= Z.log2 x) as HL.
  { apply Z.log2_le_pow2; lia. }
  set (e := Z.log2 x - 52) in *.
  assert (1 <= e) as He by (unfold e; lia).
  destruct (e <=? 0) eqn:E; [apply Z.leb_le in E; lia |].
  assert (0 < 2 ^ e) as Hpe by (apply Z.pow_pos_nonneg; lia).
  assert (2 ^ Z.log2 x = 2 ^ 52 * 2 ^ e) as E1.
  { rewrite <- Z.pow_add_r by lia. f_equal. unfold e. lia. }
  assert (2 ^ Z.succ (Z.log2 x) = 2 ^ 53 * 2 ^ e) as E2.
  { rewrite <- Z.pow_add_r by lia. f_equal. unfold e. lia. }
  assert (2 ^ 52 <= x / 2 ^ e) as Hq1.
  { apply Z.div_le_lower_bound; lia. }
  assert (x / 2 ^ e < 2 ^ 53) as Hq2.
  { apply Z.div_lt_upper_bound; lia. }
  assert (2 <= 2 ^ e) as Hp2.
  { change 2 with (2 ^ 1) at 1. apply Z.pow_le_mono_r; lia. }
  set (q := x / 2 ^ e) in *.
  set (r := x mod 2 ^ e) in *.
  set (q' := if (2 ^ (e - 1) <? r) || ((r =? 2 ^ (e - 1)) && Z.odd q)
             then q + 1 else q).
  assert (q <= q' <= q + 1) as Hq'.
  { unfold q'. destruct ((2 ^ (e - 1) <? r) || ((r =? 2 ^ (e - 1)) && Z.odd q)); lia. }
  split; [nia |].
  intros Heq.
  assert (2 ^ e = 2) as Hee by nia.
  assert (e = 1) as He1.
  { apply (Z.pow_inj_r 2); [lia | lia | lia | exact Hee]. }
  assert (q' = 2 ^ 52) as Hq'52 by nia.
  assert (q = 2 ^ 52) as Hq52 by lia.
  pose proof (Z.div_mod x (2 ^ e) ltac:(lia)) as Hdm.
  pose proof (Z.mod_pos_bound x (2 ^ e) Hpe) as Hr.
  fold q r in Hdm, Hr.
  rewrite Hee in Hdm, Hr. lia.
Qed.

Lemma of_integer_exact (n : Z) :
  0 <= n <= 2 ^ 53 -> JS.of_integer n = JS.Finite n.
Proof.
  intros H. unfold JS.of_integer.
  rewrite Z.abs_eq by lia. rewrite round53_exact by exact H.
  destruct (2 ^ 1024 <=? n) eqn:E.
  - apply Z.leb_le in E.
    assert (2 ^ 53 < 2 ^ 1024) by (apply Z.pow_lt_mono_r; lia). lia.
  - f_equal. destruct (Z.eq_dec n 0) as [-> | Hne]; [reflexivity |].
    rewrite Z.sgn_pos by lia. lia.
Qed.

Lemma add_exact (a b : Z) :
  0 <= a -> 0 <= b -> a + b <= 2 ^ 53 ->
  JS.add (JS.Finite a) (JS.Finite b) = JS.Finite (a + b).
Proof. intros. simpl. apply of_integer_exact. lia. Qed.

Lemma parseInt_decimal (n : Z) :
  0 <= n -> JS.parseInt (JS.decimal n) = JS.of_integer n.
Proof.
  intros H. destruct (decimal_shape n H) as (c & rest & E & Hc & Hr).
  rewrite <- (parse_decimal n H) at 2.
  rewrite E. apply parseInt_digits; assumption.
Qed.

Lemma shortest_at_exact (m p : Z) :
  0 < m <= 2 ^ 53 -> 0 < p -> (10 | p) ->
  forall x, JS.shortest_at m p = Some x -> x = m.
Proof.
  intros Hm Hp Hdiv x. unfold JS.shortest_at.
  pose proof (Z.div_mod m p ltac:(lia)) as Hdm.
  pose proof (Z.mod_pos_bound m p Hp) as Hr.
  assert (0 <= m / p) as Hq by (apply Z.div_pos; lia).
  set (lo := m / p * p) in *.
  assert (0 <= lo <= m) as Hlo by (unfold lo; nia).
  assert (m < lo + p) as Hhi by (unfold lo; nia).
  rewrite (round53_exact lo) by lia.
  assert ((JS.round53 (lo + p) =? m) = false) as ->.
  { apply Z.eqb_neq. intros E.
    destruct (Z_le_gt_dec (lo + p) (2 ^ 53)) as [Hle | Hgt].
    - rewrite round53_exact in E by lia. lia.
    - destruct (round53_large (lo + p) ltac:(lia)) as [Hge Hone].
      assert (m = 2 ^ 53) as Hm53 by lia.
      rewrite E in Hone. specialize (Hone Hm53).
      destruct Hdiv as [k Hk].
      assert (lo + p = 10 * ((m / p + 1) * k)) as Hmul by (unfold lo; nia).
      rewrite Hone in Hmul.
      assert ((2 ^ 53 + 1) mod 10 = 0) as Hbad.
      { rewrite Hmul. rewrite Z.mul_comm. apply Z.mod_mul. lia. }
      vm_compute in Hbad. discriminate. }
  destruct (lo =? m) eqn:El; [| discriminate].
  apply Z.eqb_eq in El. intros [= <-]. exact El.
Qed.

Lemma shortest_from_exact (j : nat) (m : Z) :
  0 < m <= 2 ^ 53 -> JS.shortest_from j m = m.
Proof.
  intros Hm. induction j as [| j IH]; [reflexivity |].
  cbn [JS.shortest_from].
  destruct (JS.shortest_at m (10 ^ Z.of_nat (S j))) as [x |] eqn:E; [| exact IH].
  apply (shortest_at_exact m (10 ^ Z.of_nat (S j))); try assumption.
  - apply Z.pow_pos_nonneg; lia.
  - exists (10 ^ Z.of_nat j).
    replace (Z.of_nat (S j)) with (Z.of_nat j + 1) by lia.
    rewrite Z.pow_add_r by lia. lia.
Qed.

Lemma ToString_exact (m : Z) :
  0 <= m <= 2 ^ 53 -> JS.ToString (JS.Finite m) = JS.decimal m.
Proof.
  intros Hm. unfold JS.ToString.
  destruct (m <? 0) eqn:E; [apply Z.ltb_lt in E; lia |].
  unfold JS.magnitude_to_string.
  destruct (m =? 0) eqn:E0.
  - apply Z.eqb_eq in E0. subst m. reflexivity.
  - apply Z.eqb_neq in E0. unfold JS.shortest.
    rewrite shortest_from_exact by lia.
    destruct (m <? 10 ^ 21) eqn:E21; [reflexivity |].
    apply Z.ltb_ge in E21.
    assert (2 ^ 53 < 10 ^ 21) by reflexivity. lia.
Qed.

(** ** [toTezosTransaction] *)

(** Claim C9, as amended.  For an operation whose [gas_limit] and
    [storage_limit] are the numerals of non-negative integers with a sum of
    at most [2^53], [gasLimit] is the numeral of the sum;
    [maxFeePerGas] and [maxPriorityFeePerGas] are null, [value] is the
    operation's [amount] as it stands, and [data] is [JSON.stringify] of
    its [parameters]. *)
Theorem toTezosTransaction_normalizes (svc : Services) (hash : string)
    (transaction : OperationContents.t) (chainId : string) (gas storage : Z) :
  0 <= gas -> 0 <= storage -> gas + storage <= 2 ^ 53 ->
  OperationContents.gas_limit transaction = JS.decimal gas ->
  OperationContents.storage_limit transaction = JS.decimal storage ->
  let tx := toTezosTransaction svc hash transaction chainId in
  CustomTransaction.gasLimit tx = JS.decimal (gas + storage) /\
  CustomTransaction.maxFeePerGas tx = None /\
  CustomTransaction.maxPriorityFeePerGas tx = None /\
  CustomTransaction.value tx = OperationContents.amount transaction /\
  CustomTransaction.data tx =
    JSON_stringify svc (OperationContents.parameters transaction).
Proof.
  intros Hg Hs Hsum Eg Es tx. subst tx. simpl.
  repeat split.
  rewrite Eg, Es, !parseInt_decimal by assumption.
  rewrite !of_integer_exact by lia.
  rewrite add_exact by assumption.
  apply ToString_exact. lia.
Qed.

(** Gas 1500 and storage 300 give the gas limit 1800. *)
Lemma toTezosTransaction_normalizes_witness :
  OperationContents.gas_limit (Sample.operation "1500" "300") = JS.decimal 1500 /\
  OperationContents.storage_limit (Sample.operation "1500" "300") = JS.decimal 300 /\
  CustomTransaction.gasLimit
    (toTezosTransaction Sample.services "op1" (Sample.operation "1500" "300")
       "NetXdQprcVkpaWU") = "1800".
Proof.
  split; [reflexivity |]. split; [reflexivity |].
  apply (toTezosTransaction_normalizes Sample.services "op1"
           (Sample.operation "1500" "300") "NetXdQprcVkpaWU" 1500 300).
  - discriminate.
  - discriminate.
  - discriminate.
  - reflexivity.
  - reflexivity.
Defined.

(** Claim C9 as stated fails above [2^53]: [parseInt] rounds the gas limit
    [2^53 + 1] to the double [2^53], and the sum with 0 is printed as
    9007199254740992. *)
Lemma toTezosTransaction_gasLimit_rounded :
  CustomTransaction.gasLimit
    (toTezosTransaction Sample.services "op1"
       (Sample.operation (JS.decimal 9007199254740993) (JS.decimal 0))
       "NetXdQprcVkpaWU")
  = "9007199254740992" /\
  JS.decimal (9007199254740993 + 0) = "9007199254740993" /\
  ~ (forall (svc : Services) (hash : string) (transaction : OperationContents.t)
            (chainId : string) (gas storage : Z),
       0 <= gas -> 0 <= storage ->
       OperationContents.gas_limit transaction = JS.decimal gas ->
       OperationContents.storage_limit transaction = JS.decimal storage ->
       CustomTransaction.gasLimit (toTezosTransaction svc hash transaction chainId)
       = JS.decimal (gas + storage)).
Proof.
  split; [vm_compute; reflexivity |].
  split; [vm_compute; reflexivity |].
  intros H.
  specialize (H Sample.services "op1"
                (Sample.operation (JS.decimal 9007199254740993) (JS.decimal 0))
                "NetXdQprcVkpaWU" 9007199254740993 0
                ltac:(lia) ltac:(lia) eq_refl eq_refl).
  vm_compute in H. discriminate.
Qed.

(** ** [parseUnits] on decimal numerals *)

Lemma parse_digits_app (s t : string) :
  JS.all_digits s = true ->
  forall acc, JS.parse_digits acc (s ++ t) = JS.parse_digits (JS.parse_digits acc s) t.
Proof.
  induction s as [| c s IH]; intros Hs acc; [reflexivity |].
  simpl in Hs. apply andb_true_iff in Hs as [Hc Hs].
  simpl. rewrite Hc. apply IH. exact Hs.
Qed.

Lemma parse_digits_zeros (n : nat) :
  forall acc, JS.parse_digits acc (ethers.zeros n) = acc * 10 ^ Z.of_nat n.
Proof.
  induction n as [| n IH]; intros acc.
  - simpl. lia.
  - cbn [ethers.zeros JS.parse_digits].
    change (JS.is_digit "0") with true. cbv iota.
    rewrite IH. change (JS.digit_value "0") with 0.
    replace (Z.of_nat (S n)) with (Z.of_nat n + 1) by lia.
    rewrite Z.pow_add_r by lia. lia.
Qed.

Lemma length_zeros (n : nat) : String.length (ethers.zeros n) = n.
Proof. induction n as [| n IH]; simpl; congruence. Qed.

Lemma is_digit_not_dot (c : ascii) :
  JS.is_digit c = true -> Ascii.eqb c "." = false.
Proof. intros H. apply digit_not; [exact H | reflexivity]. Qed.

Lemma digits_are_digits_or_dots (s : string) :
  JS.all_digits s = true -> ethers.digits_or_dots s = true.
Proof.
  induction s as [| c s IH]; [reflexivity |].
  simpl. intros H. apply andb_true_iff in H as [Hc Hs].
  rewrite Hc, (IH Hs). reflexivity.
Qed.

Lemma digits_or_dots_app (s t : string) :
  ethers.digits_or_dots (s ++ t) =
  ethers.digits_or_dots s && ethers.digits_or_dots t.
Proof.
  induction s as [| c s IH]; simpl; [reflexivity |].
  rewrite IH, andb_assoc. reflexivity.
Qed.

Lemma split_dot_digits (s : string) :
  JS.all_digits s = true -> ethers.split_dot s = (s, []).
Proof.
  induction s as [| c s IH]; [reflexivity |].
  simpl. intros H. apply andb_true_iff in H as [Hc Hs].
  rewrite (IH Hs), (is_digit_not_dot c Hc). reflexivity.
Qed.

Lemma split_dot_decimal (whole fraction : string) :
  JS.all_digits whole = true -> JS.all_digits fraction = true ->
  ethers.split_dot (whole ++ String "." fraction) = (whole, [fraction]).
Proof.
  intros Hw Hf. induction whole as [| c s IH].
  - simpl. rewrite (split_dot_digits fraction Hf). reflexivity.
  - simpl in Hw. apply andb_true_iff in Hw as [Hc Hs].
    simpl. rewrite (IH Hs), (is_digit_not_dot c Hc). reflexivity.
Qed.

(** The zeros that [parseFixed] removes from the end of the fraction do
    not change what the fraction denotes. *)
Lemma trim_trailing_zeros_spec (s : string) :
  JS.all_digits s = true ->
  JS.all_digits (ethers.trim_trailing_zeros s) = true /\
  (String.length (ethers.trim_trailing_zeros s) <= String.length s)%nat /\
  forall acc,
    JS.parse_digits acc s =
    JS.parse_digits acc (ethers.trim_trailing_zeros s) *
    10 ^ Z.of_nat (String.length s - String.length (ethers.trim_trailing_zeros s)).
Proof.
  induction s as [| c s IH]; intros Hs.
  - simpl. repeat split; auto. intros acc. lia.
  - simpl in Hs. apply andb_true_iff in Hs as [Hc Hs].
    destruct (IH Hs) as (Hall & Hlen & Hval).
    cbn [ethers.trim_trailing_zeros].
    destruct ((ethers.trim_trailing_zeros s =? "")%string && Ascii.eqb c "0") eqn:E.
    + apply andb_true_iff in E as [Et Ec].
      apply String.eqb_eq in Et. apply Ascii.eqb_eq in Ec. subst c.
      rewrite Et in Hval. simpl in Hval.
      repeat split; [simpl; lia |].
      intros acc. cbn [JS.parse_digits].
      change (JS.is_digit "0") with true. cbv iota.
      rewrite Hval. change (JS.digit_value "0") with 0. simpl String.length.
      replace (Z.of_nat (S (String.length s) - 0)) with (Z.of_nat (String.length s - 0) + 1)
        by lia.
      rewrite Z.pow_add_r by lia. lia.
    + repeat split.
      * simpl. rewrite Hc, Hall. reflexivity.
      * simpl. lia.
      * intros acc. simpl. rewrite Hc. apply Hval.
Qed.

Lemma getMultiplier_spec (decimals : Z) :
  0 <= decimals <= 256 ->
  ethers.getMultiplier decimals =
  Ok (String "1" (ethers.zeros (Z.to_nat decimals))).
Proof.
  intros H. unfold ethers.getMultiplier.
  assert ((0 <=? decimals) && (decimals <=? 256) = true) as ->; [| reflexivity].
  apply andb_true_iff. split; apply Z.leb_le; lia.
Qed.

(** The value that [parseFixed] computes from the whole part and the
    fraction it has split the numeral into. *)
Lemma parseFixed_parts (whole fraction : string) (decimals : Z) :
  JS.all_digits fraction = true ->
  (Z.of_nat (String.length fraction) <= decimals) ->
  let trimmed := ethers.trim_trailing_zeros fraction in
  let padded :=
    (if (trimmed =? "")%string then "0" else trimmed) ++
    ethers.zeros (Z.to_nat decimals -
                  String.length (if (trimmed =? "")%string then "0" else trimmed)) in
  JS.parse_digits 0 padded =
  JS.parse_digits 0 fraction * 10 ^ (decimals - Z.of_nat (String.length fraction)).
Proof.
  intros Hf Hlen trimmed padded.
  destruct (trim_trailing_zeros_spec fraction Hf) as (Hall & Hle & Hval).
  fold trimmed in Hall, Hle, Hval. subst padded.
  rewrite (Hval 0).
  destruct (trimmed =? "")%string eqn:E.
  - apply String.eqb_eq in E. rewrite E. simpl JS.parse_digits at 2.
    rewrite parse_digits_app by reflexivity.
    rewrite parse_digits_zeros. simpl. lia.
  - rewrite parse_digits_app by exact Hall.
    rewrite parse_digits_zeros.
    rewrite <- Z.mul_assoc, <- Z.pow_add_r by lia.
    f_equal. f_equal. lia.
Qed.

Lemma nonempty_digits (s : string) :
  s <> "" -> JS.all_digits s = true ->
  exists c rest, s = String c rest /\ JS.is_digit c = true.
Proof.
  destruct s as [| c rest]; [congruence |].
  simpl. intros _ H. apply andb_true_iff in H as [Hc _]. eauto.
Qed.

Lemma parseFixed_split (value whole fraction : string) (decimals : Z) :
  ethers.matches_decimal value = true ->
  ethers.starts_with_minus value = false ->
  (value =? ".")%string = false ->
  ethers.split_dot value =
    (whole, if (fraction =? "")%string then [] else [fraction]) ->
  whole <> "" ->
  JS.all_digits whole = true -> JS.all_digits fraction = true ->
  Z.of_nat (String.length fraction) <= decimals <= 256 ->
  ethers.parseFixed value decimals =
  Ok (JS.parse_digits 0 whole * 10 ^ decimals +
      JS.parse_digits 0 fraction * 10 ^ (decimals - Z.of_nat (String.length fraction))).
Proof.
  intros Hmatch Hminus Hdot Hsplit Hwne Hw Hf Hlen.
  unfold ethers.parseFixed.
  rewrite getMultiplier_spec by lia.
  rewrite Hmatch, Hminus. cbn [negb]. rewrite Hdot, Hsplit.
  assert ((2 <? Z.of_nat (S (List.length (if (fraction =? "")%string
                                          then [] else [fraction])))) = false) as ->.
  { destruct (fraction =? "")%string; reflexivity. }
  assert ((whole =? "")%string = false) as -> by (apply String.eqb_neq; exact Hwne).
  set (fraction' := match (if (fraction =? "")%string then [] else [fraction]) with
                    | f :: _ => if (f =? "")%string then "0" else f
                    | [] => "0"
                    end).
  assert (fraction' = if (fraction =? "")%string then "0" else fraction) as Hf'.
  { unfold fraction'. destruct (fraction =? "")%string eqn:E; [reflexivity |].
    rewrite E. reflexivity. }
  assert (ethers.trim_trailing_zeros fraction' = ethers.trim_trailing_zeros fraction)
    as Htrim.
  { rewrite Hf'. destruct (fraction =? "")%string eqn:E; [| reflexivity].
    apply String.eqb_eq in E. subst fraction. reflexivity. }
  rewrite Htrim.
  assert ((String.length (String "1" (ethers.zeros (Z.to_nat decimals))) - 1)%nat
          = Z.to_nat decimals) as ->
    by (simpl; rewrite length_zeros; lia).
  destruct (trim_trailing_zeros_spec fraction Hf) as (_ & Hle & _).
  assert ((Z.to_nat decimals <? String.length (ethers.trim_trailing_zeros fraction))%nat
          = false) as ->.
  { apply Nat.ltb_ge. lia. }
  f_equal.
  rewrite (parseFixed_parts whole fraction decimals Hf) by lia.
  cbn [JS.parse_digits]. change (JS.is_digit "1") with true. cbv iota.
  rewrite parse_digits_zeros. change (JS.digit_value "1") with 1.
  rewrite Z2Nat.id by lia. lia.
Qed.

Lemma parseFixed_decimal (whole fraction : string) (decimals : Z) :
  whole <> "" ->
  JS.all_digits whole = true -> JS.all_digits fraction = true ->
  Z.of_nat (String.length fraction) <= decimals <= 256 ->
  ethers.parseFixed (whole ++ "." ++ fraction) decimals =
  Ok (JS.parse_digits 0 whole * 10 ^ decimals +
      JS.parse_digits 0 fraction * 10 ^ (decimals - Z.of_nat (String.length fraction))).
Proof.
  intros Hwne Hw Hf Hlen.
  destruct (nonempty_digits whole Hwne Hw) as (c & rest & -> & Hc).
  change ("." ++ fraction) with (String "." fraction).
  assert (ethers.starts_with_minus (String c rest ++ String "." fraction) = false)
    as Hminus by (simpl; apply digit_not; [exact Hc | reflexivity]).
  assert (ethers.matches_decimal (String c rest ++ String "." fraction) = true)
    as Hmatch.
  { unfold ethers.matches_decimal. rewrite Hminus.
    apply andb_true_iff. split; [reflexivity |].
    rewrite digits_or_dots_app, (digits_are_digits_or_dots _ Hw).
    simpl. apply digits_are_digits_or_dots. exact Hf. }
  assert ((String c rest ++ String "." fraction =? ".")%string = false) as Hdot.
  { simpl. rewrite (is_digit_not_dot c Hc). reflexivity. }
  destruct (fraction =? "")%string eqn:E.
  - apply String.eqb_eq in E. subst fraction.
    (* the numeral ends with the dot: the fraction is the empty string *)
    unfold ethers.parseFixed.
    rewrite getMultiplier_spec by lia.
    rewrite Hmatch, Hminus. cbn [negb]. rewrite Hdot.
    rewrite (split_dot_decimal (String c rest) "" Hw Hf).
    assert ((String c rest =? "")%string = false) as -> by reflexivity.
    change (2 <? Z.of_nat (S (List.length [""]))) with false.
    change ("" =? "")%string with true. cbv iota.
    change (ethers.trim_trailing_zeros "0") with "".
    assert ((String.length (String "1" (ethers.zeros (Z.to_nat decimals))) - 1)%nat
            = Z.to_nat decimals) as ->
      by (simpl; rewrite length_zeros; lia).
    change (String.length "") with 0%nat.
    assert ((Z.to_nat decimals <? 0)%nat = false) as -> by reflexivity.
    change ("" =? "")%string with true. cbv iota.
    f_equal.
    rewrite (parse_digits_app "0" _ eq_refl), parse_digits_zeros.
    cbn [JS.parse_digits]. change (JS.is_digit "1") with true.
    change (JS.is_digit "0") with true. cbv iota.
    rewrite parse_digits_zeros. change (JS.digit_value "1") with 1.
    change (JS.digit_value "0") with 0.
    rewrite Z2Nat.id by lia. simpl (String.length ""). lia.
  - apply (parseFixed_split _ (String c rest) fraction); auto.
    rewrite E. apply split_dot_decimal; assumption.
Qed.

Lemma parseFixed_integer (whole : string) (decimals : Z) :
  whole <> "" -> JS.all_digits whole = true -> 0 <= decimals <= 256 ->
  ethers.parseFixed whole decimals = Ok (JS.parse_digits 0 whole * 10 ^ decimals).
Proof.
  intros Hwne Hw Hlen.
  destruct (nonempty_digits whole Hwne Hw) as (c & rest & -> & Hc).
  assert (ethers.starts_with_minus (String c rest) = false)
    as Hminus by (simpl; apply digit_not; [exact Hc | reflexivity]).
  rewrite (parseFixed_split (String c rest) (String c rest) "" decimals); auto.
  - f_equal. simpl (JS.parse_digits 0 ""). lia.
  - unfold ethers.matches_decimal. rewrite Hminus.
    apply andb_true_iff. split; [reflexivity |].
    apply digits_are_digits_or_dots. exact Hw.
  - simpl. rewrite (is_digit_not_dot c Hc). reflexivity.
  - apply split_dot_digits. exact Hw.
Qed.

Lemma parseFixed_throws (value : string) (decimals : Z) (e : exn) :
  ethers.parseFixed value decimals = Throw e -> exists reason, e = Uncaught reason.
Proof.
  unfold ethers.parseFixed, ethers.getMultiplier.
  repeat match goal with
    | |- context [if ?b then _ else _] => destruct b
    | |- context [let (_, _) := ?p in _] => destruct p
    end;
    intros [= <-]; eauto.
Qed.

Lemma amountBigNumber_throws (amount : option string) (decimals : Z) (e : exn) :
  amountBigNumber amount decimals = Throw e -> exists reason, e = Uncaught reason.
Proof.
  unfold amountBigNumber. destruct amount as [a |]; [| discriminate].
  destruct (JS.truthy (JS.Str a)); [| discriminate].
  apply parseFixed_throws.
Qed.

(** ** Objects used as maps *)

Lemma existsb_eqb_In (k : string) (l : list string) :
  existsb (fun k0 => (k0 =? k)%string) l = true <-> In k l.
Proof.
  rewrite existsb_exists. split.
  - intros (x & Hx & E). apply String.eqb_eq in E. subst. exact Hx.
  - intros H. exists k. split; [exact H | apply String.eqb_refl].
Qed.

Lemma includes_In (a : list string) (x : string) :
  JS.includes a x = true <-> In x a.
Proof. apply existsb_eqb_In. Qed.

Section Objects.

Context {V : Type}.

Lemma get_update (k : string) (v : V) (o : JS.Record V) (k' : string) :
  JS.get (JS.update k v o) k' = if (k =? k')%string then Some v else JS.get o k'.
Proof.
  induction o as [| [k0 v0] o IH]; simpl.
  - destruct (k =? k')%string; reflexivity.
  - destruct (k0 =? k)%string eqn:E0; simpl.
    + apply String.eqb_eq in E0. subst k0.
      destruct (k =? k')%string; reflexivity.
    + destruct (k0 =? k')%string eqn:E1; [| exact IH].
      apply String.eqb_eq in E1. subst k0.
      rewrite String.eqb_sym, E0. reflexivity.
Qed.

Lemma get_set (k : string) (v : V) (o : JS.Record V) (k' : string) :
  JS.get (JS.set k v o) k' =
  if (k =? k')%string && negb (k =? "__proto__")%string then Some v
  else JS.get o k'.
Proof.
  unfold JS.set. destruct (k =? "__proto__")%string.
  - rewrite andb_false_r. reflexivity.
  - rewrite andb_true_r. apply get_update.
Qed.

Lemma update_not_empty (k : string) (v : V) (o : JS.Record V) :
  JS.update k v o <> [].
Proof.
  destruct o as [| [k0 v0] o]; simpl; [discriminate |].
  destruct (k0 =? k)%string; discriminate.
Qed.

Lemma set_not_empty (k : string) (v : V) (o : JS.Record V) :
  o <> [] \/ k <> "__proto__" -> JS.set k v o <> [].
Proof.
  unfold JS.set. intros H.
  destruct (k =? "__proto__")%string eqn:E.
  - apply String.eqb_eq in E. destruct H; congruence.
  - apply update_not_empty.
Qed.

Lemma get_In (o : JS.Record V) (k : string) (v : V) :
  JS.get o k = Some v -> In k (map fst o).
Proof.
  induction o as [| [k0 v0] o IH]; simpl; [discriminate |].
  destruct (k0 =? k)%string eqn:E.
  - apply String.eqb_eq in E. auto.
  - auto.
Qed.

Lemma In_get (o : JS.Record V) (k : string) :
  In k (map fst o) -> exists v, JS.get o k = Some v.
Proof.
  induction o as [| [k0 v0] o IH]; simpl; [tauto |].
  intros H. destruct (k0 =? k)%string eqn:E; [eauto |].
  apply String.eqb_neq in E. destruct H; [congruence | auto].
Qed.

Lemma fst_update (k : string) (v : V) (o : JS.Record V) :
  map fst (JS.update k v o) =
  if existsb (fun k0 => (k0 =? k)%string) (map fst o) then map fst o
  else (map fst o ++ [k])%list.
Proof.
  induction o as [| [k0 v0] o IH]; simpl; [reflexivity |].
  destruct (k0 =? k)%string eqn:E; simpl.
  - apply String.eqb_eq in E. subst. reflexivity.
  - rewrite IH. destruct (existsb _ (map fst o)); reflexivity.
Qed.

Lemma NoDup_update (k : string) (v : V) (o : JS.Record V) :
  NoDup (map fst o) -> NoDup (map fst (JS.update k v o)).
Proof.
  intros H. rewrite fst_update.
  destruct (existsb _ (map fst o)) eqn:E; [exact H |].
  assert (~ In k (map fst o)) as Hn.
  { intros Hin. apply existsb_eqb_In in Hin. congruence. }
  apply NoDup_app; [exact H | repeat constructor; simpl; tauto |].
  intros x Hx [<- | []]. exact (Hn Hx).
Qed.

Lemma NoDup_set (k : string) (v : V) (o : JS.Record V) :
  NoDup (map fst o) -> NoDup (map fst (JS.set k v o)).
Proof.
  unfold JS.set. destruct (k =? "__proto__")%string; [auto |].
  apply NoDup_update.
Qed.

Lemma insert_by_index_perm (i : Z) (p : string * V)
    (l : list (Z * (string * V))) :
  Permutation (JS.insert_by_index i p l) ((i, p) :: l).
Proof.
  induction l as [| [j q] l IH]; simpl; [reflexivity |].
  destruct (i <? j); [reflexivity |].
  rewrite IH. apply perm_swap.
Qed.

Lemma keys_perm (o : JS.Record V) :
  Permutation (JS.keys o) (map fst o).
Proof.
  unfold JS.keys.
  induction o as [| [k v] o IH]; simpl; [reflexivity |].
  destruct (JS.split_keys o) as [indices names].
  destruct (JS.array_index k) as [i |]; simpl.
  - rewrite (Permutation_map _ (insert_by_index_perm i (k, v) indices)).
    simpl. apply perm_skip. exact IH.
  - rewrite <- IH. symmetry. apply Permutation_middle.
Qed.

Lemma keys_In (o : JS.Record V) (k : string) :
  In k (JS.keys o) <-> exists v, JS.get o k = Some v.
Proof.
  split.
  - intros H. apply In_get. apply (Permutation_in _ (keys_perm o)). exact H.
  - intros [v H]. apply (Permutation_in _ (Permutation_sym (keys_perm o))).
    apply (get_In _ _ _ H).
Qed.

Lemma keys_NoDup (o : JS.Record V) :
  NoDup (map fst o) -> NoDup (JS.keys o).
Proof.
  intros H. apply (Permutation_NoDup (Permutation_sym (keys_perm o))). exact H.
Qed.

Lemma keys_length (o : JS.Record V) :
  List.length (JS.keys o) = List.length o.
Proof.
  rewrite (Permutation_length (keys_perm o)). apply length_map.
Qed.

Lemma no_keys (o : JS.Record V) :
  (List.length (JS.keys o) =? 0)%nat = true <-> o = [].
Proof.
  rewrite keys_length, Nat.eqb_eq. destruct o; simpl; split; congruence || lia.
Qed.

Lemma get_assign_other (h : string -> option (string * V))
    (ks : list string) (s : string) :
  own_key h -> ~ In s ks ->
  forall o, JS.get (assign_all (map h ks) o) s = JS.get o s.
Proof.
  intros Hown. unfold assign_all.
  induction ks as [| k ks IH]; intros Hs o; simpl; [reflexivity |].
  simpl in Hs. rewrite IH by tauto.
  destruct (h k) as [[k' v] |] eqn:E; [| reflexivity].
  apply Hown in E. subst k'. rewrite get_set.
  destruct (k =? s)%string eqn:Eks; [| reflexivity].
  apply String.eqb_eq in Eks. tauto.
Qed.

Lemma get_assign_own (h : string -> option (string * V))
    (ks : list string) (s : string) :
  own_key h -> NoDup ks -> In s ks ->
  forall o,
    JS.get (assign_all (map h ks) o) s =
    match h s with
    | Some (_, v) => if (s =? "__proto__")%string then JS.get o s else Some v
    | None => JS.get o s
    end.
Proof.
  intros Hown Hnd. induction Hnd as [| k ks Hk Hnd IH]; intros Hs o; [destruct Hs |].
  destruct (string_dec k s) as [-> | Hne].
  - change (assign_all (map h (s :: ks)) o)
      with (assign_all (map h ks)
              match h s with Some (k, v) => JS.set k v o | None => o end).
    rewrite (get_assign_other h ks s Hown Hk).
    destruct (h s) as [[k' v] |] eqn:E; [| reflexivity].
    apply Hown in E. subst k'. rewrite get_set, String.eqb_refl. simpl.
    destruct (s =? "__proto__")%string; reflexivity.
  - destruct Hs as [-> | Hs]; [congruence |].
    change (assign_all (map h (k :: ks)) o)
      with (assign_all (map h ks)
              match h k with Some (k, v) => JS.set k v o | None => o end).
    rewrite (IH Hs).
    destruct (h k) as [[k' v] |] eqn:E; [| reflexivity].
    apply Hown in E. subst k'. rewrite get_set.
    assert ((k =? s)%string = false) as -> by (apply String.eqb_neq; exact Hne).
    reflexivity.
Qed.

Lemma assign_all_not_empty (l : list (option (string * V)))
    (o : JS.Record V) :
  o <> [] -> assign_all l o <> [].
Proof.
  unfold assign_all. revert o.
  induction l as [| a l IH]; intros o Ho; simpl; [exact Ho |].
  apply IH. destruct a as [[k v] |]; [| exact Ho].
  apply set_not_empty. auto.
Qed.

Lemma assign_all_None (l : list (option (string * V)))
    (o : JS.Record V) :
  Forall (fun a => a = None) l -> assign_all l o = o.
Proof.
  unfold assign_all. intros H. revert o.
  induction H as [| a l -> _ IH]; intros o; simpl; [reflexivity | apply IH].
Qed.

Lemma assign_all_Some (l : list (option (string * V)))
    (o : JS.Record V) (k : string) (v : V) :
  In (Some (k, v)) l -> k <> "__proto__" -> assign_all l o <> [].
Proof.
  unfold assign_all. revert o.
  induction l as [| a l IH]; intros o Hin Hk; [destruct Hin |].
  destruct Hin as [-> | Hin]; simpl.
  - apply (assign_all_not_empty l). apply set_not_empty. auto.
  - apply IH; assumption.
Qed.

End Objects.

(** ** Steps that only log calls *)

Lemma extend_nil (w : world) : extend w [] = w.
Proof. destruct w. unfold extend. simpl. rewrite app_nil_r. reflexivity. Qed.

Lemma extend_extend (w : world) (a b : list call) :
  extend (extend w a) b = extend w (a ++ b).
Proof. unfold extend. simpl. rewrite app_assoc. reflexivity. Qed.

Lemma record_extend (c : call) (w : world) : record c w = extend w [c].
Proof. reflexivity. Qed.

Lemma uniform_ret {A : Type} (a : A) : uniform (ret a).
Proof. intros w. unfold ret, outcome, calls. simpl. rewrite extend_nil. reflexivity. Qed.

Lemma uniform_throw {A : Type} (e : exn) : uniform (@throw A e).
Proof. intros w. unfold throw, outcome, calls. simpl. rewrite extend_nil. reflexivity. Qed.

Lemma uniform_invoke {A : Type} (c : call) (p : promise A) : uniform (invoke c p).
Proof. intros w. reflexivity. Qed.

Lemma uniform_bind {A B : Type} (m : M A) (k : A -> M B) :
  uniform m -> (forall a, uniform (k a)) -> uniform (bind m k).
Proof.
  intros Hm Hk w. unfold bind, outcome, calls.
  rewrite (Hm w), (Hm start).
  destruct (outcome m) as [a | e]; simpl.
  - rewrite (Hk a (extend w (calls m))), (Hk a (extend start (calls m))).
    simpl. rewrite extend_extend. reflexivity.
  - reflexivity.
Qed.

Lemma run_all_uniform {A : Type} (tasks : list (M A)) :
  Forall uniform tasks ->
  forall w, run_all tasks w =
            (map outcome tasks, extend w (List.concat (map calls tasks))).
Proof.
  induction 1 as [| t tasks Ht _ IH]; intros w; simpl.
  - rewrite extend_nil. reflexivity.
  - rewrite (Ht w), IH, extend_extend. reflexivity.
Qed.

Lemma in_concat_calls {A K : Type} (f : K -> M A) (ks : list K) (c : call) :
  In c (List.concat (map calls (map f ks))) <->
  exists k, In k ks /\ In c (calls (f k)).
Proof.
  rewrite in_concat. split.
  - intros (l & Hl & Hc). rewrite map_map in Hl.
    apply in_map_iff in Hl as (k & <- & Hk). eauto.
  - intros (k & Hk & Hc). exists (calls (f k)). split; [| exact Hc].
    rewrite map_map. apply in_map_iff. eauto.
Qed.

(** ** [Promise.all] *)

Lemma collect_Ok {A : Type} (rs : list (result (option A))) (l : list (option A)) :
  collect rs = Ok l ->
  l = map settled rs /\ Forall (fun r => exists a, r = Ok a) rs.
Proof.
  revert l. induction rs as [| r rs IH]; intros l; simpl.
  - intros [= <-]. auto.
  - destruct r as [a | e]; [| discriminate].
    destruct (collect rs) as [l' | e]; [| discriminate].
    intros [= <-]. destruct (IH l' eq_refl) as [-> Hall].
    split; [reflexivity | constructor; eauto].
Qed.

Lemma collect_all_Ok {A : Type} (rs : list (result (option A))) :
  Forall (fun r => exists a, r = Ok a) rs -> collect rs = Ok (map settled rs).
Proof.
  induction 1 as [| r rs [a ->] _ IH]; simpl; [reflexivity |].
  rewrite IH. reflexivity.
Qed.

(** The assignments of the callbacks, once [Promise.all] resolved. *)
Lemma collected_assignments {K : Type} (f : K -> M (option (string * string)))
    (ks : list K) (assignments : list (option (string * string))) :
  collect (map outcome (map f ks)) = Ok assignments ->
  assignments = map (fun k => settled (outcome (f k))) ks /\
  forall k, In k ks -> exists a, outcome (f k) = Ok a.
Proof.
  intros H. apply collect_Ok in H as [-> Hall].
  rewrite !map_map. split; [reflexivity |].
  intros k Hk. rewrite Forall_forall in Hall. apply Hall.
  apply in_map_iff. exists (f k). split; [reflexivity |].
  apply in_map. exact Hk.
Qed.

(** ** [getTokenSymbolsToTokens] *)

Lemma resolver_run (tezos : Tezosish) (tokenSymbols : list string) :
  forall tokens w,
    getTokenSymbolsToTokens_loop tezos tokenSymbols tokens w =
    (Ok (resolve_onto tezos tokenSymbols tokens),
     extend w (map GetTokenForSymbol tokenSymbols)).
Proof.
  induction tokenSymbols as [| symbol rest IH]; intros tokens w; simpl.
  - unfold ret. rewrite extend_nil. reflexivity.
  - unfold bind, lookup. rewrite IH, record_extend, extend_extend. reflexivity.
Qed.

Lemma getTokenSymbolsToTokens_run (tezos : Tezosish) (tokenSymbols : list string)
    (w : world) :
  getTokenSymbolsToTokens tezos tokenSymbols w =
  (Ok (resolved tezos tokenSymbols),
   extend w (map GetTokenForSymbol tokenSymbols)).
Proof. apply resolver_run. Qed.

(** What the resolver keeps: the requested symbols that the registry
    knows, except the key [__proto__]. *)
Lemma resolve_onto_get (tezos : Tezosish) (tokenSymbols : list string) :
  forall tokens symbol,
    JS.get (resolve_onto tezos tokenSymbols tokens) symbol =
    if JS.includes tokenSymbols symbol && negb (symbol =? "__proto__")%string
    then match getTokenForSymbol tezos symbol with
         | Some token => Some token
         | None => JS.get tokens symbol
         end
    else JS.get tokens symbol.
Proof.
  induction tokenSymbols as [| s rest IH]; intros tokens symbol; [reflexivity |].
  simpl. rewrite IH.
  destruct (s =? symbol)%string eqn:E.
  - apply String.eqb_eq in E. subst s. simpl.
    destruct (symbol =? "__proto__")%string eqn:Ep; simpl.
    + rewrite andb_false_r.
      destruct (getTokenForSymbol tezos symbol); [| reflexivity].
      rewrite get_set, Ep, andb_false_r. reflexivity.
    + rewrite andb_true_r.
      destruct (getTokenForSymbol tezos symbol) as [t |] eqn:Et.
      * rewrite get_set, String.eqb_refl, Ep. simpl.
        destruct (JS.includes rest symbol); reflexivity.
      * destruct (JS.includes rest symbol); reflexivity.
  - simpl.
    assert (JS.get match getTokenForSymbol tezos s with
                   | Some token => JS.set s token tokens
                   | None => tokens
                   end symbol = JS.get tokens symbol) as ->.
    { destruct (getTokenForSymbol tezos s); [| reflexivity].
      rewrite get_set, E. reflexivity. }
    reflexivity.
Qed.

Lemma resolved_get (tezos : Tezosish) (tokenSymbols : list string)
    (symbol : string) (token : TokenInfo.t) :
  JS.get (resolved tezos tokenSymbols) symbol = Some token <->
  In symbol tokenSymbols /\ symbol <> "__proto__" /\
  getTokenForSymbol tezos symbol = Some token.
Proof.
  unfold resolved. rewrite resolve_onto_get. simpl.
  destruct (JS.includes tokenSymbols symbol) eqn:Ei; simpl.
  - apply includes_In in Ei.
    destruct (symbol =? "__proto__")%string eqn:Ep; simpl.
    + apply String.eqb_eq in Ep. split; [discriminate | tauto].
    + apply String.eqb_neq in Ep.
      destruct (getTokenForSymbol tezos symbol) as [t |].
      * split; [intros [= <-]; auto | intros (_ & _ & [= <-]); reflexivity].
      * split; [discriminate | intros (_ & _ & H); discriminate].
  - split; [discriminate |]. intros (H & _). apply includes_In in H. congruence.
Qed.

Lemma resolve_onto_NoDup (tezos : Tezosish) (tokenSymbols : list string) :
  forall tokens,
    NoDup (map fst tokens) ->
    NoDup (map fst (resolve_onto tezos tokenSymbols tokens)).
Proof.
  induction tokenSymbols as [| s rest IH]; intros tokens H; [exact H |].
  simpl. apply IH. destruct (getTokenForSymbol tezos s); [| exact H].
  apply NoDup_set. exact H.
Qed.

Lemma resolved_keys_NoDup (tezos : Tezosish) (tokenSymbols : list string) :
  NoDup (JS.keys (resolved tezos tokenSymbols)).
Proof. apply keys_NoDup, resolve_onto_NoDup. constructor. Qed.

Lemma resolved_key_ordinary (tezos : Tezosish) (tokenSymbols : list string)
    (symbol : string) (token : TokenInfo.t) :
  JS.get (resolved tezos tokenSymbols) symbol = Some token ->
  symbol <> "__proto__".
Proof. intros H. apply resolved_get in H. tauto. Qed.

(** The mapping that the callbacks leave, key by key. *)
Lemma assigned_get (tezos : Tezosish) (tokenSymbols : list string)
    (f : string -> M (option (string * string))) (init : JS.Record string)
    (assignments : list (option (string * string))) :
  let tokens := resolved tezos tokenSymbols in
  own_key (fun k => settled (outcome (f k))) ->
  (forall k, JS.get tokens k = None -> settled (outcome (f k)) = None) ->
  collect (map outcome (map f (JS.keys tokens))) = Ok assignments ->
  forall s,
    JS.get (assign_all assignments init) s =
    match settled (outcome (f s)) with
    | Some (_, v) => Some v
    | None => JS.get init s
    end.
Proof.
  intros tokens Hown Hnone Hcollect s.
  apply collected_assignments in Hcollect as [-> _].
  destruct (in_dec string_dec s (JS.keys tokens)) as [Hin | Hout].
  - rewrite (get_assign_own _ _ s Hown (resolved_keys_NoDup tezos tokenSymbols) Hin).
    destruct (settled (outcome (f s))) as [[k v] |]; [| reflexivity].
    apply keys_In in Hin as [token Htoken].
    apply resolved_key_ordinary in Htoken.
    apply String.eqb_neq in Htoken. rewrite Htoken. reflexivity.
  - rewrite (get_assign_other _ _ s Hown Hout).
    rewrite Hnone; [reflexivity |].
    destruct (JS.get tokens s) as [token |] eqn:E; [| reflexivity].
    exfalso. apply Hout. apply keys_In. eauto.
Qed.


(** [getTokenSymbolsToTokens] looks every requested symbol up, in order,
    and returns the mapping of the symbols that the registry knows; the
    others are dropped without an error (and so is the key [__proto__],
    which an assignment cannot create). *)
Theorem getTokenSymbolsToTokens_resolves (tezos : Tezosish)
    (tokenSymbols : list string) :
  outcome (getTokenSymbolsToTokens tezos tokenSymbols) =
    Ok (resolved tezos tokenSymbols) /\
  calls (getTokenSymbolsToTokens tezos tokenSymbols) =
    map GetTokenForSymbol tokenSymbols /\
  forall symbol token,
    JS.get (resolved tezos tokenSymbols) symbol = Some token <->
    In symbol tokenSymbols /\ symbol <> "__proto__" /\
    getTokenForSymbol tezos symbol = Some token.
Proof.
  unfold outcome, calls. rewrite getTokenSymbolsToTokens_run.
  split; [reflexivity |]. split; [reflexivity |].
  intros symbol token. apply resolved_get.
Qed.

(** ** [poll] *)

Lemma find_hash_Some (partition : list PendingOperation.t) (txHash : string)
    (tx : PendingOperation.t) :
  find_hash partition txHash = Some tx ->
  In tx partition /\ PendingOperation.hash tx = txHash.
Proof.
  unfold find_hash. intros H. apply find_some in H as [Hin E].
  apply String.eqb_eq in E. auto.
Qed.

Lemma find_hash_None (partition : list PendingOperation.t) (txHash : string) :
  find_hash partition txHash = None <-> ~ in_partition partition txHash.
Proof.
  unfold find_hash, in_partition. split.
  - intros H Hin. apply in_map_iff in Hin as (tx & E & Hin).
    pose proof (find_none _ _ H tx Hin) as Hn. simpl in Hn.
    rewrite E, String.eqb_refl in Hn. discriminate.
  - intros H. destruct (find _ partition) as [tx |] eqn:E; [| reflexivity].
    apply find_some in E as [Hin E]. apply String.eqb_eq in E.
    exfalso. apply H. apply in_map_iff. eauto.
Qed.

Lemma found_spec (partition : list PendingOperation.t) (txHash : string) :
  found partition txHash = true <-> in_partition partition txHash.
Proof.
  unfold found. pose proof (find_hash_None partition txHash) as H.
  destruct (find_hash partition txHash) as [tx |] eqn:E.
  - split; [| reflexivity]. intros _.
    apply find_hash_Some in E as [Hin <-]. apply in_map. exact Hin.
  - split; [discriminate |]. intros Hin. exfalso. apply H; auto.
Qed.

Lemma found_false (partition : list PendingOperation.t) (txHash : string) :
  found partition txHash = false <-> ~ in_partition partition txHash.
Proof.
  rewrite <- found_spec. destruct (found partition txHash); split; congruence.
Qed.

Lemma truthy_not_null (v : JS.value) : JS.truthy v = true -> v <> JS.Null.
Proof. intros H ->. discriminate. Qed.

Ltac poll_start Hblock Hpending :=
  unfold outcome, calls, poll, bind, now, invoke, ret; simpl;
  rewrite Hblock, Hpending; simpl.

Ltac poll_piece :=
  intros; simpl in *;
  repeat match goal with
    | H : Ok _ = Ok _ |- _ => injection H as H; subst
    | H : Resolved _ = Resolved _ |- _ => injection H as H; subst
    | H : _ \/ _ |- _ => destruct H
    | H : False |- _ => destruct H
    end;
  simpl in *; try discriminate; try tauto; try congruence; eauto;
  try (split; [reflexivity | apply truthy_not_null; assumption]).

(** Claim C1.  Once the head height and the mempool snapshot have been
    delivered, [poll] classifies the hash by the first partition that holds
    it, in the order applied (1), branch_delayed (2), branch_refused (3),
    refused (4), unprocessed (5); only a hash found in applied carries data,
    the contents of the first entry with that hash.  [getTransaction] is
    called exactly when no partition holds the hash: a transaction found
    gives status 1 with that transaction as [txData], none gives status -1
    with a null [txData].  [txData] is not null only for a hash in applied
    or found by the lookup, and the status is then 1. *)
Theorem poll_classification (svc : Services) (tezosish : Tezosish)
    (req : PollRequest.t) (currentBlock : Z) (pendingTxs : PendingOperations.t) :
  getCurrentBlockNumber tezosish = Resolved currentBlock ->
  getPendingTransactions tezosish = Resolved pendingTxs ->
  let txHash := PollRequest.txHash req in
  let applied := in_partition (PendingOperations.applied pendingTxs) txHash in
  let branch_delayed :=
    in_partition (PendingOperations.branch_delayed pendingTxs) txHash in
  let branch_refused :=
    in_partition (PendingOperations.branch_refused pendingTxs) txHash in
  let refused := in_partition (PendingOperations.refused pendingTxs) txHash in
  let unprocessed :=
    in_partition (PendingOperations.unprocessed pendingTxs) txHash in
  let nowhere :=
    ~ applied /\ ~ branch_delayed /\ ~ branch_refused /\ ~ refused /\
    ~ unprocessed in
  let response (txStatus : Z) (txData : JS.value) :=
    Ok {| PollResponse.network := chain tezosish;
          PollResponse.currentBlock := currentBlock;
          PollResponse.timestamp := Date_now svc 0;
          PollResponse.txHash := txHash;
          PollResponse.txStatus := txStatus;
          PollResponse.txData := txData |} in
  let result := outcome (poll svc tezosish req) in
  (applied ->
   exists tx, find_hash (PendingOperations.applied pendingTxs) txHash = Some tx /\
              result = response 1 (JS.Array (PendingOperation.contents tx))) /\
  (~ applied -> branch_delayed -> result = response 2 JS.Null) /\
  (~ applied -> ~ branch_delayed -> branch_refused ->
   result = response 3 JS.Null) /\
  (~ applied -> ~ branch_delayed -> ~ branch_refused -> refused ->
   result = response 4 JS.Null) /\
  (~ applied -> ~ branch_delayed -> ~ branch_refused -> ~ refused ->
   unprocessed -> result = response 5 JS.Null) /\
  (nowhere ->
   forall tx, getTransaction tezosish txHash = Resolved tx ->
     (JS.truthy tx = true -> result = response 1 tx /\ tx <> JS.Null) /\
     (JS.truthy tx = false -> result = response (-1) JS.Null)) /\
  (In (GetTransaction txHash) (calls (poll svc tezosish req)) <-> nowhere) /\
  (forall resp, result = Ok resp -> PollResponse.txData resp <> JS.Null ->
     PollResponse.txStatus resp = 1 /\
     (applied \/
      nowhere /\
      getTransaction tezosish txHash = Resolved (PollResponse.txData resp))).
Proof.
  intros Hblock Hpending txHash applied branch_delayed branch_refused refused
    unprocessed nowhere response result.
  subst result response nowhere applied branch_delayed branch_refused refused
    unprocessed. cbv beta.
  poll_start Hblock Hpending. fold txHash.
  destruct (find_hash (PendingOperations.applied pendingTxs) txHash)
    as [tx |] eqn:E1.
  { pose proof (find_hash_Some _ _ _ E1) as [Hin <-].
    assert (in_partition (PendingOperations.applied pendingTxs)
              (PendingOperation.hash tx)) as H1 by (apply in_map; exact Hin).
    refine (conj _ (conj _ (conj _ (conj _ (conj _ (conj _ (conj _ _)))))));
      try split; poll_piece.
  }
  apply find_hash_None in E1.
  destruct (found (PendingOperations.branch_delayed pendingTxs) txHash) eqn:E2;
    [apply found_spec in E2 | apply found_false in E2].
  { refine (conj _ (conj _ (conj _ (conj _ (conj _ (conj _ (conj _ _)))))));
      try split; poll_piece.
  }
  destruct (found (PendingOperations.branch_refused pendingTxs) txHash) eqn:E3;
    [apply found_spec in E3 | apply found_false in E3].
  { refine (conj _ (conj _ (conj _ (conj _ (conj _ (conj _ (conj _ _)))))));
      try split; poll_piece.
  }
  destruct (found (PendingOperations.refused pendingTxs) txHash) eqn:E4;
    [apply found_spec in E4 | apply found_false in E4].
  { refine (conj _ (conj _ (conj _ (conj _ (conj _ (conj _ (conj _ _)))))));
      try split; poll_piece.
  }
  destruct (found (PendingOperations.unprocessed pendingTxs) txHash) eqn:E5;
    [apply found_spec in E5 | apply found_false in E5].
  { refine (conj _ (conj _ (conj _ (conj _ (conj _ (conj _ (conj _ _)))))));
      try split; poll_piece.
  }
  destruct (getTransaction tezosish txHash) as [tx | reason] eqn:Et; simpl.
  - destruct (JS.truthy tx) eqn:Etr; simpl;
      (refine (conj _ (conj _ (conj _ (conj _ (conj _ (conj _ (conj _ _)))))));
       try split; poll_piece).
  - refine (conj _ (conj _ (conj _ (conj _ (conj _ (conj _ (conj _ _)))))));
      try split; poll_piece.
Qed.

(** A hash that only branch_refused holds: status 3 and no data. *)
Lemma poll_classification_witness :
  getCurrentBlockNumber Sample.tezos = Resolved 4200000 /\
  getPendingTransactions Sample.tezos = Resolved Sample.mempool /\
  outcome (poll Sample.services Sample.tezos (Sample.poll_request "opC")) =
    Ok {| PollResponse.network := "tezos";
          PollResponse.currentBlock := 4200000;
          PollResponse.timestamp := 1700000000000;
          PollResponse.txHash := "opC";
          PollResponse.txStatus := 3;
          PollResponse.txData := JS.Null |}.
Proof.
  split; [reflexivity |]. split; [reflexivity |].
  destruct (poll_classification Sample.services Sample.tezos
              (Sample.poll_request "opC") 4200000 Sample.mempool eq_refl eq_refl)
    as (_ & _ & H & _).
  apply H.
  - intros [E | []]. discriminate E.
  - intros [E | []]. discriminate E.
  - left. reflexivity.
Defined.

(** ** [approve] *)

Ltac refute_condition :=
  let H := fresh "H" in
  let Ht := fresh "Ht" in
  let Ha := fresh "Ha" in
  let Hc := fresh "Hc" in
  let Hcall := fresh "Hcall" in
  let Hsend := fresh "Hsend" in
  let Hres := fresh "Hres" in
  intros [H | (? & ? & ? & Ht & Ha & Hc &
               [H | (? & ? & ? & Hcall & Hsend & Hres)])];
  [ congruence | .. ];
  injection Ht as <-;
  repeat match goal with
    | E : ?x = _, H' : ?x = _ |- _ =>
        rewrite E in H'; first [discriminate H' | injection H' as H'; subst]
    end;
  try tauto; try congruence.

Section Approve.

Context (svc : Services) (tezos : Tezosish) (req : ApproveRequest.t).

Lemma approve_run :
  outcome (approve svc tezos req) = fst (approve_steps svc tezos req) /\
  calls (approve svc tezos req) = snd (approve_steps svc tezos req).
Proof.
  unfold outcome, calls, approve, approve_steps, approval_call, approve_response,
    bind, now, invoke_or, lookup, lift, invoke, throw, ret, start, record.
  simpl.
  destruct (getWallet tezos (ApproveRequest.address req)) as [wallet | err];
    simpl; [| auto].
  destruct (getTokenForSymbol tezos (ApproveRequest.token req)) as [fullToken |];
    simpl; [| auto].
  destruct (amountBigNumber (ApproveRequest.amount req) (TokenInfo.decimals fullToken))
    as [amount | e]; simpl; [| auto].
  destruct (contract_at wallet (TokenInfo.address fullToken)) as [contract | reason];
    simpl; [| auto].
  destruct (TokenInfo.standard fullToken =? "fa1.2")%string; simpl.
  - destruct (send contract "approve" _) as [operation | reason]; simpl; [| auto].
    destruct (TransactionOperation.operationResults operation) as [| op ops];
      simpl; [auto |].
    destruct (rpc_getChainId wallet); simpl; auto.
  - destruct (TokenInfo.standard fullToken =? "fa2")%string; simpl; [| auto].
    destruct (send contract "update_operators" _) as [operation | reason];
      simpl; [| auto].
    destruct (TransactionOperation.operationResults operation) as [| op ops];
      simpl; [auto |].
    destruct (rpc_getChainId wallet); simpl; auto.
Qed.

Lemma approve_sends
    (wallet : TezosToolkit) (fullToken : TokenInfo.t) (amount : Z)
    (contract : Contract) (entrypoint : string) (params : JS.value) :
  getWallet tezos (ApproveRequest.address req) = Resolved wallet ->
  getTokenForSymbol tezos (ApproveRequest.token req) = Some fullToken ->
  amountBigNumber (ApproveRequest.amount req) (TokenInfo.decimals fullToken)
    = Ok amount ->
  contract_at wallet (TokenInfo.address fullToken) = Resolved contract ->
  approval_call req fullToken amount = Some (entrypoint, params) ->
  forall e p, In (Send e p) (calls (approve svc tezos req)) <->
              e = entrypoint /\ p = params.
Proof.
  intros Hw Ht Ha Hc Hcall e p.
  destruct (approve_run) as [_ ->].
  unfold approve_steps. rewrite Hw, Ht, Ha, Hc, Hcall.
  destruct (send contract entrypoint params) as [operation | reason].
  - destruct (TransactionOperation.operationResults operation) as [| op ops];
      [| destruct (rpc_getChainId wallet)]; simpl;
      (split; [intros H; repeat (destruct H as [H | H]; try discriminate);
                 [injection H as <- <-; auto | destruct H]
              | intros [-> ->]; auto 10]).
  - simpl. split.
    + intros H; repeat (destruct H as [H | H]; try discriminate);
        [injection H as <- <-; auto | destruct H].
    + intros [-> ->]; auto 10.
Qed.

(** Claim C2.  When [getWallet] fails, [approve] throws the wallet-load
    fault, with the cause appended to the message, and not the
    token-not-supported fault; the registry has not been consulted by then:
    the symbol is looked up right after the wallet is loaded.
    With the wallet loaded, [approve] throws the token-not-supported fault
    exactly in three cases, each read at the point of the run where the
    code tests it (the steps before it have succeeded): the symbol is
    unknown; the standard is neither ['fa1.2'] nor ['fa2']; the submitted
    operation has no result.  No other [HttpException] leaves [approve]:
    every other failure is the error of a callee, passed on. *)
Theorem approve_faults :
  LOAD_WALLET_ERROR_CODE svc <> TOKEN_NOT_SUPPORTED_ERROR_CODE svc ->
  let address := ApproveRequest.address req in
  let token := ApproveRequest.token req in
  let result := outcome (approve svc tezos req) in
  (forall err, getWallet tezos address = Rejected err ->
     result = Throw (HttpException 500 (LOAD_WALLET_ERROR_MESSAGE svc ++ err)
                       (LOAD_WALLET_ERROR_CODE svc)) /\
     (forall e, result = Throw e ->
        fault_code e <> Some (TOKEN_NOT_SUPPORTED_ERROR_CODE svc)) /\
     calls (approve svc tezos req) = [GetWallet address]) /\
  (forall wallet, getWallet tezos address = Resolved wallet ->
     ((exists e, result = Throw e /\
                 fault_code e = Some (TOKEN_NOT_SUPPORTED_ERROR_CODE svc)) <->
      getTokenForSymbol tezos token = None \/
      exists fullToken amount contract,
        getTokenForSymbol tezos token = Some fullToken /\
        amountBigNumber (ApproveRequest.amount req) (TokenInfo.decimals fullToken)
          = Ok amount /\
        contract_at wallet (TokenInfo.address fullToken) = Resolved contract /\
        ((TokenInfo.standard fullToken <> "fa1.2" /\
          TokenInfo.standard fullToken <> "fa2") \/
         exists entrypoint params approvalOperation,
           approval_call req fullToken amount = Some (entrypoint, params) /\
           send contract entrypoint params = Resolved approvalOperation /\
           TransactionOperation.operationResults approvalOperation = []))) /\
  (forall status message code,
     result = Throw (HttpException status message code) ->
     status = 500 /\
     ((code = LOAD_WALLET_ERROR_CODE svc /\
       exists err, getWallet tezos address = Rejected err /\
                   message = LOAD_WALLET_ERROR_MESSAGE svc ++ err) \/
      (code = TOKEN_NOT_SUPPORTED_ERROR_CODE svc /\
       (message = TOKEN_NOT_SUPPORTED_ERROR_MESSAGE svc ++ token \/
        message = TOKEN_NOT_SUPPORTED_ERROR_MESSAGE svc)))) /\
  (forall wallet, getWallet tezos address = Resolved wallet ->
     exists rest,
       calls (approve svc tezos req) =
         GetWallet address :: GetTokenForSymbol token :: rest).
Proof.
  intros Hcodes address token result.
  assert (forall wallet, getWallet tezos address = Resolved wallet ->
            exists rest,
              calls (approve svc tezos req) =
                GetWallet address :: GetTokenForSymbol token :: rest) as Horder.
  { intros wallet Hw. destruct (approve_run) as [_ ->].
    unfold approve_steps. fold address token. rewrite Hw.
    repeat match goal with
      | |- context [match ?x with _ => _ end] => destruct x
      end; simpl; eexists; reflexivity. }
  refine ((fun H => conj (proj1 H)
                      (conj (proj1 (proj2 H)) (conj (proj2 (proj2 H)) Horder))) _).
  clear Horder.
  destruct (approve_run) as [Hout Hcalls].
  subst result. rewrite Hout, Hcalls. clear Hout Hcalls.
  unfold approve_steps. fold address token.
  destruct (getWallet tezos address) as [wallet | err0].
  2: { split; [| split].
       - intros err [= <-]. simpl. split; [reflexivity | split; [| reflexivity]].
         intros e [= <-]. simpl. congruence.
       - intros wallet [=].
       - simpl. intros status message code [= <- <- <-].
         split; [reflexivity |]. left. split; [reflexivity |]. eauto. }
  split; [intros err [=] |].
  destruct (getTokenForSymbol tezos token) as [fullToken |] eqn:Etoken.
  2: { split.
       - intros wallet0 _. simpl. split; [auto |]. intros _. eauto.
       - simpl. intros status message code [= <- <- <-]. auto. }
  destruct (amountBigNumber (ApproveRequest.amount req) (TokenInfo.decimals fullToken))
    as [amount | e0] eqn:Eamount.
  2: { destruct (amountBigNumber_throws _ _ _ Eamount) as [reason ->]. split.
       - intros wallet0 _. simpl. split.
         + intros (e & [= <-] & He). discriminate.
         + refute_condition.
       - simpl. intros status message code [=]. }
  destruct (contract_at wallet (TokenInfo.address fullToken)) as [contract | reason]
    eqn:Econtract.
  2: { split.
       - intros wallet0 [= <-]. simpl. split.
         + intros (e & [= <-] & He). discriminate.
         + refute_condition.
       - simpl. intros status message code [=]. }
  assert (approval_call req fullToken amount = None <->
          TokenInfo.standard fullToken <> "fa1.2" /\
          TokenInfo.standard fullToken <> "fa2") as Hnone.
  { unfold approval_call.
    destruct (TokenInfo.standard fullToken =? "fa1.2")%string eqn:E1;
      [apply String.eqb_eq in E1 | apply String.eqb_neq in E1].
    - split; [discriminate | tauto].
    - destruct (TokenInfo.standard fullToken =? "fa2")%string eqn:E2;
        [apply String.eqb_eq in E2 | apply String.eqb_neq in E2].
      + split; [discriminate | tauto].
      + tauto. }
  destruct (approval_call req fullToken amount) as [[entrypoint params] |] eqn:Ecall.
  2: { split.
       - intros wallet0 [= <-]. simpl. split; [| eauto].
         intros _. right. exists fullToken, amount, contract.
         repeat split; try assumption; try reflexivity. left. tauto.
       - simpl. intros status message code [= <- <- <-]. auto. }
  assert (~ (TokenInfo.standard fullToken <> "fa1.2" /\
             TokenInfo.standard fullToken <> "fa2")) as Hknown.
  { intros H. apply Hnone in H. discriminate. }
  clear Hnone.
  destruct (send contract entrypoint params) as [operation | reason] eqn:Esend.
  2: { split.
       - intros wallet0 [= <-]. simpl. split.
         + intros (e & [= <-] & He). discriminate.
         + refute_condition.
       - simpl. intros status message code [=]. }
  destruct (TransactionOperation.operationResults operation) as [| op ops] eqn:Eres.
  { split.
    - intros wallet0 [= <-]. simpl. split; [| eauto].
      intros _. right. exists fullToken, amount, contract.
      repeat split; try assumption; try reflexivity. right.
      exists entrypoint, params, operation. auto.
    - simpl. intros status message code [= <- <- <-]. auto. }
  destruct (rpc_getChainId wallet) as [chainId | reason]; simpl.
  - split.
    + intros wallet0 [= <-]. split; [intros (e & [=] & _) | refute_condition].
    + intros status message code [=].
  - split.
    + intros wallet0 [= <-]. split; [| refute_condition].
      intros (e & [= <-] & He). discriminate.
    + intros status message code [=].
Qed.

(** Claim C4.  For a token of the allowance standard, the value that
    [approve] puts on chain is the amount scaled by [10^decimals]: for a
    numeral [whole.fraction] with at most [decimals] fraction digits, the
    integer [whole * 10^decimals + fraction * 10^(decimals - digits of the
    fraction)], and for a numeral without a dot [whole * 10^decimals].
    Without an amount the value is [2^256 - 1].  The contract call with
    that value is the only one [approve] makes. *)
Theorem approve_amount_scaling
    (wallet : TezosToolkit) (fullToken : TokenInfo.t)
    (contract : Contract) :
  getWallet tezos (ApproveRequest.address req) = Resolved wallet ->
  getTokenForSymbol tezos (ApproveRequest.token req) = Some fullToken ->
  TokenInfo.standard fullToken = "fa1.2" ->
  contract_at wallet (TokenInfo.address fullToken) = Resolved contract ->
  let decimals := TokenInfo.decimals fullToken in
  let approved (value : Z) :=
    forall entrypoint params,
      In (Send entrypoint params) (calls (approve svc tezos req)) <->
      entrypoint = "approve" /\
      params = JS.Object [("spender", JS.Str (ApproveRequest.spender req));
                          ("value", JS.BigNumber value)] in
  (forall whole fraction,
     ApproveRequest.amount req = Some (whole ++ "." ++ fraction) ->
     whole <> "" ->
     JS.all_digits whole = true -> JS.all_digits fraction = true ->
     Z.of_nat (String.length fraction) <= decimals <= 256 ->
     approved (JS.parse_digits 0 whole * 10 ^ decimals +
               JS.parse_digits 0 fraction *
               10 ^ (decimals - Z.of_nat (String.length fraction)))) /\
  (forall whole,
     ApproveRequest.amount req = Some whole ->
     whole <> "" -> JS.all_digits whole = true -> 0 <= decimals <= 256 ->
     approved (JS.parse_digits 0 whole * 10 ^ decimals)) /\
  (ApproveRequest.amount req = None -> approved (2 ^ 256 - 1)).
Proof.
  intros Hw Ht Hs Hc decimals approved.
  assert (forall value,
            amountBigNumber (ApproveRequest.amount req) decimals = Ok value ->
            approved value) as Hsent.
  { intros value Ha entrypoint params.
    apply (approve_sends wallet fullToken value contract); auto.
    unfold approval_call. rewrite Hs. reflexivity. }
  split; [| split].
  - intros whole fraction Ea Hwne Hwd Hfd Hlen. apply Hsent.
    rewrite Ea. unfold amountBigNumber, ethers.parseUnits.
    destruct (nonempty_digits whole Hwne Hwd) as (c & rest & -> & _).
    cbn [JS.truthy String.append String.eqb negb].
    apply (parseFixed_decimal (String c rest)); assumption.
  - intros whole Ea Hwne Hwd Hlen. apply Hsent.
    rewrite Ea. unfold amountBigNumber, ethers.parseUnits.
    destruct (nonempty_digits whole Hwne Hwd) as (c & rest & -> & _).
    cbn [JS.truthy String.eqb negb].
    apply parseFixed_integer; assumption.
  - intros Ea. apply Hsent. rewrite Ea. reflexivity.
Qed.


End Approve.

(** An owner without a key: the wallet-load fault, after the single call
    of [getWallet]. *)
Lemma approve_faults_witness :
  LOAD_WALLET_ERROR_CODE Sample.services <>
    TOKEN_NOT_SUPPORTED_ERROR_CODE Sample.services /\
  outcome (approve Sample.services Sample.tezos
             (Sample.approve_request (Some "1.5") "tz1stranger" "USDT")) =
    Throw (HttpException 500
             "Failed to load wallet: Error: no key for this address" 1006) /\
  calls (approve Sample.services Sample.tezos
           (Sample.approve_request (Some "1.5") "tz1stranger" "USDT")) =
    [GetWallet "tz1stranger"].
Proof.
  assert (LOAD_WALLET_ERROR_CODE Sample.services <>
          TOKEN_NOT_SUPPORTED_ERROR_CODE Sample.services) as Hcodes
    by (intros E; discriminate E).
  split; [exact Hcodes |].
  destruct (approve_faults Sample.services Sample.tezos
              (Sample.approve_request (Some "1.5") "tz1stranger" "USDT") Hcodes)
    as (H & _).
  destruct (H "Error: no key for this address" eq_refl) as (Hout & _ & Hcalls).
  split; [exact Hout | exact Hcalls].
Defined.

(** The amount 1.5 of a token with 6 decimals is approved as 1500000. *)
Lemma approve_amount_scaling_witness :
  getWallet Sample.tezos "tz1owner" = Resolved Sample.wallet /\
  getTokenForSymbol Sample.tezos "CTEZ" = Some Sample.CTEZ /\
  TokenInfo.standard Sample.CTEZ = "fa1.2" /\
  contract_at Sample.wallet "KT1ctez" = Resolved Sample.contract /\
  In (Send "approve"
        (JS.Object [("spender", JS.Str "tz1spender");
                    ("value", JS.BigNumber 1500000)]))
     (calls (approve Sample.services Sample.tezos
               (Sample.approve_request (Some "1.5") "tz1owner" "CTEZ"))).
Proof.
  repeat (split; [reflexivity |]).
  destruct (approve_amount_scaling Sample.services Sample.tezos
              (Sample.approve_request (Some "1.5") "tz1owner" "CTEZ")
              Sample.wallet Sample.CTEZ Sample.contract
              eq_refl eq_refl eq_refl eq_refl) as (H & _).
  assert ("1" <> "") as Hwhole by (intros E; discriminate E).
  assert (Z.of_nat (String.length "5") <= TokenInfo.decimals Sample.CTEZ <= 256)
    as Hplaces by (split; intros E; discriminate E).
  apply (H "1" "5" eq_refl Hwhole eq_refl eq_refl Hplaces).
  split; reflexivity.
Defined.


(** Claim C10.  The amount is tested for truthiness: the empty string is
    not scaled but replaced by [2^256 - 1], like a missing amount.  For a
    token of standard ['fa1.2'] the contract call that [approve] makes on a
    request with the amount [""] is [approve] with the value [2^256 - 1],
    and it is the only one; a successful response reports that value; and
    [approve] runs on this request as on the request without amount. *)
Theorem approve_empty_amount (svc : Services) (tezos : Tezosish)
    (address spender token : string) (wallet : TezosToolkit)
    (fullToken : TokenInfo.t) (contract : Contract) :
  let request (amount : option string) :=
    {| ApproveRequest.amount := amount;
       ApproveRequest.address := address;
       ApproveRequest.spender := spender;
       ApproveRequest.token := token |} in
  let unlimited :=
    JS.Object [("spender", JS.Str spender);
               ("value", JS.BigNumber (2 ^ 256 - 1))] in
  getWallet tezos address = Resolved wallet ->
  getTokenForSymbol tezos token = Some fullToken ->
  TokenInfo.standard fullToken = "fa1.2" ->
  contract_at wallet (TokenInfo.address fullToken) = Resolved contract ->
  (forall entrypoint params,
     In (Send entrypoint params) (calls (approve svc tezos (request (Some ""))))
     <-> entrypoint = "approve" /\ params = unlimited) /\
  (forall approvalOperation op ops chainId,
     send contract "approve" unlimited = Resolved approvalOperation ->
     TransactionOperation.operationResults approvalOperation = op :: ops ->
     rpc_getChainId wallet = Resolved chainId ->
     exists resp,
       outcome (approve svc tezos (request (Some ""))) = Ok resp /\
       ApproveResponse.amount resp =
         bigNumberWithDecimalToStr svc (2 ^ 256 - 1)
           (TokenInfo.decimals fullToken)) /\
  (forall decimals, amountBigNumber (Some "") decimals = Ok (2 ^ 256 - 1)) /\
  (forall decimals, amountBigNumber (Some "") decimals = amountBigNumber None decimals) /\
  (forall w, approve svc tezos (request (Some "")) w =
             approve svc tezos (request None) w).
Proof.
  intros request unlimited Hw Ht Hs Hc.
  assert (approval_call (request (Some "")) fullToken (2 ^ 256 - 1)
          = Some ("approve", unlimited)) as Hcall.
  { unfold approval_call. rewrite Hs. reflexivity. }
  split; [| split; [| split; [| split]]]; try reflexivity.
  - apply (approve_sends svc tezos (request (Some "")) wallet fullToken
             (2 ^ 256 - 1) contract); auto.
  - intros operation op ops chainId Hsend Hres Hchain.
    destruct (approve_run svc tezos (request (Some ""))) as [-> _].
    unfold approve_steps.
    change (ApproveRequest.address (request (Some ""))) with address.
    change (ApproveRequest.token (request (Some ""))) with token.
    rewrite Hw, Ht.
    change (amountBigNumber (ApproveRequest.amount (request (Some "")))
              (TokenInfo.decimals fullToken)) with (@Ok Z (2 ^ 256 - 1)).
    cbv iota. rewrite Hc, Hcall, Hsend, Hres, Hchain.
    eexists. split; reflexivity.
Qed.

(** An approval of CTEZ with the amount [""]: the value sent is
    [2^256 - 1]. *)
Lemma approve_empty_amount_witness :
  getWallet Sample.tezos "tz1owner" = Resolved Sample.wallet /\
  getTokenForSymbol Sample.tezos "CTEZ" = Some Sample.CTEZ /\
  TokenInfo.standard Sample.CTEZ = "fa1.2" /\
  contract_at Sample.wallet "KT1ctez" = Resolved Sample.contract /\
  In (Send "approve"
        (JS.Object [("spender", JS.Str "tz1spender");
                    ("value", JS.BigNumber (2 ^ 256 - 1))]))
     (calls (approve Sample.services Sample.tezos
               (Sample.approve_request (Some "") "tz1owner" "CTEZ"))).
Proof.
  repeat (split; [reflexivity |]).
  destruct (approve_empty_amount Sample.services Sample.tezos
              "tz1owner" "tz1spender" "CTEZ"
              Sample.wallet Sample.CTEZ Sample.contract
              eq_refl eq_refl eq_refl eq_refl) as (H & _).
  apply H. split; reflexivity.
Defined.

(** ** [balances] *)

Section Balances.

Context (svc : Services) (tezos : Tezosish) (req : BalanceRequest.t).

Lemma balances_callback_uniform (tokens : JS.Record TokenInfo.t) (symbol : string) :
  uniform (balances_callback svc tezos req tokens symbol).
Proof.
  unfold balances_callback.
  destruct (JS.get tokens symbol) as [token |]; [| apply uniform_ret].
  destruct (negb (symbol =? nativeTokenSymbol tezos)%string); [| apply uniform_ret].
  destruct (TokenInfo.tokenId token); [| apply uniform_ret].
  apply uniform_bind; [apply uniform_invoke | intros a; apply uniform_ret].
Qed.

Lemma balances_callback_fetch (tokens : JS.Record TokenInfo.t) (symbol : string)
    (token : TokenInfo.t) (tokenId : Z) :
  fetched tezos tokens symbol token tokenId ->
  let fetch :=
    GetTokenBalance (TokenInfo.address token) (BalanceRequest.address req)
      tokenId (TokenInfo.decimals token) in
  calls (balances_callback svc tezos req tokens symbol) = [fetch] /\
  outcome (balances_callback svc tezos req tokens symbol) =
    match getTokenBalance tezos (TokenInfo.address token)
            (BalanceRequest.address req) tokenId (TokenInfo.decimals token) with
    | Resolved balance => Ok (Some (symbol, tokenValueToString svc balance))
    | Rejected reason => Throw (Uncaught reason)
    end.
Proof.
  intros (Hget & Hne & Hid) fetch.
  unfold calls, outcome, balances_callback, bind, invoke, ret.
  rewrite Hget, Hid.
  apply String.eqb_neq in Hne. rewrite Hne. simpl.
  destruct (getTokenBalance tezos _ _ _ _); simpl; auto.
Qed.

Lemma balances_callback_skip (tokens : JS.Record TokenInfo.t) (symbol : string) :
  (forall token tokenId, ~ fetched tezos tokens symbol token tokenId) ->
  calls (balances_callback svc tezos req tokens symbol) = [] /\
  outcome (balances_callback svc tezos req tokens symbol) = Ok None.
Proof.
  intros Hno. unfold calls, outcome, balances_callback.
  destruct (JS.get tokens symbol) as [token |] eqn:Hget; [| auto].
  destruct (symbol =? nativeTokenSymbol tezos)%string eqn:Hne; [auto |].
  apply String.eqb_neq in Hne. simpl.
  destruct (TokenInfo.tokenId token) as [tokenId |] eqn:Hid; [| auto].
  exfalso. apply (Hno token tokenId). unfold fetched. auto.
Qed.

Lemma fetched_dec (tokens : JS.Record TokenInfo.t)
    (symbol : string) :
  (exists token tokenId, fetched tezos tokens symbol token tokenId) \/
  (forall token tokenId, ~ fetched tezos tokens symbol token tokenId).
Proof.
  unfold fetched.
  destruct (JS.get tokens symbol) as [token |];
    [| right; intros t i (H & _); discriminate].
  destruct (string_dec symbol (nativeTokenSymbol tezos)) as [E | E];
    [right; intros t i (_ & H & _); auto |].
  destruct (TokenInfo.tokenId token) as [tokenId |] eqn:Hid.
  - left. exists token, tokenId. auto.
  - right. intros t i ([= <-] & _ & H). congruence.
Qed.


Lemma balances_callback_own (tokens : JS.Record TokenInfo.t) :
  own_key (fun k => settled (outcome (balances_callback svc tezos req tokens k))).
Proof.
  intros k k' v.
  destruct (fetched_dec tokens k) as [(token & tokenId & Hf) | Hno].
  - destruct (balances_callback_fetch tokens k token tokenId Hf)
      as [_ ->].
    destruct (getTokenBalance tezos _ _ _ _); simpl; [| discriminate].
    intros [= <- _]. reflexivity.
  - destruct (balances_callback_skip tokens k Hno) as [_ ->].
    discriminate.
Qed.

Lemma balances_callback_unresolved (tokens : JS.Record TokenInfo.t) (symbol : string) :
  JS.get tokens symbol = None ->
  settled (outcome (balances_callback svc tezos req tokens symbol)) = None.
Proof.
  intros H. unfold outcome, balances_callback. rewrite H. reflexivity.
Qed.

Lemma balances_tasks_uniform :
  Forall uniform (balances_tasks svc tezos req).
Proof.
  unfold balances_tasks. apply Forall_forall. intros t Ht.
  apply in_map_iff in Ht as (k & <- & _). apply balances_callback_uniform.
Qed.

Lemma balances_run :
  let symbols := BalanceRequest.tokenSymbols req in
  let address := BalanceRequest.address req in
  let native := nativeTokenSymbol tezos in
  let lookups := map GetTokenForSymbol symbols in
  let fetches := List.concat (map calls (balances_tasks svc tezos req)) in
  if JS.includes symbols native then
    match getNativeBalance tezos address with
    | Resolved balance =>
        outcome (balances svc tezos req) =
          balances_finish svc tezos req
            (JS.set native (tokenValueToString svc balance) []) /\
        calls (balances svc tezos req) =
          (lookups ++ [GetNativeBalance address] ++ fetches)%list
    | Rejected reason =>
        outcome (balances svc tezos req) = Throw (Uncaught reason) /\
        calls (balances svc tezos req) =
          (lookups ++ [GetNativeBalance address])%list
    end
  else
    outcome (balances svc tezos req) = balances_finish svc tezos req [] /\
    calls (balances svc tezos req) = (lookups ++ fetches)%list.
Proof.
  intros symbols address native lookups fetches.
  subst symbols address native lookups fetches.
  pose proof (balances_tasks_uniform) as Huni.
  unfold outcome, calls, balances, balances_finish, bind, now.
  rewrite getTokenSymbolsToTokens_run.
  change (map (balances_callback svc tezos req
                 (resolved tezos (BalanceRequest.tokenSymbols req)))
            (JS.keys (resolved tezos (BalanceRequest.tokenSymbols req))))
    with (balances_tasks svc tezos req).
  destruct (JS.includes (BalanceRequest.tokenSymbols req) (nativeTokenSymbol tezos)).
  - unfold invoke at 1.
    destruct (getNativeBalance tezos (BalanceRequest.address req))
      as [balance | reason]; simpl.
    + unfold Promise_all. rewrite (run_all_uniform _ Huni). simpl.
      destruct (collect (map outcome (balances_tasks svc tezos req)))
        as [assignments | e]; simpl.
      * unfold ret, throw.
        destruct (List.length (JS.keys (assign_all assignments _)) =? 0)%nat;
          simpl; rewrite <- !app_assoc; auto.
      * rewrite <- !app_assoc; auto.
    + auto.
  - unfold ret at 1. unfold Promise_all. simpl.
    rewrite !(run_all_uniform _ Huni). simpl.
    destruct (collect (map outcome (balances_tasks svc tezos req)))
      as [assignments | e]; simpl.
    + unfold ret, throw.
      destruct (List.length (JS.keys (assign_all assignments _)) =? 0)%nat;
        simpl; auto.
    + auto.
Qed.

Lemma balances_finish_Ok (init : JS.Record string) (resp : BalanceResponse.t) :
  let tokens := resolved tezos (BalanceRequest.tokenSymbols req) in
  balances_finish svc tezos req init = Ok resp ->
  BalanceResponse.balances resp <> [] /\
  (forall k, In k (JS.keys tokens) ->
     exists a, outcome (balances_callback svc tezos req tokens k) = Ok a) /\
  forall s,
    JS.get (BalanceResponse.balances resp) s =
    match settled (outcome (balances_callback svc tezos req tokens s)) with
    | Some (_, v) => Some v
    | None => JS.get init s
    end.
Proof.
  intros tokens. unfold balances_finish, balances_tasks. fold tokens.
  destruct (collect _) as [assignments | e] eqn:Hcollect; [| discriminate].
  cbv zeta.
  destruct (List.length (JS.keys (assign_all assignments init)) =? 0)%nat eqn:Hempty;
    [discriminate |].
  intros [= <-]. simpl. repeat split.
  - intros H. rewrite <- no_keys in H. congruence.
  - apply (collected_assignments _ _ _ Hcollect).
  - apply (assigned_get tezos (BalanceRequest.tokenSymbols req)); auto.
    + apply balances_callback_own.
    + intros k. apply balances_callback_unresolved.
Qed.

Lemma balances_fetches (c : call) :
  let tokens := resolved tezos (BalanceRequest.tokenSymbols req) in
  In c (List.concat (map calls (balances_tasks svc tezos req))) <->
  exists symbol token tokenId,
    fetched tezos tokens symbol token tokenId /\
    c = GetTokenBalance (TokenInfo.address token) (BalanceRequest.address req)
          tokenId (TokenInfo.decimals token).
Proof.
  intros tokens. unfold balances_tasks. fold tokens. rewrite in_concat_calls.
  split.
  - intros (k & Hk & Hc).
    destruct (fetched_dec tokens k) as [(token & tokenId & Hf) | Hno].
    + destruct (balances_callback_fetch tokens k token tokenId Hf)
        as [E _].
      rewrite E in Hc. destruct Hc as [<- | []]. eauto.
    + destruct (balances_callback_skip tokens k Hno) as [E _].
      rewrite E in Hc. destruct Hc.
  - intros (k & token & tokenId & Hf & ->). exists k. split.
    + apply keys_In. exists token. apply Hf.
    + destruct (balances_callback_fetch tokens k token tokenId Hf)
        as [E _].
      rewrite E. left. reflexivity.
Qed.

Lemma balances_callbacks_resolve :
  balances_resolve tezos req ->
  Forall (fun r => exists a, r = Ok a)
    (map outcome (balances_tasks svc tezos req)).
Proof.
  intros [_ Hres]. unfold balances_tasks. rewrite map_map.
  apply Forall_forall. intros r Hr. apply in_map_iff in Hr as (k & <- & _).
  destruct (fetched_dec (resolved tezos (BalanceRequest.tokenSymbols req)) k)
    as [(token & tokenId & Hf) | Hno].
  - destruct (balances_callback_fetch _ k token tokenId Hf) as [_ ->].
    destruct (Hres (TokenInfo.address token) tokenId (TokenInfo.decimals token))
      as [balance ->].
    eauto.
  - destruct (balances_callback_skip _ k Hno) as [_ ->]. eauto.
Qed.

Lemma balances_finish_empty :
  (forall symbol token tokenId,
     ~ fetched tezos (resolved tezos (BalanceRequest.tokenSymbols req))
         symbol token tokenId) ->
  balances_finish svc tezos req [] = Throw (token_not_supported svc).
Proof.
  intros Hno. unfold balances_finish.
  assert (map outcome (balances_tasks svc tezos req) =
          map (fun _ => Ok None) (balances_tasks svc tezos req)) as E.
  { unfold balances_tasks. rewrite !map_map. apply map_ext. intros k.
    apply balances_callback_skip. intros token tokenId. apply Hno. }
  rewrite E.
  rewrite (collect_all_Ok (map (fun _ => Ok None) (balances_tasks svc tezos req))).
  - rewrite map_map. simpl.
    rewrite assign_all_None; [reflexivity |].
    apply Forall_forall. intros a Ha. apply in_map_iff in Ha as (t & <- & _).
    reflexivity.
  - apply Forall_forall. intros r Hr. apply in_map_iff in Hr as (t & <- & _).
    eauto.
Qed.

Lemma balances_finish_success (init : JS.Record string) :
  balances_resolve tezos req ->
  (exists symbol token tokenId,
     fetched tezos (resolved tezos (BalanceRequest.tokenSymbols req))
       symbol token tokenId) ->
  exists resp, balances_finish svc tezos req init = Ok resp.
Proof.
  intros Hres (symbol & token & tokenId & Hf). unfold balances_finish.
  rewrite (collect_all_Ok _ (balances_callbacks_resolve Hres)).
  cbv zeta.
  destruct (List.length (JS.keys (assign_all _ init)) =? 0)%nat eqn:E; [| eauto].
  exfalso. apply no_keys in E. revert E.
  destruct (balances_callback_fetch _ symbol token tokenId Hf)
    as [_ Hout].
  destruct Hres as [_ Hres].
  destruct (Hres (TokenInfo.address token) tokenId (TokenInfo.decimals token))
    as [balance Hbalance].
  rewrite Hbalance in Hout.
  apply (assign_all_Some _ init symbol (tokenValueToString svc balance)).
  - unfold balances_tasks. rewrite !map_map. apply in_map_iff.
    exists symbol. split; [rewrite Hout; reflexivity |].
    apply keys_In. exists token. apply Hf.
  - destruct Hf as (Hget & _). apply (resolved_key_ordinary _ _ _ _ Hget).
Qed.

Lemma balances_finish_Throw (init : JS.Record string) (e : exn) :
  balances_resolve tezos req ->
  balances_finish svc tezos req init = Throw e ->
  e = token_not_supported svc.
Proof.
  intros Hres. unfold balances_finish.
  rewrite (collect_all_Ok _ (balances_callbacks_resolve Hres)).
  cbv zeta.
  destruct (List.length (JS.keys (assign_all _ init)) =? 0)%nat;
    intros [=]; congruence.
Qed.


Lemma balances_callback_calls (tokens : JS.Record TokenInfo.t) (symbol : string) :
  calls (balances_callback svc tezos req tokens symbol) =
  balance_fetches tezos req tokens symbol.
Proof.
  unfold calls, balances_callback, balance_fetches, bind, invoke, ret.
  destruct (JS.get tokens symbol) as [token |]; [| reflexivity].
  destruct (symbol =? nativeTokenSymbol tezos)%string; [reflexivity |].
  simpl. destruct (TokenInfo.tokenId token) as [tokenId |]; [| reflexivity].
  simpl. destruct (getTokenBalance tezos _ _ _ _); reflexivity.
Qed.

Lemma balances_log :
  let symbols := BalanceRequest.tokenSymbols req in
  let native := nativeTokenSymbol tezos in
  let owner := BalanceRequest.address req in
  let tokens := resolved tezos symbols in
  (In native symbols ->
   exists balance, getNativeBalance tezos owner = Resolved balance) ->
  calls (balances svc tezos req) =
    (map GetTokenForSymbol symbols ++
     (if JS.includes symbols native then [GetNativeBalance owner] else []) ++
     flat_map (balance_fetches tezos req tokens) (JS.keys tokens))%list.
Proof.
  intros symbols native owner tokens Hnative.
  assert (List.concat (map calls (balances_tasks svc tezos req)) =
          flat_map (balance_fetches tezos req tokens) (JS.keys tokens)) as Hfetches.
  { unfold balances_tasks. fold symbols tokens.
    rewrite map_map, flat_map_concat_map.
    f_equal. apply map_ext. intros k. apply balances_callback_calls. }
  pose proof (balances_run) as Hrun. cbv zeta in Hrun.
  fold symbols native owner in Hrun.
  destruct (JS.includes symbols native) eqn:Hinc.
  - apply includes_In in Hinc. destruct (Hnative Hinc) as [balance Hb].
    rewrite Hb in Hrun. destruct Hrun as [_ ->]. rewrite Hfetches. reflexivity.
  - destruct Hrun as [_ ->]. rewrite Hfetches. reflexivity.
Qed.

Lemma balances_answers :
  let symbols := BalanceRequest.tokenSymbols req in
  let native := nativeTokenSymbol tezos in
  balances_resolve tezos req ->
  (In native symbols /\ native <> "__proto__") \/
  (exists symbol token tokenId,
     fetched tezos (resolved tezos symbols) symbol token tokenId) ->
  exists resp, outcome (balances svc tezos req) = Ok resp.
Proof.
  intros symbols native Hres Hsome.
  pose proof (balances_run) as Hrun. cbv zeta in Hrun.
  fold symbols native in Hrun.
  assert (forall init, init <> [] ->
            exists resp, balances_finish svc tezos req init = Ok resp) as Hinit.
  { intros init Hne. unfold balances_finish.
    rewrite (collect_all_Ok _ (balances_callbacks_resolve Hres)). cbv zeta.
    destruct (List.length (JS.keys (assign_all _ init)) =? 0)%nat eqn:E;
      [| eauto].
    exfalso. apply no_keys in E. revert E. apply assign_all_not_empty. exact Hne. }
  destruct (JS.includes symbols native) eqn:Hinc.
  - destruct Hres as [[balance Hb] Hres']. rewrite Hb in Hrun.
    destruct Hrun as [-> _].
    destruct Hsome as [[_ Hproto] | Hfetched].
    + apply Hinit. apply set_not_empty. right. exact Hproto.
    + apply balances_finish_success; [| exact Hfetched].
      split; [eauto | exact Hres'].
  - destruct Hrun as [-> _].
    destruct Hsome as [[Hin _] | Hfetched].
    + apply includes_In in Hin. congruence.
    + apply balances_finish_success; assumption.
Qed.

End Balances.


(** ** [allowances] *)

Section Allowances.

Context (svc : Services) (tezos : Tezosish) (req : AllowancesRequest.t).

Lemma allowances_callback_uniform (tokens : JS.Record TokenInfo.t) (symbol : string) :
  uniform (allowances_callback svc tezos req tokens symbol).
Proof.
  unfold allowances_callback.
  destruct (JS.get tokens symbol) as [token |]; [| apply uniform_throw].
  destruct (TokenInfo.standard token =? "fa1.2")%string; [apply uniform_ret |].
  apply uniform_bind; [apply uniform_invoke | intros a; apply uniform_ret].
Qed.

Lemma allowances_callback_own (tokens : JS.Record TokenInfo.t) :
  own_key (fun k => settled (outcome (allowances_callback svc tezos req tokens k))).
Proof.
  intros k k' v. unfold outcome, allowances_callback, bind, invoke, ret, throw.
  destruct (JS.get tokens k) as [token |]; [| discriminate].
  destruct (TokenInfo.standard token =? "fa1.2")%string; simpl.
  - intros [= <- _]. reflexivity.
  - destruct (getTokenAllowance tezos _ _ _ _ _ _); simpl; [| discriminate].
    intros [= <- _]. reflexivity.
Qed.

Lemma allowances_callback_unresolved (tokens : JS.Record TokenInfo.t) (symbol : string) :
  JS.get tokens symbol = None ->
  settled (outcome (allowances_callback svc tezos req tokens symbol)) = None.
Proof.
  intros H. unfold outcome, allowances_callback. rewrite H. reflexivity.
Qed.

Lemma allowances_callback_zero (tokens : JS.Record TokenInfo.t)
    (symbol : string) (token : TokenInfo.t) :
  JS.get tokens symbol = Some token ->
  TokenInfo.standard token = "fa1.2" ->
  calls (allowances_callback svc tezos req tokens symbol) = [] /\
  outcome (allowances_callback svc tezos req tokens symbol) =
    Ok (Some (symbol, "0.000000")).
Proof.
  intros Hget Hstd. unfold calls, outcome, allowances_callback.
  rewrite Hget, Hstd. auto.
Qed.

Lemma allowances_callback_query (tokens : JS.Record TokenInfo.t)
    (symbol : string) (token : TokenInfo.t) :
  JS.get tokens symbol = Some token ->
  TokenInfo.standard token <> "fa1.2" ->
  calls (allowances_callback svc tezos req tokens symbol) =
    [GetTokenAllowance (TokenInfo.address token) (AllowancesRequest.address req)
       (AllowancesRequest.spender req) "fa2" (TokenInfo.tokenId token)
       (TokenInfo.decimals token)] /\
  outcome (allowances_callback svc tezos req tokens symbol) =
    match getTokenAllowance tezos (TokenInfo.address token)
            (AllowancesRequest.address req) (AllowancesRequest.spender req)
            "fa2" (TokenInfo.tokenId token) (TokenInfo.decimals token) with
    | Resolved allowance => Ok (Some (symbol, tokenValueToString svc allowance))
    | Rejected reason => Throw (Uncaught reason)
    end.
Proof.
  intros Hget Hstd. unfold calls, outcome, allowances_callback, bind, invoke, ret.
  rewrite Hget. apply String.eqb_neq in Hstd. rewrite Hstd. simpl.
  destruct (getTokenAllowance tezos _ _ _ _ _ _); simpl; auto.
Qed.

Lemma allowances_tasks_uniform :
  Forall uniform (allowances_tasks svc tezos req).
Proof.
  unfold allowances_tasks. apply Forall_forall. intros t Ht.
  apply in_map_iff in Ht as (k & <- & _). apply allowances_callback_uniform.
Qed.

Lemma allowances_run :
  outcome (allowances svc tezos req) =
    match collect (map outcome (allowances_tasks svc tezos req)) with
    | Throw e => Throw e
    | Ok assignments =>
        let approvals := assign_all assignments [] in
        if (List.length (JS.keys approvals) =? 0)%nat
        then Throw (token_not_supported svc)
        else Ok (allowances_response svc tezos req approvals)
    end /\
  calls (allowances svc tezos req) =
    (map GetTokenForSymbol (AllowancesRequest.tokenSymbols req) ++
     List.concat (map calls (allowances_tasks svc tezos req)))%list.
Proof.
  pose proof (allowances_tasks_uniform) as Huni.
  unfold outcome at 1. unfold calls at 1. unfold allowances, bind, now.
  rewrite getTokenSymbolsToTokens_run.
  change (map (allowances_callback svc tezos req
                 (resolved tezos (AllowancesRequest.tokenSymbols req)))
            (JS.keys (resolved tezos (AllowancesRequest.tokenSymbols req))))
    with (allowances_tasks svc tezos req).
  unfold Promise_all. simpl. rewrite !(run_all_uniform _ Huni). simpl.
  destruct (collect (map outcome (allowances_tasks svc tezos req)))
    as [assignments | e]; simpl; [| auto].
  unfold ret, throw.
  destruct (List.length (JS.keys (assign_all assignments _)) =? 0)%nat;
    simpl; auto.
Qed.

Lemma allowances_Ok (resp : AllowancesResponse.t) :
  let tokens := resolved tezos (AllowancesRequest.tokenSymbols req) in
  outcome (allowances svc tezos req) = Ok resp ->
  AllowancesResponse.approvals resp <> [] /\
  (forall k, In k (JS.keys tokens) ->
     exists a, outcome (allowances_callback svc tezos req tokens k) = Ok a) /\
  forall s,
    JS.get (AllowancesResponse.approvals resp) s =
    match settled (outcome (allowances_callback svc tezos req tokens s)) with
    | Some (_, v) => Some v
    | None => None
    end.
Proof.
  intros tokens. destruct (allowances_run) as [-> _].
  unfold allowances_tasks. fold tokens.
  destruct (collect _) as [assignments | e] eqn:Hcollect; [| discriminate].
  cbv zeta.
  destruct (List.length (JS.keys (assign_all assignments [])) =? 0)%nat eqn:Hempty;
    [discriminate |].
  intros [= <-]. simpl. repeat split.
  - intros H. rewrite <- no_keys in H. congruence.
  - apply (collected_assignments _ _ _ Hcollect).
  - intros s.
    rewrite (assigned_get tezos (AllowancesRequest.tokenSymbols req)
               (allowances_callback svc tezos req tokens) [] assignments); auto.
    + apply allowances_callback_own.
    + intros k. apply allowances_callback_unresolved.
Qed.

Lemma allowances_entry_zero (symbol : string) (token : TokenInfo.t)
    (resp : AllowancesResponse.t) :
  JS.get (resolved tezos (AllowancesRequest.tokenSymbols req)) symbol = Some token ->
  TokenInfo.standard token = "fa1.2" ->
  outcome (allowances svc tezos req) = Ok resp ->
  JS.get (AllowancesResponse.approvals resp) symbol = Some "0.000000".
Proof.
  intros Hget Hstd Hresp.
  destruct (allowances_callback_zero _ symbol token Hget Hstd)
    as [_ Hout].
  apply allowances_Ok in Hresp as (_ & _ & Hmap).
  rewrite Hmap, Hout. reflexivity.
Qed.

Lemma allowances_entry_query (symbol : string) (token : TokenInfo.t)
    (resp : AllowancesResponse.t) :
  JS.get (resolved tezos (AllowancesRequest.tokenSymbols req)) symbol = Some token ->
  TokenInfo.standard token <> "fa1.2" ->
  outcome (allowances svc tezos req) = Ok resp ->
  exists allowance,
    getTokenAllowance tezos (TokenInfo.address token)
      (AllowancesRequest.address req) (AllowancesRequest.spender req)
      "fa2" (TokenInfo.tokenId token) (TokenInfo.decimals token)
    = Resolved allowance /\
    JS.get (AllowancesResponse.approvals resp) symbol =
      Some (tokenValueToString svc allowance).
Proof.
  intros Hget Hstd Hresp.
  destruct (allowances_callback_query _ symbol token Hget Hstd)
    as [_ Hout].
  apply allowances_Ok in Hresp as (_ & Hok & Hmap).
  destruct (Hok symbol) as [a Ha]; [apply keys_In; eauto |].
  rewrite Hout in Ha. rewrite Hmap, Hout.
  destruct (getTokenAllowance tezos _ _ _ _ _ _) as [allowance | reason];
    [| discriminate].
  exists allowance. split; reflexivity.
Qed.

Lemma allowances_query_issued (symbol : string) (token : TokenInfo.t) :
  JS.get (resolved tezos (AllowancesRequest.tokenSymbols req)) symbol = Some token ->
  TokenInfo.standard token <> "fa1.2" ->
  In (GetTokenAllowance (TokenInfo.address token) (AllowancesRequest.address req)
        (AllowancesRequest.spender req) "fa2" (TokenInfo.tokenId token)
        (TokenInfo.decimals token))
     (calls (allowances svc tezos req)).
Proof.
  intros Hget Hstd.
  destruct (allowances_callback_query _ symbol token Hget Hstd)
    as [Hcalls _].
  destruct (allowances_run) as [_ ->].
  apply in_or_app. right. unfold allowances_tasks.
  apply in_concat_calls. exists symbol. split.
  - apply keys_In. eauto.
  - rewrite Hcalls. left. reflexivity.
Qed.

Lemma allowances_callbacks_resolve :
  allowances_resolve tezos req ->
  Forall (fun r => exists a, r = Ok a)
    (map outcome (allowances_tasks svc tezos req)).
Proof.
  intros Hres. unfold allowances_tasks. rewrite map_map.
  apply Forall_forall. intros r Hr. apply in_map_iff in Hr as (k & <- & Hk).
  apply keys_In in Hk as [token Hget].
  destruct (string_dec (TokenInfo.standard token) "fa1.2") as [Hstd | Hstd].
  - destruct (allowances_callback_zero _ k token Hget Hstd) as [_ ->].
    eauto.
  - destruct (allowances_callback_query _ k token Hget Hstd)
      as [_ ->].
    destruct (Hres (TokenInfo.address token) (TokenInfo.tokenId token)
                (TokenInfo.decimals token)) as [allowance ->].
    eauto.
Qed.

Lemma allowances_empty :
  (forall symbol,
     JS.get (resolved tezos (AllowancesRequest.tokenSymbols req)) symbol = None) ->
  outcome (allowances svc tezos req) = Throw (token_not_supported svc).
Proof.
  intros Hno. destruct (allowances_run) as [-> _].
  unfold allowances_tasks.
  assert (JS.keys (resolved tezos (AllowancesRequest.tokenSymbols req)) = []) as ->.
  { destruct (JS.keys _) as [| k ks] eqn:E; [reflexivity |].
    assert (In k (JS.keys (resolved tezos (AllowancesRequest.tokenSymbols req))))
      as Hk by (rewrite E; left; reflexivity).
    apply keys_In in Hk as [token Hget]. rewrite Hno in Hget. discriminate. }
  reflexivity.
Qed.

Lemma allowances_success :
  allowances_resolve tezos req ->
  (exists symbol token,
     JS.get (resolved tezos (AllowancesRequest.tokenSymbols req)) symbol
     = Some token) ->
  exists resp, outcome (allowances svc tezos req) = Ok resp.
Proof.
  intros Hres (symbol & token & Hget).
  destruct (allowances_run) as [-> _].
  rewrite (collect_all_Ok _ (allowances_callbacks_resolve Hres)).
  cbv zeta.
  destruct (List.length (JS.keys (assign_all _ [])) =? 0)%nat eqn:E; [| eauto].
  exfalso. apply no_keys in E. revert E.
  assert (exists v,
            outcome (allowances_callback svc tezos req
                       (resolved tezos (AllowancesRequest.tokenSymbols req)) symbol)
            = Ok (Some (symbol, v))) as [v Hout].
  { destruct (string_dec (TokenInfo.standard token) "fa1.2") as [Hstd | Hstd].
    - destruct (allowances_callback_zero _ symbol token Hget Hstd)
        as [_ ->]. eauto.
    - destruct (allowances_callback_query _ symbol token Hget Hstd)
        as [_ ->].
      destruct (Hres (TokenInfo.address token) (TokenInfo.tokenId token)
                  (TokenInfo.decimals token)) as [allowance ->].
      eauto. }
  apply (assign_all_Some _ [] symbol v).
  - unfold allowances_tasks. rewrite !map_map. apply in_map_iff.
    exists symbol. split; [rewrite Hout; reflexivity |].
    apply keys_In. eauto.
  - apply (resolved_key_ordinary _ _ _ _ Hget).
Qed.

Lemma allowances_Throw (e : exn) :
  allowances_resolve tezos req ->
  outcome (allowances svc tezos req) = Throw e ->
  e = token_not_supported svc.
Proof.
  intros Hres. destruct (allowances_run) as [-> _].
  rewrite (collect_all_Ok _ (allowances_callbacks_resolve Hres)).
  cbv zeta.
  destruct (List.length (JS.keys (assign_all _ [])) =? 0)%nat;
    intros [=]; congruence.
Qed.

Lemma allowances_callback_calls (tokens : JS.Record TokenInfo.t) (symbol : string) :
  calls (allowances_callback svc tezos req tokens symbol) =
  allowance_queries req tokens symbol.
Proof.
  unfold calls, allowances_callback, allowance_queries, bind, invoke, ret, throw.
  destruct (JS.get tokens symbol) as [token |]; [| reflexivity].
  destruct (TokenInfo.standard token =? "fa1.2")%string; [reflexivity |].
  simpl. destruct (getTokenAllowance tezos _ _ _ _ _ _); reflexivity.
Qed.

Lemma allowances_log :
  let tokens := resolved tezos (AllowancesRequest.tokenSymbols req) in
  calls (allowances svc tezos req) =
    (map GetTokenForSymbol (AllowancesRequest.tokenSymbols req) ++
     flat_map (allowance_queries req tokens) (JS.keys tokens))%list.
Proof.
  intros tokens. destruct (allowances_run) as [_ ->]. f_equal.
  unfold allowances_tasks. fold tokens. rewrite map_map, flat_map_concat_map.
  f_equal. apply map_ext. intros k. apply allowances_callback_calls.
Qed.

(** Claim C5.  The log of [allowances] is the registry lookups followed,
    key by key of the resolved mapping, by nothing for a token of standard
    ['fa1.2'] and by one query for a token of any other standard, in
    particular ['fa2']: [getTokenAllowance] with the token's address, the
    owner, the spender, the tag ['fa2'], the token id and the decimals.  So
    no call is made for a resolved token of standard ['fa1.2'], and every
    response reports ["0.000000"] for it, whoever the owner and the spender
    are; for another token the query is in the log and every response
    reports the answer.  When the client answers every query, there is a
    response. *)
Theorem allowances_by_standard (symbol : string) (token : TokenInfo.t) :
  let tokens := resolved tezos (AllowancesRequest.tokenSymbols req) in
  let callback := allowances_callback svc tezos req tokens symbol in
  JS.get tokens symbol = Some token ->
  (calls (allowances svc tezos req) =
     (map GetTokenForSymbol (AllowancesRequest.tokenSymbols req) ++
      flat_map (allowance_queries req tokens) (JS.keys tokens))%list /\
   In symbol (JS.keys tokens) /\
   (allowances_resolve tezos req ->
    exists resp, outcome (allowances svc tezos req) = Ok resp)) /\
  (TokenInfo.standard token = "fa1.2" ->
   allowance_queries req tokens symbol = [] /\
   calls callback = [] /\
   outcome callback = Ok (Some (symbol, "0.000000")) /\
   forall resp, outcome (allowances svc tezos req) = Ok resp ->
     JS.get (AllowancesResponse.approvals resp) symbol = Some "0.000000") /\
  (TokenInfo.standard token <> "fa1.2" ->
   let query :=
     GetTokenAllowance (TokenInfo.address token) (AllowancesRequest.address req)
       (AllowancesRequest.spender req) "fa2" (TokenInfo.tokenId token)
       (TokenInfo.decimals token) in
   allowance_queries req tokens symbol = [query] /\
   calls callback = [query] /\
   In query (calls (allowances svc tezos req)) /\
   forall resp, outcome (allowances svc tezos req) = Ok resp ->
     exists allowance,
       getTokenAllowance tezos (TokenInfo.address token)
         (AllowancesRequest.address req) (AllowancesRequest.spender req)
         "fa2" (TokenInfo.tokenId token) (TokenInfo.decimals token)
       = Resolved allowance /\
       JS.get (AllowancesResponse.approvals resp) symbol =
         Some (tokenValueToString svc allowance)).
Proof.
  intros tokens callback Hget. subst callback tokens. split; [| split].
  - split; [apply allowances_log |]. split; [apply keys_In; eauto |].
    intros Hres. apply (allowances_success Hres). eauto.
  - intros Hstd.
    destruct (allowances_callback_zero _ symbol token Hget Hstd)
      as [Hcalls Hout].
    split; [rewrite <- allowances_callback_calls; exact Hcalls |].
    repeat split; [exact Hcalls | exact Hout |].
    intros resp. apply allowances_entry_zero with (token := token); assumption.
  - intros Hstd query.
    destruct (allowances_callback_query _ symbol token Hget Hstd)
      as [Hcalls Hout].
    split; [rewrite <- allowances_callback_calls; exact Hcalls |].
    repeat split; [exact Hcalls | |].
    + apply (allowances_query_issued symbol token Hget Hstd).
    + intros resp. apply allowances_entry_query with (symbol := symbol); assumption.
Qed.

End Allowances.

(** CTEZ, of standard fa1.2, costs no call: the log of [allowances] has
    the four lookups and the queries of USDT and OBJKT, and the response
    reports 0.000000 for CTEZ. *)
Lemma allowances_by_standard_witness :
  JS.get (resolved Sample.tezos (AllowancesRequest.tokenSymbols Sample.allowances_request))
    "CTEZ" = Some Sample.CTEZ /\
  TokenInfo.standard Sample.CTEZ = "fa1.2" /\
  calls (allowances Sample.services Sample.tezos Sample.allowances_request) =
    [GetTokenForSymbol "USDT"; GetTokenForSymbol "CTEZ";
     GetTokenForSymbol "OBJKT"; GetTokenForSymbol "NOPE";
     GetTokenAllowance "KT1usdt" "tz1owner" "tz1spender" "fa2" (Some 0) 6;
     GetTokenAllowance "KT1objkt" "tz1owner" "tz1spender" "fa2" None 0] /\
  exists resp,
    outcome (allowances Sample.services Sample.tezos Sample.allowances_request)
      = Ok resp /\
    JS.get (AllowancesResponse.approvals resp) "CTEZ" = Some "0.000000".
Proof.
  split; [reflexivity |]. split; [reflexivity |].
  destruct (allowances_by_standard Sample.services Sample.tezos
              Sample.allowances_request "CTEZ" Sample.CTEZ eq_refl)
    as ((Hlog & _ & Hanswer) & Hzero & _).
  split; [rewrite Hlog; reflexivity |].
  destruct Hanswer as [resp Hresp].
  { intros a t d. eexists. reflexivity. }
  exists resp. split; [exact Hresp |].
  destruct (Hzero eq_refl) as (_ & _ & _ & Hentry). apply (Hentry resp Hresp).
Defined.

(** ** Both aggregators *)

(** Claim C6, as amended.  In [balances], a resolved token other than the
    native one whose [tokenId] is undefined is skipped.  No fetch: the log
    of [balances] is the lookups, the native balance if it is requested,
    and then, key by key of the resolved mapping, the fetches of the tokens
    that have a token id, so the key of this token adds nothing to it.  No
    entry: no response has an entry for it.  No error: when the client
    answers and there is something else to report, [balances] answers.
    [allowances] has no such test: its log is the lookups and then, key by
    key, nothing for a token of standard ['fa1.2'] and a query for any other
    token, so a resolved token without [tokenId] is handled like any other,
    with ["0.000000"] and no call for the standard ['fa1.2'] and a query
    with an undefined token id otherwise; every response has an entry for
    it, and there is a response when the client answers. *)
Theorem undefined_token_id (svc : Services) (tezos : Tezosish) :
  (forall (req : BalanceRequest.t) (symbol : string) (token : TokenInfo.t),
     let symbols := BalanceRequest.tokenSymbols req in
     let native := nativeTokenSymbol tezos in
     let owner := BalanceRequest.address req in
     let tokens := resolved tezos symbols in
     let callback := balances_callback svc tezos req tokens symbol in
     JS.get tokens symbol = Some token ->
     symbol <> native ->
     TokenInfo.tokenId token = None ->
     (calls callback = [] /\ outcome callback = Ok None) /\
     (In symbol (JS.keys tokens) /\
      balance_fetches tezos req tokens symbol = [] /\
      ((In native symbols ->
        exists balance, getNativeBalance tezos owner = Resolved balance) ->
       calls (balances svc tezos req) =
         (map GetTokenForSymbol symbols ++
          (if JS.includes symbols native then [GetNativeBalance owner] else []) ++
          flat_map (balance_fetches tezos req tokens) (JS.keys tokens))%list)) /\
     (forall resp, outcome (balances svc tezos req) = Ok resp ->
        JS.get (BalanceResponse.balances resp) symbol = None) /\
     (balances_resolve tezos req ->
      (In native symbols /\ native <> "__proto__") \/
      (exists symbol' token' tokenId',
         fetched tezos tokens symbol' token' tokenId') ->
      exists resp,
        outcome (balances svc tezos req) = Ok resp /\
        JS.get (BalanceResponse.balances resp) symbol = None)) /\
  (forall (req : AllowancesRequest.t) (symbol : string) (token : TokenInfo.t),
     let symbols := AllowancesRequest.tokenSymbols req in
     let tokens := resolved tezos symbols in
     let callback := allowances_callback svc tezos req tokens symbol in
     let query :=
       GetTokenAllowance (TokenInfo.address token)
         (AllowancesRequest.address req) (AllowancesRequest.spender req)
         "fa2" None (TokenInfo.decimals token) in
     JS.get tokens symbol = Some token ->
     TokenInfo.tokenId token = None ->
     (In symbol (JS.keys tokens) /\
      calls (allowances svc tezos req) =
        (map GetTokenForSymbol symbols ++
         flat_map (allowance_queries req tokens) (JS.keys tokens))%list) /\
     (TokenInfo.standard token = "fa1.2" ->
      allowance_queries req tokens symbol = [] /\
      calls callback = [] /\ outcome callback = Ok (Some (symbol, "0.000000"))) /\
     (TokenInfo.standard token <> "fa1.2" ->
      allowance_queries req tokens symbol = [query] /\
      calls callback = [query] /\
      In query (calls (allowances svc tezos req))) /\
     (forall resp, outcome (allowances svc tezos req) = Ok resp ->
        JS.get (AllowancesResponse.approvals resp) symbol <> None) /\
     (allowances_resolve tezos req ->
      exists resp,
        outcome (allowances svc tezos req) = Ok resp /\
        JS.get (AllowancesResponse.approvals resp) symbol <> None)).
Proof.
  split.
  - intros req symbol token symbols native owner tokens callback Hget Hne Hid.
    subst callback.
    assert (forall t i, ~ fetched tezos tokens symbol t i) as Hno.
    { intros t i (H1 & _ & H3). rewrite Hget in H1. injection H1 as <-. congruence. }
    destruct (balances_callback_skip svc tezos req tokens symbol Hno)
      as [Hcalls Hout].
    assert (forall resp, outcome (balances svc tezos req) = Ok resp ->
              JS.get (BalanceResponse.balances resp) symbol = None) as Hentry.
    { intros resp Hresp.
      pose proof (balances_run svc tezos req) as Hrun. cbv zeta in Hrun.
      assert (forall init,
                JS.get init symbol = None ->
                balances_finish svc tezos req init = Ok resp ->
                JS.get (BalanceResponse.balances resp) symbol = None) as Hfin.
      { intros init Hinit Hf. apply balances_finish_Ok in Hf as (_ & _ & Hmap).
        rewrite Hmap. fold symbols tokens. rewrite Hout. exact Hinit. }
      destruct (JS.includes _ _).
      + destruct (getNativeBalance tezos _) as [balance | reason];
          destruct Hrun as [Hrun _]; rewrite Hrun in Hresp; [| discriminate].
        apply (fun H => Hfin _ H Hresp).
        rewrite get_set.
        assert ((nativeTokenSymbol tezos =? symbol)%string = false) as ->
          by (apply String.eqb_neq; intros E; apply Hne; symmetry; exact E).
        reflexivity.
      + destruct Hrun as [Hrun _]. rewrite Hrun in Hresp.
        apply (Hfin [] eq_refl Hresp). }
    split; [split; [exact Hcalls | exact Hout] |].
    split; [| split; [exact Hentry |]].
    + split; [apply keys_In; eauto |].
      split; [rewrite <- (balances_callback_calls svc tezos req); exact Hcalls |].
      apply (balances_log svc tezos req).
    + intros Hres Hsome.
      destruct (balances_answers svc tezos req Hres Hsome) as [resp Hresp].
      exists resp. split; [exact Hresp | apply (Hentry resp Hresp)].
  - intros req symbol token symbols tokens callback query Hget Hid.
    subst callback query.
    assert (forall resp, outcome (allowances svc tezos req) = Ok resp ->
              JS.get (AllowancesResponse.approvals resp) symbol <> None)
      as Hentry.
    { intros resp Hresp.
      destruct (string_dec (TokenInfo.standard token) "fa1.2") as [Hstd | Hstd].
      - rewrite (allowances_entry_zero svc tezos req symbol token resp Hget Hstd Hresp).
        discriminate.
      - destruct (allowances_entry_query svc tezos req symbol token resp Hget Hstd Hresp)
          as (a & _ & ->).
        discriminate. }
    split; [| split; [| split; [| split; [exact Hentry |]]]].
    + split; [apply keys_In; eauto | apply (allowances_log svc tezos req)].
    + intros Hstd.
      destruct (allowances_callback_zero svc tezos req tokens symbol token Hget Hstd)
        as [Hcalls Hout].
      split; [rewrite <- (allowances_callback_calls svc tezos req); exact Hcalls |].
      split; [exact Hcalls | exact Hout].
    + intros Hstd.
      destruct (allowances_callback_query svc tezos req tokens symbol token Hget Hstd)
        as [Hcalls _].
      rewrite Hid in Hcalls.
      split; [rewrite <- (allowances_callback_calls svc tezos req); exact Hcalls |].
      split; [exact Hcalls |].
      rewrite <- Hid.
      apply (allowances_query_issued svc tezos req symbol token Hget Hstd).
    + intros Hres.
      destruct (allowances_success svc tezos req Hres) as [resp Hresp];
        [eauto |].
      exists resp. split; [exact Hresp | apply (Hentry resp Hresp)].
Qed.

(** CTEZ has no token id: [balances] neither fetches nor reports it, and
    answers for XTZ and USDT. *)
Lemma undefined_token_id_witness :
  JS.get (resolved Sample.tezos (BalanceRequest.tokenSymbols Sample.balance_request))
    "CTEZ" = Some Sample.CTEZ /\
  "CTEZ" <> nativeTokenSymbol Sample.tezos /\
  TokenInfo.tokenId Sample.CTEZ = None /\
  calls (balances Sample.services Sample.tezos Sample.balance_request) =
    [GetTokenForSymbol "XTZ"; GetTokenForSymbol "USDT";
     GetTokenForSymbol "CTEZ"; GetTokenForSymbol "NOPE";
     GetNativeBalance "tz1owner"; GetTokenBalance "KT1usdt" "tz1owner" 0 6] /\
  exists resp,
    outcome (balances Sample.services Sample.tezos Sample.balance_request) = Ok resp /\
    JS.get (BalanceResponse.balances resp) "CTEZ" = None.
Proof.
  assert ("CTEZ" <> nativeTokenSymbol Sample.tezos) as Hne
    by (intros E; discriminate E).
  split; [reflexivity |]. split; [exact Hne |]. split; [reflexivity |].
  destruct (undefined_token_id Sample.services Sample.tezos) as (Hb & _).
  destruct (Hb Sample.balance_request "CTEZ" Sample.CTEZ eq_refl Hne eq_refl)
    as (_ & (_ & _ & Hlog) & _ & Hanswer).
  split.
  - rewrite Hlog; [reflexivity |]. intros _. eexists. reflexivity.
  - apply Hanswer.
    + split; [eexists; reflexivity |]. intros a i d. eexists. reflexivity.
    + left. split; [left; reflexivity | intros E; discriminate E].
Defined.

(** Claim C6 as stated fails for [allowances]: CTEZ and OBJKT have no
    token id, yet the response has an entry for both, and OBJKT is queried
    with an undefined token id. *)
Lemma allowances_keeps_undefined_token_id :
  TokenInfo.tokenId Sample.CTEZ = None /\
  TokenInfo.tokenId Sample.OBJKT = None /\
  (exists resp,
     outcome (allowances Sample.services Sample.tezos Sample.allowances_request)
       = Ok resp /\
     JS.get (AllowancesResponse.approvals resp) "CTEZ" = Some "0.000000" /\
     JS.get (AllowancesResponse.approvals resp) "OBJKT" = Some "7.0") /\
  In (GetTokenAllowance "KT1objkt" "tz1owner" "tz1spender" "fa2" None 0)
     (calls (allowances Sample.services Sample.tezos Sample.allowances_request)) /\
  ~ (forall (svc : Services) (tezos : Tezosish) (req : AllowancesRequest.t)
            (symbol : string) (token : TokenInfo.t),
       JS.get (resolved tezos (AllowancesRequest.tokenSymbols req)) symbol
         = Some token ->
       symbol <> nativeTokenSymbol tezos ->
       TokenInfo.tokenId token = None ->
       forall resp, outcome (allowances svc tezos req) = Ok resp ->
         JS.get (AllowancesResponse.approvals resp) symbol = None).
Proof.
  split; [reflexivity |]. split; [reflexivity |].
  split; [eexists; split; [reflexivity | split; reflexivity] |].
  split; [vm_compute; auto 10 |].
  intros H.
  assert ("CTEZ" <> nativeTokenSymbol Sample.tezos) as Hne
    by (intros E; discriminate E).
  specialize (H Sample.services Sample.tezos Sample.allowances_request "CTEZ"
                Sample.CTEZ eq_refl Hne eq_refl _ eq_refl).
  discriminate H.
Qed.

(** Claim C3.  Neither aggregator returns an empty mapping: when the
    client answers every call, the only failure is the token-not-supported
    fault (status 500, the message and the code of the fault).  [balances]
    throws it when the native symbol is not requested and no resolved token
    is fetched; [allowances] throws it when no symbol resolves.  When some
    token is fetched and the client answers every call, the operation
    succeeds, and the response has exactly the fetched tokens (besides the
    native symbol in [balances]): the other symbols are left out. *)
Theorem empty_result_is_a_fault (svc : Services) (tezos : Tezosish) :
  let fault :=
    HttpException 500 (TOKEN_NOT_SUPPORTED_ERROR_MESSAGE svc)
      (TOKEN_NOT_SUPPORTED_ERROR_CODE svc) in
  (forall req : BalanceRequest.t,
     let tokens := resolved tezos (BalanceRequest.tokenSymbols req) in
     let native := nativeTokenSymbol tezos in
     let fetchable (symbol : string) :=
       exists token tokenId, fetched tezos tokens symbol token tokenId in
     (forall resp, outcome (balances svc tezos req) = Ok resp ->
        BalanceResponse.balances resp <> []) /\
     (balances_resolve tezos req ->
      forall e, outcome (balances svc tezos req) = Throw e -> e = fault) /\
     (~ In native (BalanceRequest.tokenSymbols req) ->
      (forall symbol, ~ fetchable symbol) ->
      outcome (balances svc tezos req) = Throw fault) /\
     ((exists symbol, fetchable symbol) -> balances_resolve tezos req ->
      exists resp,
        outcome (balances svc tezos req) = Ok resp /\
        forall symbol, symbol <> native ->
          (JS.get (BalanceResponse.balances resp) symbol <> None <->
           fetchable symbol))) /\
  (forall req : AllowancesRequest.t,
     let tokens := resolved tezos (AllowancesRequest.tokenSymbols req) in
     (forall resp, outcome (allowances svc tezos req) = Ok resp ->
        AllowancesResponse.approvals resp <> []) /\
     (allowances_resolve tezos req ->
      forall e, outcome (allowances svc tezos req) = Throw e -> e = fault) /\
     ((forall symbol, JS.get tokens symbol = None) ->
      outcome (allowances svc tezos req) = Throw fault) /\
     ((exists symbol token, JS.get tokens symbol = Some token) ->
      allowances_resolve tezos req ->
      exists resp,
        outcome (allowances svc tezos req) = Ok resp /\
        forall symbol,
          JS.get (AllowancesResponse.approvals resp) symbol <> None <->
          JS.get tokens symbol <> None)).
Proof.
  intros fault. split.
  - intros req tokens native fetchable. subst tokens native fetchable. cbv beta.
    pose proof (balances_run svc tezos req) as Hrun. cbv zeta in Hrun.
    split; [| split; [| split]].
    + intros resp Hresp.
      destruct (JS.includes _ _);
        [destruct (getNativeBalance tezos _) |];
        destruct Hrun as [Hrun _]; rewrite Hrun in Hresp; try discriminate;
        apply balances_finish_Ok in Hresp; tauto.
    + intros Hres e He.
      destruct (JS.includes _ _).
      * destruct (proj1 Hres) as [balance Hb]. rewrite Hb in Hrun.
        destruct Hrun as [Hrun _]. rewrite Hrun in He.
        apply (balances_finish_Throw svc tezos req _ e Hres He).
      * destruct Hrun as [Hrun _]. rewrite Hrun in He.
        apply (balances_finish_Throw svc tezos req _ e Hres He).
    + intros Hnative Hno.
      destruct (JS.includes _ _) eqn:Hinc;
        [apply includes_In in Hinc; tauto |].
      destruct Hrun as [-> _]. apply balances_finish_empty.
      intros symbol token tokenId Hf. apply (Hno symbol). eauto.
    + intros (symbol & Hf) Hres.
      assert (exists init resp,
                outcome (balances svc tezos req) = Ok resp /\
                balances_finish svc tezos req init = Ok resp /\
                forall s, s <> nativeTokenSymbol tezos -> JS.get init s = None)
        as (init & resp & Hout & Hfin & Hinit).
      { destruct (JS.includes _ _).
        - destruct Hres as [[balance Hb] Hres']. rewrite Hb in Hrun.
          destruct Hrun as [Hrun _].
          destruct (balances_finish_success svc tezos req
                      (JS.set (nativeTokenSymbol tezos)
                         (tokenValueToString svc balance) [])
                      (conj (ex_intro _ balance Hb) Hres')) as [resp Hresp].
          { destruct Hf as (t & i & Hf). eauto. }
          exists (JS.set (nativeTokenSymbol tezos) (tokenValueToString svc balance) []),
            resp.
          split; [congruence | split; [exact Hresp |]].
          intros s Hs. rewrite get_set.
          assert ((nativeTokenSymbol tezos =? s)%string = false) as ->
            by (apply String.eqb_neq; congruence).
          reflexivity.
        - destruct Hrun as [Hrun _].
          destruct (balances_finish_success svc tezos req [] Hres) as [resp Hresp].
          { destruct Hf as (t & i & Hf). eauto. }
          exists [], resp. split; [congruence | split; [exact Hresp |]].
          intros s _. reflexivity. }
      exists resp. split; [exact Hout |].
      intros s Hs. apply balances_finish_Ok in Hfin as (_ & _ & Hmap).
      rewrite Hmap, (Hinit s Hs).
      destruct (fetched_dec tezos (resolved tezos (BalanceRequest.tokenSymbols req)) s)
        as [(token & tokenId & Hfs) | Hno].
      * destruct (balances_callback_fetch svc tezos req _ s token tokenId Hfs)
          as [_ ->].
        destruct Hres as [_ Hres].
        destruct (Hres (TokenInfo.address token) tokenId (TokenInfo.decimals token))
          as [balance ->].
        simpl. split; [eauto | discriminate].
      * destruct (balances_callback_skip svc tezos req _ s Hno) as [_ ->].
        simpl. split; [congruence |]. intros (t & i & Hfs). destruct (Hno t i Hfs).
  - intros req tokens. subst tokens. split; [| split; [| split]].
    + intros resp Hresp. apply allowances_Ok in Hresp. tauto.
    + intros Hres e. apply allowances_Throw. exact Hres.
    + apply allowances_empty.
    + intros Hsome Hres.
      destruct (allowances_success svc tezos req Hres Hsome) as [resp Hresp].
      exists resp. split; [exact Hresp |]. intros s.
      destruct (JS.get (resolved tezos (AllowancesRequest.tokenSymbols req)) s)
        as [token |] eqn:Hget.
      * split; [discriminate |]. intros _.
        destruct (string_dec (TokenInfo.standard token) "fa1.2") as [Hstd | Hstd].
        -- rewrite (allowances_entry_zero svc tezos req s token resp Hget Hstd Hresp).
           discriminate.
        -- destruct (allowances_entry_query svc tezos req s token resp Hget Hstd Hresp)
             as (a & _ & ->).
           discriminate.
      * apply allowances_Ok in Hresp as (_ & _ & Hmap).
        rewrite Hmap, allowances_callback_unresolved by exact Hget.
        tauto.
Qed.

(** An unknown symbol and a token without id give the fault; with XTZ and
    USDT requested besides, [balances] answers and leaves NOPE out. *)
Lemma empty_result_is_a_fault_witness :
  outcome (balances Sample.services Sample.tezos
             {| BalanceRequest.address := "tz1owner";
                BalanceRequest.tokenSymbols := ["NOPE"; "CTEZ"] |}) =
    Throw (HttpException 500 "Token not supported: " 1007) /\
  outcome (allowances Sample.services Sample.tezos
             {| AllowancesRequest.address := "tz1owner";
                AllowancesRequest.spender := "tz1spender";
                AllowancesRequest.tokenSymbols := ["NOPE"] |}) =
    Throw (HttpException 500 "Token not supported: " 1007) /\
  exists resp,
    outcome (balances Sample.services Sample.tezos Sample.balance_request) = Ok resp /\
    JS.get (BalanceResponse.balances resp) "USDT" <> None /\
    JS.get (BalanceResponse.balances resp) "NOPE" = None.
Proof.
  destruct (empty_result_is_a_fault Sample.services Sample.tezos) as (Hb & Ha).
  split; [| split].
  - destruct (Hb {| BalanceRequest.address := "tz1owner";
                    BalanceRequest.tokenSymbols := ["NOPE"; "CTEZ"] |})
      as (_ & _ & H & _).
    apply H.
    + intros [E | [E | []]]; discriminate E.
    + intros symbol (token & tokenId & Hget & _ & Hid).
      assert (resolved Sample.tezos ["NOPE"; "CTEZ"] = [("CTEZ", Sample.CTEZ)])
        as E by reflexivity.
      simpl BalanceRequest.tokenSymbols in Hget. rewrite E in Hget.
      cbn [JS.get] in Hget.
      destruct ("CTEZ" =? symbol)%string;
        [injection Hget as <-; discriminate Hid | discriminate Hget].
  - destruct (Ha {| AllowancesRequest.address := "tz1owner";
                    AllowancesRequest.spender := "tz1spender";
                    AllowancesRequest.tokenSymbols := ["NOPE"] |})
      as (_ & _ & H & _).
    apply H. intros symbol. reflexivity.
  - destruct (Hb Sample.balance_request) as (_ & _ & _ & H).
    destruct H as (resp & Hresp & Hkeys).
    + exists "USDT", Sample.USDT, 0. repeat split. intros E; discriminate E.
    + split; [eexists; reflexivity |]. intros a t d. eexists; reflexivity.
    + exists resp. split; [exact Hresp |]. split.
      * apply Hkeys; [intros E; discriminate E |].
        exists Sample.USDT, 0. repeat split. intros E; discriminate E.
      * destruct (JS.get (BalanceResponse.balances resp) "NOPE") eqn:E;
          [| reflexivity].
        exfalso.
        assert (JS.get (BalanceResponse.balances resp) "NOPE" <> None) as Hn
          by congruence.
        apply Hkeys in Hn; [| intros E'; discriminate E'].
        destruct Hn as (token & tokenId & Hget & _). discriminate Hget.
Defined.

(** * Further properties *)

(** ** [getTokenSymbolsToTokens]: the keys *)

(** The keys of the mapping that [getTokenSymbolsToTokens] returns are the
    requested symbols that the registry knows, each of them once however
    often the request repeats it, so there are at most as many keys as
    requested symbols; the registry is asked once for every occurrence. *)
Theorem getTokenSymbolsToTokens_keys (tezos : Tezosish)
    (tokenSymbols : list string) :
  exists tokens,
    outcome (getTokenSymbolsToTokens tezos tokenSymbols) = Ok tokens /\
    NoDup (JS.keys tokens) /\
    (forall symbol,
       In symbol (JS.keys tokens) <->
       In symbol tokenSymbols /\ symbol <> "__proto__" /\
       getTokenForSymbol tezos symbol <> None) /\
    (List.length (JS.keys tokens) <= List.length tokenSymbols)%nat /\
    List.length (calls (getTokenSymbolsToTokens tezos tokenSymbols)) =
      List.length tokenSymbols.
Proof.
  exists (resolved tezos tokenSymbols).
  unfold outcome, calls. rewrite getTokenSymbolsToTokens_run. simpl.
  assert (forall symbol,
            In symbol (JS.keys (resolved tezos tokenSymbols)) <->
            In symbol tokenSymbols /\ symbol <> "__proto__" /\
            getTokenForSymbol tezos symbol <> None) as Hkeys.
  { intros symbol. rewrite keys_In. split.
    - intros [token H]. apply resolved_get in H as (H1 & H2 & H3).
      split; [exact H1 |]. split; [exact H2 | congruence].
    - intros (H1 & H2 & H3).
      destruct (getTokenForSymbol tezos symbol) as [token |] eqn:E;
        [| congruence].
      exists token. apply resolved_get. auto. }
  split; [reflexivity |]. split; [apply resolved_keys_NoDup |].
  split; [exact Hkeys |]. split.
  - apply NoDup_incl_length; [apply resolved_keys_NoDup |].
    intros symbol H. apply Hkeys in H. tauto.
  - apply length_map.
Qed.

(** ** [poll]: failures and the meaning of a status *)

(** [poll] throws no [HttpException].  It fails only when a call of the
    client is rejected, with that rejection, and it stops there: without the
    head height the mempool is not read, without the mempool no transaction
    is looked up.  With both delivered it makes two calls, or three when it
    looks the transaction up, and then fails only if that lookup does. *)
Theorem poll_failures (svc : Services) (tezosish : Tezosish) (req : PollRequest.t) :
  let txHash := PollRequest.txHash req in
  let result := outcome (poll svc tezosish req) in
  let log := calls (poll svc tezosish req) in
  (forall reason, getCurrentBlockNumber tezosish = Rejected reason ->
     result = Throw (Uncaught reason) /\ log = [GetCurrentBlockNumber]) /\
  (forall currentBlock reason,
     getCurrentBlockNumber tezosish = Resolved currentBlock ->
     getPendingTransactions tezosish = Rejected reason ->
     result = Throw (Uncaught reason) /\
     log = [GetCurrentBlockNumber; GetPendingTransactions]) /\
  (forall currentBlock pendingTxs,
     getCurrentBlockNumber tezosish = Resolved currentBlock ->
     getPendingTransactions tezosish = Resolved pendingTxs ->
     (log = [GetCurrentBlockNumber; GetPendingTransactions] /\
      exists resp, result = Ok resp) \/
     (log = [GetCurrentBlockNumber; GetPendingTransactions; GetTransaction txHash] /\
      match getTransaction tezosish txHash with
      | Resolved tx => exists resp, result = Ok resp
      | Rejected reason => result = Throw (Uncaught reason)
      end)) /\
  (forall status message code,
     result <> Throw (HttpException status message code)).
Proof.
  intros txHash result log. subst result log.
  unfold outcome, calls, poll, bind, now, invoke, ret. simpl.
  destruct (getCurrentBlockNumber tezosish) as [currentBlock | r1]; simpl.
  2: { repeat split; try discriminate. all: intros; congruence. }
  destruct (getPendingTransactions tezosish) as [pendingTxs | r2]; simpl.
  2: { repeat split; try discriminate. all: intros; congruence. }
  fold txHash.
  destruct (find_hash (PendingOperations.applied pendingTxs) txHash); simpl.
  { repeat split; try discriminate. intros b p [= <-] [= <-]. left. eauto. }
  destruct (found (PendingOperations.branch_delayed pendingTxs) txHash); simpl.
  { repeat split; try discriminate. intros b p [= <-] [= <-]. left. eauto. }
  destruct (found (PendingOperations.branch_refused pendingTxs) txHash); simpl.
  { repeat split; try discriminate. intros b p [= <-] [= <-]. left. eauto. }
  destruct (found (PendingOperations.refused pendingTxs) txHash); simpl.
  { repeat split; try discriminate. intros b p [= <-] [= <-]. left. eauto. }
  destruct (found (PendingOperations.unprocessed pendingTxs) txHash); simpl.
  { repeat split; try discriminate. intros b p [= <-] [= <-]. left. eauto. }
  destruct (getTransaction tezosish txHash) as [tx | r3]; simpl.
  - destruct (JS.truthy tx); simpl;
      (repeat split; try discriminate; intros b p [= <-] [= <-]; right; eauto).
  - repeat split; try discriminate. intros b p [= <-] [= <-]. right. eauto.
Qed.

Ltac status_case :=
  intros [= <-]; simpl;
  repeat match goal with
    | |- _ /\ _ => split
    | |- _ <-> _ => split
    end;
  intros; simpl in *;
  repeat match goal with
    | H : _ /\ _ |- _ => destruct H
    | H : exists _, _ |- _ => destruct H
    | H : _ \/ _ |- _ => destruct H
    | H : Resolved _ = Resolved _ |- _ => injection H as H; subst
    end;
  try discriminate; try reflexivity; try tauto; try congruence;
  try (exfalso; tauto); eauto 10.

(** What a status tells its reader.  The status of a response is one of
    -1, 1, 2, 3, 4, 5.  It is 2, 3, 4 or 5 exactly when the partition of that
    number is the first one that holds the hash; 1 exactly when applied holds
    the hash or no partition does and the lookup found the transaction; -1
    exactly when no partition holds it and the lookup found nothing.  The
    response repeats the hash of the request, and carries the head height,
    the chain of the client and the time of the first clock reading. *)
Theorem poll_status_meaning (svc : Services) (tezosish : Tezosish)
    (req : PollRequest.t) (currentBlock : Z) (pendingTxs : PendingOperations.t)
    (resp : PollResponse.t) :
  getCurrentBlockNumber tezosish = Resolved currentBlock ->
  getPendingTransactions tezosish = Resolved pendingTxs ->
  outcome (poll svc tezosish req) = Ok resp ->
  let txHash := PollRequest.txHash req in
  let applied := in_partition (PendingOperations.applied pendingTxs) txHash in
  let branch_delayed :=
    in_partition (PendingOperations.branch_delayed pendingTxs) txHash in
  let branch_refused :=
    in_partition (PendingOperations.branch_refused pendingTxs) txHash in
  let refused := in_partition (PendingOperations.refused pendingTxs) txHash in
  let unprocessed :=
    in_partition (PendingOperations.unprocessed pendingTxs) txHash in
  let looked_up (present : bool) :=
    ~ applied /\ ~ branch_delayed /\ ~ branch_refused /\ ~ refused /\
    ~ unprocessed /\
    exists tx, getTransaction tezosish txHash = Resolved tx /\
               JS.truthy tx = present in
  let txStatus := PollResponse.txStatus resp in
  In txStatus [-1; 1; 2; 3; 4; 5] /\
  (txStatus = 1 <-> applied \/ looked_up true) /\
  (txStatus = 2 <-> ~ applied /\ branch_delayed) /\
  (txStatus = 3 <-> ~ applied /\ ~ branch_delayed /\ branch_refused) /\
  (txStatus = 4 <->
   ~ applied /\ ~ branch_delayed /\ ~ branch_refused /\ refused) /\
  (txStatus = 5 <->
   ~ applied /\ ~ branch_delayed /\ ~ branch_refused /\ ~ refused /\
   unprocessed) /\
  (txStatus = -1 <-> looked_up false) /\
  PollResponse.txHash resp = txHash /\
  PollResponse.currentBlock resp = currentBlock /\
  PollResponse.network resp = chain tezosish /\
  PollResponse.timestamp resp = Date_now svc 0.
Proof.
  intros Hblock Hpending Hresp txHash applied branch_delayed branch_refused
    refused unprocessed looked_up txStatus.
  subst txStatus looked_up applied branch_delayed branch_refused refused
    unprocessed. cbv beta.
  revert Hresp.
  unfold outcome, poll, bind, now, invoke, ret; simpl.
  rewrite Hblock, Hpending; simpl. fold txHash.
  destruct (find_hash (PendingOperations.applied pendingTxs) txHash)
    as [tx |] eqn:E1.
  { pose proof (find_hash_Some _ _ _ E1) as [Hin Eh].
    assert (in_partition (PendingOperations.applied pendingTxs) txHash) as H1
      by (rewrite <- Eh; apply in_map; exact Hin).
    status_case. }
  apply find_hash_None in E1.
  destruct (found (PendingOperations.branch_delayed pendingTxs) txHash) eqn:E2;
    [apply found_spec in E2 | apply found_false in E2].
  { status_case. }
  destruct (found (PendingOperations.branch_refused pendingTxs) txHash) eqn:E3;
    [apply found_spec in E3 | apply found_false in E3].
  { status_case. }
  destruct (found (PendingOperations.refused pendingTxs) txHash) eqn:E4;
    [apply found_spec in E4 | apply found_false in E4].
  { status_case. }
  destruct (found (PendingOperations.unprocessed pendingTxs) txHash) eqn:E5;
    [apply found_spec in E5 | apply found_false in E5].
  { status_case. }
  destruct (getTransaction tezosish txHash) as [tx | reason] eqn:Et; simpl;
    [| discriminate].
  destruct (JS.truthy tx) eqn:Etr; simpl; status_case.
Qed.

(** A hash that nobody knows: status -1 says that the lookup found
    nothing. *)
Lemma poll_status_meaning_witness :
  getCurrentBlockNumber Sample.tezos = Resolved 4200000 /\
  getPendingTransactions Sample.tezos = Resolved Sample.mempool /\
  exists resp,
    outcome (poll Sample.services Sample.tezos (Sample.poll_request "opZ")) = Ok resp /\
    PollResponse.txStatus resp = -1 /\
    exists tx, getTransaction Sample.tezos "opZ" = Resolved tx /\
               JS.truthy tx = false.
Proof.
  split; [reflexivity |]. split; [reflexivity |].
  eexists. split; [reflexivity |]. split; [reflexivity |].
  destruct (poll_status_meaning Sample.services Sample.tezos
              (Sample.poll_request "opZ") 4200000 Sample.mempool _
              eq_refl eq_refl eq_refl)
    as (_ & _ & _ & _ & _ & _ & H & _).
  destruct H as [H _]. destruct (H eq_refl) as (_ & _ & _ & _ & _ & Htx).
  exact Htx.
Defined.

(** ** [parseUnits]: signs and precision *)

Lemma parseFixed_negative (value : string) (decimals : Z) :
  ethers.starts_with_minus value = false ->
  ethers.parseFixed (String "-" value) decimals =
  match ethers.parseFixed value decimals with
  | Ok wei => Ok (wei * -1)
  | Throw e => Throw e
  end.
Proof.
  intros Hminus. unfold ethers.parseFixed.
  destruct (ethers.getMultiplier decimals) as [multiplier | e]; [| reflexivity].
  unfold ethers.matches_decimal. rewrite Hminus.
  change (ethers.starts_with_minus (String "-" value)) with true.
  cbv iota. change (ethers.drop_first (String "-" value)) with value.
  destruct (negb (negb (value =? "")%string && ethers.digits_or_dots value));
    [reflexivity |].
  destruct (value =? ".")%string; [reflexivity |].
  destruct (ethers.split_dot value) as [whole rest].
  destruct (2 <? Z.of_nat (S (List.length rest))); [reflexivity |].
  match goal with
  | |- context [if ?b then Throw _ else _] => destruct b
  end; reflexivity.
Qed.

Lemma trim_trailing_zeros_last (front : string) (c : ascii) :
  Ascii.eqb c "0" = false ->
  ethers.trim_trailing_zeros (front ++ String c "") = front ++ String c "".
Proof.
  intros Hc. induction front as [| x front IH]; simpl.
  - rewrite Hc. reflexivity.
  - rewrite IH.
    destruct (front ++ String c "")%string eqn:E; [| reflexivity].
    destruct front; discriminate.
Qed.

Lemma all_digits_app (s t : string) :
  JS.all_digits (s ++ t) = JS.all_digits s && JS.all_digits t.
Proof.
  induction s as [| c s IH]; simpl; [reflexivity |].
  rewrite IH, andb_assoc. reflexivity.
Qed.

Lemma parseFixed_exceeds (whole fraction : string) (decimals : Z) :
  whole <> "" ->
  JS.all_digits whole = true -> JS.all_digits fraction = true ->
  ethers.trim_trailing_zeros fraction = fraction ->
  0 <= decimals < Z.of_nat (String.length fraction) ->
  exists reason,
    ethers.parseFixed (whole ++ "." ++ fraction) decimals = Throw (Uncaught reason).
Proof.
  intros Hwne Hw Hf Htrim Hlen.
  destruct (nonempty_digits whole Hwne Hw) as (c & rest & -> & Hc).
  change ("." ++ fraction) with (String "." fraction).
  destruct (ethers.parseFixed (String c rest ++ String "." fraction) decimals)
    as [wei | e] eqn:E; [| apply parseFixed_throws in E as [reason ->]; eauto].
  exfalso. revert E. unfold ethers.parseFixed.
  destruct (ethers.getMultiplier decimals) as [multiplier | e] eqn:Em;
    [| discriminate].
  destruct (negb _); [discriminate |].
  assert (ethers.starts_with_minus (String c rest ++ String "." fraction) = false)
    as -> by (simpl; apply digit_not; [exact Hc | reflexivity]).
  destruct (_ =? ".")%string; [discriminate |].
  rewrite (split_dot_decimal (String c rest) fraction Hw Hf).
  change (2 <? Z.of_nat (S (List.length [fraction]))) with false. cbv iota.
  assert (fraction <> "") as Hfne.
  { intros ->. simpl in Hlen. lia. }
  apply String.eqb_neq in Hfne. rewrite Hfne, Htrim.
  unfold ethers.getMultiplier in Em.
  destruct ((0 <=? decimals) && (decimals <=? 256)); [| discriminate].
  injection Em as <-.
  assert ((String.length (String "1" (ethers.zeros (Z.to_nat decimals))) - 1)%nat
          = Z.to_nat decimals) as ->
    by (simpl; rewrite length_zeros; lia).
  assert ((Z.to_nat decimals <? String.length fraction)%nat = true) as ->
    by (apply Nat.ltb_lt; lia).
  discriminate.
Qed.

(** ** [approve]: what reaches the chain *)

Section ApproveMore.

Context (svc : Services) (tezos : Tezosish) (req : ApproveRequest.t).

(** [approve] sends at most one operation, and none unless the wallet was
    loaded, the token is known, the amount was scaled, the contract was
    found and the standard is ['fa1.2'] or ['fa2']; what it sends is the
    call built from the request and the token. *)
Theorem approve_submits_at_most_once :
  (List.length (filter is_send (calls (approve svc tezos req))) <= 1)%nat /\
  (forall entrypoint params,
     In (Send entrypoint params) (calls (approve svc tezos req)) ->
     exists wallet fullToken amount contract,
       getWallet tezos (ApproveRequest.address req) = Resolved wallet /\
       getTokenForSymbol tezos (ApproveRequest.token req) = Some fullToken /\
       amountBigNumber (ApproveRequest.amount req) (TokenInfo.decimals fullToken)
         = Ok amount /\
       contract_at wallet (TokenInfo.address fullToken) = Resolved contract /\
       (TokenInfo.standard fullToken = "fa1.2" \/
        TokenInfo.standard fullToken = "fa2") /\
       approval_call req fullToken amount = Some (entrypoint, params)).
Proof.
  destruct (approve_run svc tezos req) as [_ ->].
  unfold approve_steps.
  destruct (getWallet tezos (ApproveRequest.address req)) as [wallet | err] eqn:Ew;
    [| split; [simpl; lia | intros e p [H | []]; discriminate]].
  destruct (getTokenForSymbol tezos (ApproveRequest.token req)) as [fullToken |]
    eqn:Et;
    [| split; [simpl; lia | intros e p [H | [H | []]]; discriminate]].
  destruct (amountBigNumber _ _) as [amount | e0] eqn:Ea;
    [| split; [simpl; lia | intros e p [H | [H | []]]; discriminate]].
  destruct (contract_at wallet _) as [contract | reason] eqn:Ec;
    [| split; [simpl; lia | intros e p [H | [H | [H | []]]]; discriminate]].
  assert (forall e p, approval_call req fullToken amount = Some (e, p) ->
            TokenInfo.standard fullToken = "fa1.2" \/
            TokenInfo.standard fullToken = "fa2") as Hstd.
  { intros e p. unfold approval_call.
    destruct (TokenInfo.standard fullToken =? "fa1.2")%string eqn:E1;
      [apply String.eqb_eq in E1; auto |].
    destruct (TokenInfo.standard fullToken =? "fa2")%string eqn:E2;
      [apply String.eqb_eq in E2; auto | discriminate]. }
  destruct (approval_call req fullToken amount) as [[entrypoint params] |]
    eqn:Ecall;
    [| split; [simpl; lia | intros e p [H | [H | [H | []]]]; discriminate]].
  specialize (Hstd entrypoint params eq_refl).
  destruct (send contract entrypoint params) as [operation | reason];
    [destruct (TransactionOperation.operationResults operation) as [| op ops];
     [| destruct (rpc_getChainId wallet)] |];
    (split; [simpl; lia |]);
    intros e p H; simpl in H;
    repeat (destruct H as [H | H]; try discriminate);
    try (injection H as <- <-; exists wallet, fullToken, amount, contract;
         auto 10);
    destruct H.
Qed.

(** An amount that [parseUnits] refuses stops [approve] before it asks for
    the contract: the error of [parseUnits] is thrown as it is, not as an
    [HttpException], and the only calls made are [getWallet] and the lookup
    of the token. *)
Theorem approve_malformed_amount (wallet : TezosToolkit) (fullToken : TokenInfo.t)
    (e : exn) :
  getWallet tezos (ApproveRequest.address req) = Resolved wallet ->
  getTokenForSymbol tezos (ApproveRequest.token req) = Some fullToken ->
  amountBigNumber (ApproveRequest.amount req) (TokenInfo.decimals fullToken)
    = Throw e ->
  outcome (approve svc tezos req) = Throw e /\
  (exists reason, e = Uncaught reason) /\
  calls (approve svc tezos req) =
    [GetWallet (ApproveRequest.address req);
     GetTokenForSymbol (ApproveRequest.token req)].
Proof.
  intros Hw Ht Ha.
  destruct (approve_run svc tezos req) as [-> ->].
  unfold approve_steps. rewrite Hw, Ht, Ha. simpl.
  split; [reflexivity |]. split; [| reflexivity].
  apply (amountBigNumber_throws _ _ _ Ha).
Qed.

(** [approve] does not round.  An amount whose fraction has more digits
    than the token has decimals, the last of them not zero, is refused:
    [approve] throws, and nothing is sent. *)
Theorem approve_excess_precision (wallet : TezosToolkit) (fullToken : TokenInfo.t)
    (whole front : string) (last : ascii) :
  getWallet tezos (ApproveRequest.address req) = Resolved wallet ->
  getTokenForSymbol tezos (ApproveRequest.token req) = Some fullToken ->
  ApproveRequest.amount req = Some (whole ++ "." ++ front ++ String last "") ->
  whole <> "" -> JS.all_digits whole = true ->
  JS.all_digits front = true -> JS.is_digit last = true -> last <> "0"%char ->
  0 <= TokenInfo.decimals fullToken <= Z.of_nat (String.length front) ->
  (exists reason, outcome (approve svc tezos req) = Throw (Uncaught reason)) /\
  calls (approve svc tezos req) =
    [GetWallet (ApproveRequest.address req);
     GetTokenForSymbol (ApproveRequest.token req)].
Proof.
  intros Hw Ht Ea Hwne Hwd Hfd Hld Hlz Hlen.
  assert (exists reason,
            amountBigNumber (ApproveRequest.amount req)
              (TokenInfo.decimals fullToken) = Throw (Uncaught reason))
    as [reason Ha].
  { rewrite Ea. unfold amountBigNumber, ethers.parseUnits.
    destruct (nonempty_digits whole Hwne Hwd) as (c & rest & -> & _).
    cbn [JS.truthy String.append String.eqb negb].
    apply (parseFixed_exceeds (String c rest)); auto.
    - rewrite all_digits_app, Hfd. simpl. rewrite Hld. reflexivity.
    - apply trim_trailing_zeros_last. apply Ascii.eqb_neq. exact Hlz.
    - assert (String.length (front ++ String last "") =
              S (String.length front)) as ->.
      { clear. induction front as [| x f IH]; simpl; [reflexivity |].
        rewrite IH. reflexivity. }
      lia. }
  destruct (approve_run svc tezos req) as [-> ->].
  unfold approve_steps. rewrite Hw, Ht, Ha. simpl. eauto.
Qed.

(** [approve] accepts a negative amount: for a token of standard ['fa1.2']
    the numeral [-whole.fraction] is scaled like [whole.fraction] and the
    contract is called with the negated value. *)
Theorem approve_negative_amount (wallet : TezosToolkit) (fullToken : TokenInfo.t)
    (contract : Contract) (whole fraction : string) :
  getWallet tezos (ApproveRequest.address req) = Resolved wallet ->
  getTokenForSymbol tezos (ApproveRequest.token req) = Some fullToken ->
  TokenInfo.standard fullToken = "fa1.2" ->
  contract_at wallet (TokenInfo.address fullToken) = Resolved contract ->
  ApproveRequest.amount req = Some ("-" ++ whole ++ "." ++ fraction) ->
  whole <> "" ->
  JS.all_digits whole = true -> JS.all_digits fraction = true ->
  Z.of_nat (String.length fraction) <= TokenInfo.decimals fullToken <= 256 ->
  let decimals := TokenInfo.decimals fullToken in
  let magnitude :=
    JS.parse_digits 0 whole * 10 ^ decimals +
    JS.parse_digits 0 fraction *
    10 ^ (decimals - Z.of_nat (String.length fraction)) in
  forall entrypoint params,
    In (Send entrypoint params) (calls (approve svc tezos req)) <->
    entrypoint = "approve" /\
    params = JS.Object [("spender", JS.Str (ApproveRequest.spender req));
                        ("value", JS.BigNumber (- magnitude))].
Proof.
  intros Hw Ht Hs Hc Ea Hwne Hwd Hfd Hlen decimals magnitude.
  apply (approve_sends svc tezos req wallet fullToken (- magnitude) contract); auto.
  - rewrite Ea. unfold amountBigNumber, ethers.parseUnits.
    change ("-" ++ whole ++ "." ++ fraction)
      with (String "-" (whole ++ "." ++ fraction)).
    cbn [JS.truthy String.eqb negb].
    destruct (nonempty_digits whole Hwne Hwd) as (c & rest & E & Hc').
    rewrite parseFixed_negative.
    + rewrite parseFixed_decimal by assumption. f_equal.
      subst magnitude decimals. lia.
    + rewrite E. simpl. apply digit_not; [exact Hc' | reflexivity].
  - unfold approval_call. rewrite Hs. reflexivity.
Qed.

(** [approve] answers exactly when every step succeeds.  When the wallet
    is loaded, the token is known, the amount is scaled, the contract is
    found, the standard is known, the operation is sent and comes back with
    at least one result, and the chain id is read, [approve] answers, after
    these five calls in this order, and the response is built from the
    first result of the operation alone: its counter gives the nonce, and
    the approval is that result normalized under the hash of the operation.
    Conversely every response of [approve] comes from such a run. *)
Theorem approve_success :
  let answer (fullToken : TokenInfo.t) (amount : Z)
        (approvalOperation : TransactionOperation.t) (op : OperationContents.t)
        (chainId : string) :=
    {| ApproveResponse.network := chainName tezos;
       ApproveResponse.timestamp := Date_now svc 0;
       ApproveResponse.latency := latency svc (Date_now svc 0) (Date_now svc 1);
       ApproveResponse.tokenAddress := TokenInfo.address fullToken;
       ApproveResponse.spender := ApproveRequest.spender req;
       ApproveResponse.amount :=
         bigNumberWithDecimalToStr svc amount (TokenInfo.decimals fullToken);
       ApproveResponse.nonce := JS.parseInt (OperationContents.counter op);
       ApproveResponse.approval :=
         toTezosTransaction svc (TransactionOperation.hash approvalOperation)
           op chainId |} in
  let log (fullToken : TokenInfo.t) (entrypoint : string) (params : JS.value) :=
    [GetWallet (ApproveRequest.address req);
     GetTokenForSymbol (ApproveRequest.token req);
     ContractAt (TokenInfo.address fullToken);
     Send entrypoint params; GetChainId] in
  let steps (wallet : TezosToolkit) (fullToken : TokenInfo.t) (amount : Z)
        (contract : Contract) (entrypoint : string) (params : JS.value)
        (approvalOperation : TransactionOperation.t) (op : OperationContents.t)
        (ops : list OperationContents.t) (chainId : string) :=
    getWallet tezos (ApproveRequest.address req) = Resolved wallet /\
    getTokenForSymbol tezos (ApproveRequest.token req) = Some fullToken /\
    amountBigNumber (ApproveRequest.amount req) (TokenInfo.decimals fullToken)
      = Ok amount /\
    contract_at wallet (TokenInfo.address fullToken) = Resolved contract /\
    approval_call req fullToken amount = Some (entrypoint, params) /\
    send contract entrypoint params = Resolved approvalOperation /\
    TransactionOperation.operationResults approvalOperation = op :: ops /\
    rpc_getChainId wallet = Resolved chainId in
  (forall wallet fullToken amount contract entrypoint params approvalOperation
          op ops chainId,
     steps wallet fullToken amount contract entrypoint params approvalOperation
       op ops chainId ->
     outcome (approve svc tezos req) =
       Ok (answer fullToken amount approvalOperation op chainId) /\
     calls (approve svc tezos req) = log fullToken entrypoint params) /\
  (forall resp, outcome (approve svc tezos req) = Ok resp ->
     exists wallet fullToken amount contract entrypoint params approvalOperation
            op ops chainId,
       steps wallet fullToken amount contract entrypoint params
         approvalOperation op ops chainId /\
       calls (approve svc tezos req) = log fullToken entrypoint params /\
       resp = answer fullToken amount approvalOperation op chainId).
Proof.
  intros answer log steps. subst answer log steps. cbv beta.
  destruct (approve_run svc tezos req) as [-> ->].
  unfold approve_steps, approve_response. split.
  - intros wallet fullToken amount contract entrypoint params operation op ops
      chainId (Hw & Ht & Ha & Hc & Hcall & Hs & Hr & Hid).
    rewrite Hw, Ht, Ha, Hc, Hcall, Hs, Hr, Hid. split; reflexivity.
  - intros resp.
    destruct (getWallet tezos _) as [wallet | err]; [| discriminate].
    destruct (getTokenForSymbol tezos _) as [fullToken |]; [| discriminate].
    destruct (amountBigNumber _ _) as [amount | e0] eqn:Ea; [| discriminate].
    destruct (contract_at wallet _) as [contract | reason] eqn:Ec; [| discriminate].
    destruct (approval_call req fullToken amount) as [[entrypoint params] |]
      eqn:Ecall; [| discriminate].
    destruct (send contract entrypoint params) as [operation | reason] eqn:Es;
      [| discriminate].
    destruct (TransactionOperation.operationResults operation) as [| op ops]
      eqn:Er; [discriminate |].
    destruct (rpc_getChainId wallet) as [chainId | reason] eqn:Eid;
      [| discriminate].
    simpl. intros [= <-].
    exists wallet, fullToken, amount, contract, entrypoint, params, operation,
      op, ops, chainId.
    repeat split; auto.
Qed.

(** [approve] can fail after the operation has been sent: with the
    token-not-supported fault when the operation comes back without a
    result, and with the rejection of [getChainId] when the chain id cannot
    be read.  In both cases the contract call is in the log. *)
Theorem approve_fails_after_submission
    (wallet : TezosToolkit) (fullToken : TokenInfo.t) (amount : Z)
    (contract : Contract) (entrypoint : string) (params : JS.value)
    (approvalOperation : TransactionOperation.t) :
  getWallet tezos (ApproveRequest.address req) = Resolved wallet ->
  getTokenForSymbol tezos (ApproveRequest.token req) = Some fullToken ->
  amountBigNumber (ApproveRequest.amount req) (TokenInfo.decimals fullToken)
    = Ok amount ->
  contract_at wallet (TokenInfo.address fullToken) = Resolved contract ->
  approval_call req fullToken amount = Some (entrypoint, params) ->
  send contract entrypoint params = Resolved approvalOperation ->
  let submitted :=
    [GetWallet (ApproveRequest.address req);
     GetTokenForSymbol (ApproveRequest.token req);
     ContractAt (TokenInfo.address fullToken);
     Send entrypoint params] in
  (TransactionOperation.operationResults approvalOperation = [] ->
   outcome (approve svc tezos req) =
     Throw (HttpException 500 (TOKEN_NOT_SUPPORTED_ERROR_MESSAGE svc)
              (TOKEN_NOT_SUPPORTED_ERROR_CODE svc)) /\
   calls (approve svc tezos req) = submitted) /\
  (forall reason,
     TransactionOperation.operationResults approvalOperation <> [] ->
     rpc_getChainId wallet = Rejected reason ->
     outcome (approve svc tezos req) = Throw (Uncaught reason) /\
     calls (approve svc tezos req) = (submitted ++ [GetChainId])%list).
Proof.
  intros Hw Ht Ha Hc Hcall Hs submitted. subst submitted.
  destruct (approve_run svc tezos req) as [-> ->].
  unfold approve_steps. rewrite Hw, Ht, Ha, Hc, Hcall, Hs. split.
  - intros ->. split; reflexivity.
  - intros reason Hne ->.
    destruct (TransactionOperation.operationResults approvalOperation);
      [congruence |].
    split; reflexivity.
Qed.

End ApproveMore.

(** An operator grant for 1.5 USDT on the sample deployment: the five calls
    and the nonce 41 of the first result. *)
Lemma approve_success_witness :
  calls (approve Sample.services Sample.tezos
           (Sample.approve_request (Some "1.5") "tz1owner" "USDT")) =
    [GetWallet "tz1owner"; GetTokenForSymbol "USDT"; ContractAt "KT1usdt";
     Send "update_operators"
       (update_operators_params "tz1owner" "tz1spender" (Some 0));
     GetChainId] /\
  exists resp,
    outcome (approve Sample.services Sample.tezos
               (Sample.approve_request (Some "1.5") "tz1owner" "USDT")) = Ok resp /\
    ApproveResponse.nonce resp = JS.Finite 41 /\
    ApproveResponse.amount resp = "1.500000".
Proof.
  destruct (approve_success Sample.services Sample.tezos
              (Sample.approve_request (Some "1.5") "tz1owner" "USDT")) as (H & _).
  destruct (H Sample.wallet Sample.USDT 1500000 Sample.contract
              "update_operators"
              (update_operators_params "tz1owner" "tz1spender" (Some 0))
              Sample.submitted (Sample.operation "1500" "300") []
              "NetXdQprcVkpaWU") as [Hout Hlog].
  { repeat split. }
  split; [exact Hlog |].
  eexists. split; [exact Hout |]. split; reflexivity.
Defined.

(** Two dots in the amount: [approve] stops before it asks for the
    contract. *)
Lemma approve_malformed_amount_witness :
  getWallet Sample.tezos "tz1owner" = Resolved Sample.wallet /\
  getTokenForSymbol Sample.tezos "USDT" = Some Sample.USDT /\
  amountBigNumber (Some "1.2.3") 6 = Throw (Uncaught "too many decimal points") /\
  calls (approve Sample.services Sample.tezos
           (Sample.approve_request (Some "1.2.3") "tz1owner" "USDT")) =
    [GetWallet "tz1owner"; GetTokenForSymbol "USDT"].
Proof.
  repeat (split; [reflexivity |]).
  apply (approve_malformed_amount Sample.services Sample.tezos
           (Sample.approve_request (Some "1.2.3") "tz1owner" "USDT")
           Sample.wallet Sample.USDT (Uncaught "too many decimal points")
           eq_refl eq_refl eq_refl).
Defined.

(** Seven fraction digits for a token with six decimals. *)
Lemma approve_excess_precision_witness :
  getWallet Sample.tezos "tz1owner" = Resolved Sample.wallet /\
  getTokenForSymbol Sample.tezos "USDT" = Some Sample.USDT /\
  calls (approve Sample.services Sample.tezos
           (Sample.approve_request (Some "1.1234567") "tz1owner" "USDT")) =
    [GetWallet "tz1owner"; GetTokenForSymbol "USDT"].
Proof.
  repeat (split; [reflexivity |]).
  assert ("1" <> "") as Hwhole by (intros E; discriminate E).
  assert ("7"%char <> "0"%char) as Hlast by (intros E; discriminate E).
  assert (0 <= TokenInfo.decimals Sample.USDT <= Z.of_nat (String.length "123456"))
    as Hplaces by (split; intros E; discriminate E).
  apply (approve_excess_precision Sample.services Sample.tezos
           (Sample.approve_request (Some "1.1234567") "tz1owner" "USDT")
           Sample.wallet Sample.USDT "1" "123456" "7"%char
           eq_refl eq_refl eq_refl Hwhole eq_refl eq_refl eq_refl Hlast Hplaces).
Defined.

(** The amount -1.5 of a token with 6 decimals is approved as -1500000. *)
Lemma approve_negative_amount_witness :
  getWallet Sample.tezos "tz1owner" = Resolved Sample.wallet /\
  getTokenForSymbol Sample.tezos "CTEZ" = Some Sample.CTEZ /\
  In (Send "approve"
        (JS.Object [("spender", JS.Str "tz1spender");
                    ("value", JS.BigNumber (-1500000))]))
     (calls (approve Sample.services Sample.tezos
               (Sample.approve_request (Some "-1.5") "tz1owner" "CTEZ"))).
Proof.
  repeat (split; [reflexivity |]).
  assert ("1" <> "") as Hwhole by (intros E; discriminate E).
  assert (Z.of_nat (String.length "5") <= TokenInfo.decimals Sample.CTEZ <= 256)
    as Hplaces by (split; intros E; discriminate E).
  apply (approve_negative_amount Sample.services Sample.tezos
           (Sample.approve_request (Some "-1.5") "tz1owner" "CTEZ")
           Sample.wallet Sample.CTEZ Sample.contract "1" "5"
           eq_refl eq_refl eq_refl eq_refl eq_refl Hwhole eq_refl eq_refl Hplaces).
  split; reflexivity.
Defined.

(** The operation comes back without a result: the fault is thrown after
    the operation has been sent. *)
Lemma approve_fails_after_submission_witness :
  send Scenario.contract "update_operators"
    (update_operators_params "tz1owner" "tz1spender" (Some 0))
    = Resolved Scenario.unconfirmed /\
  outcome (approve Sample.services Scenario.tezos
             (Sample.approve_request (Some "1.5") "tz1owner" "USDT")) =
    Throw (HttpException 500 "Token not supported: " 1007) /\
  calls (approve Sample.services Scenario.tezos
           (Sample.approve_request (Some "1.5") "tz1owner" "USDT")) =
    [GetWallet "tz1owner"; GetTokenForSymbol "USDT"; ContractAt "KT1usdt";
     Send "update_operators"
       (update_operators_params "tz1owner" "tz1spender" (Some 0))].
Proof.
  split; [reflexivity |].
  destruct (approve_fails_after_submission Sample.services Scenario.tezos
              (Sample.approve_request (Some "1.5") "tz1owner" "USDT")
              Scenario.wallet Sample.USDT 1500000 Scenario.contract
              "update_operators"
              (update_operators_params "tz1owner" "tz1spender" (Some 0))
              Scenario.unconfirmed
              eq_refl eq_refl eq_refl eq_refl eq_refl eq_refl) as (H & _).
  apply (H eq_refl).
Defined.

(** ** [Promise.all]: rejections *)

Lemma collect_Throw {A : Type} (rs : list (result A)) (e : exn) :
  collect rs = Throw e -> In (Throw e) rs.
Proof.
  induction rs as [| r rs IH]; simpl; [discriminate |].
  destruct r as [a | e0].
  - destruct (collect rs) as [l | e1]; [discriminate |].
    intros [= <-]. right. apply IH. reflexivity.
  - intros [= <-]. left. reflexivity.
Qed.

Lemma concat_calls_length {A K : Type} (f : K -> M A) (ks : list K) :
  (forall k, (List.length (calls (f k)) <= 1)%nat) ->
  (List.length (List.concat (map calls (map f ks))) <= List.length ks)%nat.
Proof.
  intros Hone. induction ks as [| k ks IH]; simpl; [lia |].
  rewrite length_app. specialize (Hone k). lia.
Qed.

(** ** [balances]: the calls, the answers, success and failure *)

Section BalancesMore.

Context (svc : Services) (tezos : Tezosish) (req : BalanceRequest.t).

Lemma balances_callback_outcome (symbol : string) (e : exn) :
  outcome (balances_callback svc tezos req
        (resolved tezos (BalanceRequest.tokenSymbols req))
        symbol) = Throw e ->
  exists token tokenId reason,
    fetched tezos (resolved tezos (BalanceRequest.tokenSymbols req))
          symbol token tokenId /\
    getTokenBalance tezos (TokenInfo.address token) (BalanceRequest.address req)
      tokenId (TokenInfo.decimals token) = Rejected reason /\
    e = Uncaught reason.
Proof.
  destruct (fetched_dec tezos (resolved tezos (BalanceRequest.tokenSymbols req))
        symbol) as [(token & tokenId & Hf) | Hno].
  - destruct (balances_callback_fetch svc tezos req
        (resolved tezos (BalanceRequest.tokenSymbols req))
        symbol token tokenId Hf)
      as [_ ->].
    destruct (getTokenBalance tezos _ _ _ _) as [balance | reason] eqn:E;
      [discriminate |].
    intros [= <-]. exists token, tokenId, reason. auto.
  - destruct (balances_callback_skip svc tezos req
        (resolved tezos (BalanceRequest.tokenSymbols req))
        symbol Hno) as [_ ->].
    discriminate.
Qed.

Lemma balances_callbacks_Ok :
  (forall symbol token tokenId,
     fetched tezos (resolved tezos (BalanceRequest.tokenSymbols req))
           symbol token tokenId ->
     exists balance,
       getTokenBalance tezos (TokenInfo.address token)
         (BalanceRequest.address req) tokenId (TokenInfo.decimals token)
       = Resolved balance) ->
  Forall (fun r => exists a, r = Ok a)
    (map outcome (balances_tasks svc tezos req)).
Proof.
  intros Hres. unfold balances_tasks. rewrite map_map.
  apply Forall_forall. intros r Hr. apply in_map_iff in Hr as (k & <- & _).
  destruct (outcome (balances_callback svc tezos req
        (resolved tezos (BalanceRequest.tokenSymbols req))
        k)) as [a | e] eqn:E;
    [eauto |].
  apply balances_callback_outcome in E
    as (token & tokenId & reason & Hf & Hrej & _).
  destruct (Hres k token tokenId Hf) as [balance Hb]. congruence.
Qed.

Lemma balances_finish_answers (init : JS.Record string) :
  (exists resp, balances_finish svc tezos req init = Ok resp) <->
  (forall symbol token tokenId,
     fetched tezos (resolved tezos (BalanceRequest.tokenSymbols req))
           symbol token tokenId ->
     exists balance,
       getTokenBalance tezos (TokenInfo.address token)
         (BalanceRequest.address req) tokenId (TokenInfo.decimals token)
       = Resolved balance) /\
  (init <> [] \/
   exists symbol token tokenId, fetched tezos
         (resolved tezos (BalanceRequest.tokenSymbols req))
         symbol token tokenId).
Proof.
  split.
  - intros [resp Hresp].
    apply balances_finish_Ok in Hresp as (Hne & Hok & Hmap).
    split.
    + intros symbol token tokenId Hf.
      destruct (Hok symbol) as [a Ha].
      { apply keys_In. exists token. apply Hf. }
      destruct (balances_callback_fetch svc tezos req
            (resolved tezos (BalanceRequest.tokenSymbols req))
            symbol token tokenId Hf)
        as [_ Hout].
      rewrite Hout in Ha.
      destruct (getTokenBalance tezos _ _ _ _) as [balance | reason];
        [eauto | discriminate].
    + destruct (BalanceResponse.balances resp) as [| [k v] o] eqn:E;
        [congruence |].
      specialize (Hmap k). simpl in Hmap. rewrite String.eqb_refl in Hmap.
      destruct (fetched_dec tezos (resolved tezos (BalanceRequest.tokenSymbols req))
            k) as [(token & tokenId & Hf) | Hno];
        [right; eauto |].
      destruct (balances_callback_skip svc tezos req
            (resolved tezos (BalanceRequest.tokenSymbols req))
            k Hno) as [_ Hout].
      rewrite Hout in Hmap. simpl in Hmap.
      left. intros ->. discriminate.
  - intros [Hres Hsome]. unfold balances_finish.
    rewrite (collect_all_Ok _ (balances_callbacks_Ok Hres)).
    cbv zeta.
    destruct (List.length (JS.keys (assign_all _ init)) =? 0)%nat eqn:E; [| eauto].
    exfalso. apply no_keys in E. revert E.
    destruct Hsome as [Hinit | (symbol & token & tokenId & Hf)].
    + apply assign_all_not_empty. exact Hinit.
    + destruct (balances_callback_fetch svc tezos req
          (resolved tezos (BalanceRequest.tokenSymbols req))
          symbol token tokenId Hf)
        as [_ Hout].
      destruct (Hres symbol token tokenId Hf) as [balance Hbalance].
      rewrite Hbalance in Hout.
      apply (assign_all_Some _ init symbol (tokenValueToString svc balance)).
      * unfold balances_tasks. rewrite !map_map. apply in_map_iff.
        exists symbol. split; [rewrite Hout; reflexivity |].
        apply keys_In. exists token. apply Hf.
      * destruct Hf as (Hget & _). apply (resolved_key_ordinary _ _ _ _ Hget).
Qed.

Lemma balances_finish_fails (init : JS.Record string) (e : exn) :
  balances_finish svc tezos req init = Throw e ->
  e = token_not_supported svc \/
  exists symbol token tokenId reason,
    fetched tezos (resolved tezos (BalanceRequest.tokenSymbols req))
          symbol token tokenId /\
    getTokenBalance tezos (TokenInfo.address token) (BalanceRequest.address req)
      tokenId (TokenInfo.decimals token) = Rejected reason /\
    e = Uncaught reason.
Proof.
  unfold balances_finish.
  destruct (collect _) as [assignments | e0] eqn:Hcollect.
  - cbv zeta. destruct (_ =? 0)%nat; [| discriminate].
    intros [= <-]. left. reflexivity.
  - intros [= <-]. right.
    apply collect_Throw in Hcollect. unfold balances_tasks in Hcollect.
    rewrite map_map in Hcollect. apply in_map_iff in Hcollect as (k & Hk & _).
    apply balances_callback_outcome in Hk
      as (token & tokenId & reason & Hf & Hrej & ->).
    exists k, token, tokenId, reason. auto.
Qed.

Lemma set_native_empty (native v : string) :
  JS.set native v ([] : JS.Record string) <> [] <-> native <> "__proto__".
Proof.
  unfold JS.set. destruct (native =? "__proto__")%string eqn:E.
  - apply String.eqb_eq in E. split; [congruence | intros H; contradiction].
  - apply String.eqb_neq in E. split; [auto | intros _; discriminate].
Qed.

(** [balances] answers exactly when the native balance, if the native
    symbol is requested, and the balance of every fetched token are
    delivered, and there is something to report: the native symbol is
    requested (and is an ordinary key) or some token is fetched. *)
Theorem balances_succeeds_iff :
  let symbols := BalanceRequest.tokenSymbols req in
  let native := nativeTokenSymbol tezos in
  let owner := BalanceRequest.address req in
  (exists resp, outcome (balances svc tezos req) = Ok resp) <->
  (In native symbols ->
   exists balance, getNativeBalance tezos owner = Resolved balance) /\
  (forall symbol token tokenId,
     fetched tezos (resolved tezos symbols) symbol token tokenId ->
     exists balance,
       getTokenBalance tezos (TokenInfo.address token) owner tokenId
         (TokenInfo.decimals token) = Resolved balance) /\
  ((In native symbols /\ native <> "__proto__") \/
   exists symbol token tokenId,
     fetched tezos (resolved tezos symbols) symbol token tokenId).
Proof.
  intros symbols native owner. subst symbols native owner.
  pose proof (balances_run svc tezos req) as Hrun. cbv zeta in Hrun.
  destruct (JS.includes (BalanceRequest.tokenSymbols req) (nativeTokenSymbol tezos))
    eqn:Hinc.
  - assert (In (nativeTokenSymbol tezos) (BalanceRequest.tokenSymbols req))
      as Hin by (apply includes_In; exact Hinc).
    destruct (getNativeBalance tezos (BalanceRequest.address req))
      as [balance | reason]; destruct Hrun as [-> _].
    + rewrite balances_finish_answers, set_native_empty. split.
      * intros [Hres Hsome]. split; [eauto |]. split; [exact Hres | tauto].
      * intros (_ & Hres & Hsome). split; [exact Hres | tauto].
    + split; [intros [resp H]; discriminate |].
      intros (H & _). destruct (H Hin) as [b Hb]. discriminate.
  - assert (~ In (nativeTokenSymbol tezos) (BalanceRequest.tokenSymbols req))
      as Hin.
    { intros H. apply includes_In in H. congruence. }
    destruct Hrun as [-> _]. rewrite balances_finish_answers. split.
    + intros [Hres [Hsome | Hsome]]; [congruence |].
      split; [tauto |]. split; [exact Hres | auto].
    + intros (_ & Hres & [Hsome | Hsome]); [tauto |]. split; [exact Hres | auto].
Qed.

(** [balances] fails in two ways only: with the token-not-supported fault,
    or with the rejection of one of its fetches, that of the native balance
    when the native symbol is requested or that of a fetched token. *)
Theorem balances_failures (e : exn) :
  let symbols := BalanceRequest.tokenSymbols req in
  let native := nativeTokenSymbol tezos in
  let owner := BalanceRequest.address req in
  outcome (balances svc tezos req) = Throw e ->
  e = HttpException 500 (TOKEN_NOT_SUPPORTED_ERROR_MESSAGE svc)
        (TOKEN_NOT_SUPPORTED_ERROR_CODE svc) \/
  exists reason,
    e = Uncaught reason /\
    ((In native symbols /\ getNativeBalance tezos owner = Rejected reason) \/
     exists symbol token tokenId,
       fetched tezos (resolved tezos symbols) symbol token tokenId /\
       getTokenBalance tezos (TokenInfo.address token) owner tokenId
         (TokenInfo.decimals token) = Rejected reason).
Proof.
  intros symbols native owner. subst symbols native owner.
  pose proof (balances_run svc tezos req) as Hrun. cbv zeta in Hrun.
  assert (forall init,
            balances_finish svc tezos req init = Throw e ->
            e = HttpException 500 (TOKEN_NOT_SUPPORTED_ERROR_MESSAGE svc)
                  (TOKEN_NOT_SUPPORTED_ERROR_CODE svc) \/
            exists reason,
              e = Uncaught reason /\
              ((In (nativeTokenSymbol tezos) (BalanceRequest.tokenSymbols req) /\
                getNativeBalance tezos (BalanceRequest.address req)
                = Rejected reason) \/
               exists symbol token tokenId,
                 fetched tezos (resolved tezos (BalanceRequest.tokenSymbols req))
                       symbol token tokenId /\
                 getTokenBalance tezos (TokenInfo.address token)
                   (BalanceRequest.address req) tokenId (TokenInfo.decimals token)
                 = Rejected reason)) as Hfin.
  { intros init H.
    apply balances_finish_fails in H
      as [-> | (symbol & token & tokenId & reason & Hf & Hrej & ->)];
      [left; reflexivity |].
    right. exists reason. split; [reflexivity |]. right. eauto. }
  destruct (JS.includes (BalanceRequest.tokenSymbols req) (nativeTokenSymbol tezos))
    eqn:Hinc.
  - apply includes_In in Hinc.
    destruct (getNativeBalance tezos (BalanceRequest.address req))
      as [balance | reason]; destruct Hrun as [-> _].
    + apply Hfin.
    + intros [= <-]. right. exists reason. auto.
  - destruct Hrun as [-> _]. apply Hfin.
Qed.

(** The calls of [balances], in order: one registry lookup for every
    requested symbol, then the native balance if the native symbol is
    requested, then the token balances.  A rejected native balance ends the
    request before any token is fetched.  Otherwise the token balances
    fetched are exactly those of the resolved tokens other than the native
    one that have a token id, for the owner of the request, whether or not
    these fetches succeed, and there is at most one fetch for every key of
    the resolved mapping. *)
Theorem balances_calls :
  let symbols := BalanceRequest.tokenSymbols req in
  let native := nativeTokenSymbol tezos in
  let owner := BalanceRequest.address req in
  let lookups := map GetTokenForSymbol symbols in
  (In native symbols ->
   forall reason, getNativeBalance tezos owner = Rejected reason ->
     outcome (balances svc tezos req) = Throw (Uncaught reason) /\
     calls (balances svc tezos req) = (lookups ++ [GetNativeBalance owner])%list) /\
  ((In native symbols ->
    exists balance, getNativeBalance tezos owner = Resolved balance) ->
   exists fetches,
     calls (balances svc tezos req) =
       (lookups ++
        (if JS.includes symbols native then [GetNativeBalance owner] else []) ++
        fetches)%list /\
     (List.length fetches <= List.length (JS.keys (resolved tezos symbols)))%nat /\
     forall c, In c fetches <->
       exists symbol token tokenId,
         fetched tezos (resolved tezos symbols) symbol token tokenId /\
         c = GetTokenBalance (TokenInfo.address token) owner tokenId
               (TokenInfo.decimals token)).
Proof.
  intros symbols native owner lookups. subst symbols native owner lookups.
  pose proof (balances_run svc tezos req) as Hrun. cbv zeta in Hrun.
  assert (List.length (List.concat (map calls (balances_tasks svc tezos req))) <=
          List.length (JS.keys (resolved tezos (BalanceRequest.tokenSymbols req))))%nat
    as Hlen.
  { unfold balances_tasks. apply concat_calls_length. intros k.
    destruct (fetched_dec tezos
                (resolved tezos (BalanceRequest.tokenSymbols req)) k)
      as [(token & tokenId & Hf) | Hno].
    - destruct (balances_callback_fetch svc tezos req _ k token tokenId Hf)
        as [-> _].
      simpl. lia.
    - destruct (balances_callback_skip svc tezos req _ k Hno) as [-> _].
      simpl. lia. }
  destruct (JS.includes (BalanceRequest.tokenSymbols req) (nativeTokenSymbol tezos))
    eqn:Hinc.
  - assert (In (nativeTokenSymbol tezos) (BalanceRequest.tokenSymbols req))
      as Hin by (apply includes_In; exact Hinc).
    destruct (getNativeBalance tezos (BalanceRequest.address req))
      as [balance | reason]; destruct Hrun as [Hout Hcalls]; split.
    + intros _ reason [=].
    + intros _. eexists. split; [exact Hcalls |]. split; [exact Hlen |].
      intros c. apply (balances_fetches svc tezos req c).
    + intros _ r [= <-]. auto.
    + intros H. destruct (H Hin) as [b Hb]. discriminate.
  - assert (~ In (nativeTokenSymbol tezos) (BalanceRequest.tokenSymbols req))
      as Hin.
    { intros H. apply includes_In in H. congruence. }
    destruct Hrun as [Hout Hcalls]. split; [tauto |].
    intros _. eexists. split; [exact Hcalls |]. split; [exact Hlen |].
    intros c. apply (balances_fetches svc tezos req c).
Qed.

(** A response of [balances] reports, for every fetched token, the balance
    that the client delivered, as [tokenValueToString] prints it; its
    network is the chain name of the client, its timestamp the first clock
    reading and its latency the one between the two readings. *)
Theorem balances_reports (resp : BalanceResponse.t) :
  outcome (balances svc tezos req) = Ok resp ->
  let owner := BalanceRequest.address req in
  (forall symbol token tokenId,
     fetched tezos (resolved tezos (BalanceRequest.tokenSymbols req))
           symbol token tokenId ->
     exists balance,
       getTokenBalance tezos (TokenInfo.address token) owner tokenId
         (TokenInfo.decimals token) = Resolved balance /\
       JS.get (BalanceResponse.balances resp) symbol =
         Some (tokenValueToString svc balance)) /\
  BalanceResponse.network resp = chainName tezos /\
  BalanceResponse.timestamp resp = Date_now svc 0 /\
  BalanceResponse.latency resp = latency svc (Date_now svc 0) (Date_now svc 1).
Proof.
  intros Hresp owner. subst owner.
  pose proof (balances_run svc tezos req) as Hrun. cbv zeta in Hrun.
  assert (exists init, balances_finish svc tezos req init = Ok resp)
    as [init Hfin].
  { destruct (JS.includes _ _);
      [destruct (getNativeBalance tezos _) |];
      destruct Hrun as [Hrun _]; rewrite Hrun in Hresp;
      [eauto | discriminate | eauto]. }
  clear Hrun Hresp. split.
  - intros symbol token tokenId Hf.
    apply balances_finish_Ok in Hfin as (_ & Hok & Hmap).
    destruct (Hok symbol) as [a Ha].
    { apply keys_In. exists token. apply Hf. }
    destruct (balances_callback_fetch svc tezos req
          (resolved tezos (BalanceRequest.tokenSymbols req))
          symbol token tokenId Hf)
      as [_ Hout].
    rewrite Hmap, Hout. rewrite Hout in Ha.
    destruct (getTokenBalance tezos _ _ _ _) as [balance | reason];
      [| discriminate].
    exists balance. split; reflexivity.
  - revert Hfin. unfold balances_finish.
    destruct (collect _) as [assignments | e]; [| discriminate].
    cbv zeta. destruct (_ =? 0)%nat; [discriminate |].
    intros [= <-]. repeat split.
Qed.

End BalancesMore.

(** The node is down and XTZ is requested: the rejection of the native
    balance is what [balances] throws. *)
Lemma balances_failures_witness :
  outcome (balances Sample.services Scenario.tezos Sample.balance_request) =
    Throw (Uncaught Scenario.refused) /\
  exists reason,
    Uncaught Scenario.refused = Uncaught reason /\
    getNativeBalance Scenario.tezos "tz1owner" = Rejected reason.
Proof.
  split; [reflexivity |].
  destruct (balances_failures Sample.services Scenario.tezos
              Sample.balance_request (Uncaught Scenario.refused) eq_refl)
    as [H | (reason & E & [[_ H] | (symbol & token & tokenId & _ & H)])].
  - discriminate H.
  - exists reason. split; [exact E | exact H].
  - exists reason. split; [exact E |]. injection H as <-. reflexivity.
Defined.

(** USDT is fetched and reported as the node answers. *)
Lemma balances_reports_witness :
  exists resp,
    outcome (balances Sample.services Sample.tezos Sample.balance_request) = Ok resp /\
    JS.get (BalanceResponse.balances resp) "USDT" = Some "2.500000" /\
    BalanceResponse.network resp = "tezos".
Proof.
  eexists. split; [reflexivity |].
  destruct (balances_reports Sample.services Sample.tezos Sample.balance_request
              _ eq_refl) as (Hentries & Hnetwork & _).
  split; [| exact Hnetwork].
  destruct (Hentries "USDT" Sample.USDT 0) as (balance & Hbalance & Hget).
  - repeat split. intros E; discriminate E.
  - injection Hbalance as <-. exact Hget.
Defined.

(** ** [allowances]: the calls, success and failure *)

Section AllowancesMore.

Context (svc : Services) (tezos : Tezosish) (req : AllowancesRequest.t).

Lemma allowances_callback_outcome (symbol : string) (token : TokenInfo.t)
    (e : exn) :
  JS.get (resolved tezos (AllowancesRequest.tokenSymbols req)) symbol
    = Some token ->
  outcome (allowances_callback svc tezos req
             (resolved tezos (AllowancesRequest.tokenSymbols req)) symbol)
    = Throw e ->
  exists reason,
    TokenInfo.standard token <> "fa1.2" /\
    getTokenAllowance tezos (TokenInfo.address token)
      (AllowancesRequest.address req) (AllowancesRequest.spender req) "fa2"
      (TokenInfo.tokenId token) (TokenInfo.decimals token) = Rejected reason /\
    e = Uncaught reason.
Proof.
  intros Hget.
  destruct (string_dec (TokenInfo.standard token) "fa1.2") as [Hstd | Hstd].
  - destruct (allowances_callback_zero svc tezos req _ symbol token Hget Hstd)
      as [_ ->].
    discriminate.
  - destruct (allowances_callback_query svc tezos req _ symbol token Hget Hstd)
      as [_ ->].
    destruct (getTokenAllowance tezos _ _ _ _ _ _) as [allowance | reason];
      [discriminate |].
    intros [= <-]. eauto.
Qed.

Lemma allowances_queries (c : call) :
  In c (List.concat (map calls (allowances_tasks svc tezos req))) <->
  exists symbol token,
    JS.get (resolved tezos (AllowancesRequest.tokenSymbols req)) symbol
      = Some token /\
    TokenInfo.standard token <> "fa1.2" /\
    c = GetTokenAllowance (TokenInfo.address token)
          (AllowancesRequest.address req) (AllowancesRequest.spender req)
          "fa2" (TokenInfo.tokenId token) (TokenInfo.decimals token).
Proof.
  unfold allowances_tasks. rewrite in_concat_calls. split.
  - intros (k & Hk & Hc). apply keys_In in Hk as [token Hget].
    destruct (string_dec (TokenInfo.standard token) "fa1.2") as [Hstd | Hstd].
    + destruct (allowances_callback_zero svc tezos req _ k token Hget Hstd)
        as [E _].
      rewrite E in Hc. destruct Hc.
    + destruct (allowances_callback_query svc tezos req _ k token Hget Hstd)
        as [E _].
      rewrite E in Hc. destruct Hc as [<- | []]. eauto.
  - intros (k & token & Hget & Hstd & ->). exists k. split.
    + apply keys_In. eauto.
    + destruct (allowances_callback_query svc tezos req _ k token Hget Hstd)
        as [E _].
      rewrite E. left. reflexivity.
Qed.

Lemma allowances_answers :
  (exists symbol token,
     JS.get (resolved tezos (AllowancesRequest.tokenSymbols req)) symbol
     = Some token) ->
  (forall symbol token,
     JS.get (resolved tezos (AllowancesRequest.tokenSymbols req)) symbol
       = Some token ->
     TokenInfo.standard token <> "fa1.2" ->
     exists allowance,
       getTokenAllowance tezos (TokenInfo.address token)
         (AllowancesRequest.address req) (AllowancesRequest.spender req) "fa2"
         (TokenInfo.tokenId token) (TokenInfo.decimals token)
       = Resolved allowance) ->
  exists resp, outcome (allowances svc tezos req) = Ok resp.
Proof.
  intros (symbol & token & Hget) Hres.
  destruct (allowances_run svc tezos req) as [-> _].
  assert (Forall (fun r => exists a, r = Ok a)
            (map outcome (allowances_tasks svc tezos req))) as Hall.
  { unfold allowances_tasks. rewrite map_map. apply Forall_forall.
    intros r Hr. apply in_map_iff in Hr as (k & <- & Hk).
    apply keys_In in Hk as [t Ht].
    destruct (outcome (allowances_callback svc tezos req _ k)) as [a | e] eqn:E;
      [eauto |].
    destruct (allowances_callback_outcome k t e Ht E) as (reason & Hstd & Hrej & _).
    destruct (Hres k t Ht Hstd) as [allowance Ha]. congruence. }
  rewrite (collect_all_Ok _ Hall). cbv zeta.
  destruct (List.length (JS.keys (assign_all _ [])) =? 0)%nat eqn:E; [| eauto].
  exfalso. apply no_keys in E. revert E.
  assert (exists v,
            outcome (allowances_callback svc tezos req
                       (resolved tezos (AllowancesRequest.tokenSymbols req)) symbol)
            = Ok (Some (symbol, v))) as [v Hout].
  { destruct (string_dec (TokenInfo.standard token) "fa1.2") as [Hstd | Hstd].
    - destruct (allowances_callback_zero svc tezos req _ symbol token Hget Hstd)
        as [_ ->]. eauto.
    - destruct (allowances_callback_query svc tezos req _ symbol token Hget Hstd)
        as [_ ->].
      destruct (Hres symbol token Hget Hstd) as [allowance ->]. eauto. }
  apply (assign_all_Some _ [] symbol v).
  - unfold allowances_tasks. rewrite !map_map. apply in_map_iff.
    exists symbol. split; [rewrite Hout; reflexivity |].
    apply keys_In. eauto.
  - apply (resolved_key_ordinary _ _ _ _ Hget).
Qed.

(** The calls of [allowances], in order: one registry lookup for every
    requested symbol, then the allowance queries.  The queries are exactly
    those of the resolved tokens whose standard is not ['fa1.2'], for the
    owner and the spender of the request and always under the tag ['fa2'],
    at most one for every key of the resolved mapping; [allowances] calls
    nothing else. *)
Theorem allowances_calls :
  exists queries,
    calls (allowances svc tezos req) =
      (map GetTokenForSymbol (AllowancesRequest.tokenSymbols req) ++ queries)%list /\
    (List.length queries <=
     List.length (JS.keys (resolved tezos (AllowancesRequest.tokenSymbols req))))%nat /\
    forall c, In c queries <->
      exists symbol token,
        JS.get (resolved tezos (AllowancesRequest.tokenSymbols req)) symbol
          = Some token /\
        TokenInfo.standard token <> "fa1.2" /\
        c = GetTokenAllowance (TokenInfo.address token)
              (AllowancesRequest.address req) (AllowancesRequest.spender req)
              "fa2" (TokenInfo.tokenId token) (TokenInfo.decimals token).
Proof.
  destruct (allowances_run svc tezos req) as [_ ->].
  eexists. split; [reflexivity |]. split; [| apply allowances_queries].
  unfold allowances_tasks. apply concat_calls_length. intros k.
  unfold calls, allowances_callback, bind, invoke, ret, throw.
  destruct (JS.get _ k) as [token |]; [| simpl; lia].
  destruct (TokenInfo.standard token =? "fa1.2")%string; simpl; [lia |].
  destruct (getTokenAllowance tezos _ _ _ _ _ _); simpl; lia.
Qed.

(** [allowances] answers exactly when some requested symbol resolves and
    the query of every resolved token whose standard is not ['fa1.2'] is
    delivered. *)
Theorem allowances_succeeds_iff :
  let tokens := resolved tezos (AllowancesRequest.tokenSymbols req) in
  (exists resp, outcome (allowances svc tezos req) = Ok resp) <->
  (exists symbol token, JS.get tokens symbol = Some token) /\
  (forall symbol token,
     JS.get tokens symbol = Some token ->
     TokenInfo.standard token <> "fa1.2" ->
     exists allowance,
       getTokenAllowance tezos (TokenInfo.address token)
         (AllowancesRequest.address req) (AllowancesRequest.spender req) "fa2"
         (TokenInfo.tokenId token) (TokenInfo.decimals token)
       = Resolved allowance).
Proof.
  intros tokens. subst tokens. split.
  - intros [resp Hresp]. split.
    + destruct (allowances_Ok svc tezos req resp Hresp) as (Hne & _ & Hmap).
      destruct (AllowancesResponse.approvals resp) as [| [k v] o] eqn:E;
        [congruence |].
      specialize (Hmap k). simpl in Hmap. rewrite String.eqb_refl in Hmap.
      destruct (JS.get (resolved tezos (AllowancesRequest.tokenSymbols req)) k)
        as [token |] eqn:Hget; [eauto |].
      rewrite allowances_callback_unresolved in Hmap by exact Hget.
      discriminate.
    + intros symbol token Hget Hstd.
      destruct (allowances_entry_query svc tezos req symbol token resp Hget Hstd Hresp)
        as (allowance & H & _).
      eauto.
  - intros [Hsome Hres]. apply allowances_answers; assumption.
Qed.

(** [allowances] fails in two ways only: with the token-not-supported
    fault, when no requested symbol resolves, or with the rejection of one of
    its queries. *)
Theorem allowances_failures (e : exn) :
  let tokens := resolved tezos (AllowancesRequest.tokenSymbols req) in
  outcome (allowances svc tezos req) = Throw e ->
  (e = HttpException 500 (TOKEN_NOT_SUPPORTED_ERROR_MESSAGE svc)
         (TOKEN_NOT_SUPPORTED_ERROR_CODE svc) /\
   forall symbol, JS.get tokens symbol = None) \/
  exists symbol token reason,
    JS.get tokens symbol = Some token /\
    TokenInfo.standard token <> "fa1.2" /\
    getTokenAllowance tezos (TokenInfo.address token)
      (AllowancesRequest.address req) (AllowancesRequest.spender req) "fa2"
      (TokenInfo.tokenId token) (TokenInfo.decimals token) = Rejected reason /\
    e = Uncaught reason.
Proof.
  intros tokens. subst tokens.
  destruct (allowances_run svc tezos req) as [-> _].
  destruct (collect _) as [assignments | e0] eqn:Hcollect.
  - cbv zeta.
    destruct (List.length (JS.keys (assign_all assignments [])) =? 0)%nat eqn:E;
      [| discriminate].
    intros [= <-]. left. split; [reflexivity |].
    intros symbol.
    destruct (JS.get (resolved tezos (AllowancesRequest.tokenSymbols req)) symbol)
      as [token |] eqn:Hget; [| reflexivity].
    exfalso. apply no_keys in E. revert E.
    unfold allowances_tasks in Hcollect.
    apply collected_assignments in Hcollect as [-> Hok].
    destruct (Hok symbol) as [a Ha]; [apply keys_In; eauto |].
    assert (exists v, a = Some (symbol, v)) as [v ->].
    { destruct (string_dec (TokenInfo.standard token) "fa1.2") as [Hstd | Hstd].
      - destruct (allowances_callback_zero svc tezos req _ symbol token Hget Hstd)
          as [_ Hout].
        rewrite Hout in Ha. injection Ha as <-. eauto.
      - destruct (allowances_callback_query svc tezos req _ symbol token Hget Hstd)
          as [_ Hout].
        rewrite Hout in Ha.
        destruct (getTokenAllowance tezos _ _ _ _ _ _); [| discriminate].
        injection Ha as <-. eauto. }
    apply (assign_all_Some _ [] symbol v).
    + apply in_map_iff. exists symbol. split; [rewrite Ha; reflexivity |].
      apply keys_In. eauto.
    + apply (resolved_key_ordinary _ _ _ _ Hget).
  - intros [= <-]. right.
    apply collect_Throw in Hcollect. unfold allowances_tasks in Hcollect.
    rewrite map_map in Hcollect. apply in_map_iff in Hcollect as (k & Hk & Hin).
    apply keys_In in Hin as [token Hget].
    destruct (allowances_callback_outcome k token e0 Hget Hk)
      as (reason & Hstd & Hrej & ->).
    exists k, token, reason. auto.
Qed.

(** When every resolved token has the standard ['fa1.2'], [allowances]
    answers without the node: it makes the registry lookups and no other
    call, and reports ["0.000000"] for every resolved symbol, whatever the
    node would have answered. *)
Theorem allowances_without_the_node :
  let tokens := resolved tezos (AllowancesRequest.tokenSymbols req) in
  (exists symbol token, JS.get tokens symbol = Some token) ->
  (forall symbol token,
     JS.get tokens symbol = Some token -> TokenInfo.standard token = "fa1.2") ->
  calls (allowances svc tezos req) =
    map GetTokenForSymbol (AllowancesRequest.tokenSymbols req) /\
  exists resp,
    outcome (allowances svc tezos req) = Ok resp /\
    forall symbol,
      JS.get (AllowancesResponse.approvals resp) symbol =
      match JS.get tokens symbol with
      | Some _ => Some "0.000000"
      | None => None
      end.
Proof.
  intros tokens Hsome Hall. subst tokens. split.
  - destruct (allowances_run svc tezos req) as [_ ->].
    destruct (List.concat (map calls (allowances_tasks svc tezos req)))
      as [| c queries] eqn:E; [apply app_nil_r |].
    exfalso.
    assert (In c (List.concat (map calls (allowances_tasks svc tezos req))))
      as Hc by (rewrite E; left; reflexivity).
    apply allowances_queries in Hc as (symbol & token & Hget & Hstd & _).
    apply Hstd. apply (Hall symbol token Hget).
  - assert (exists resp, outcome (allowances svc tezos req) = Ok resp)
      as [resp Hresp].
    { apply allowances_answers; [exact Hsome |].
      intros symbol token Hget Hstd. destruct (Hstd (Hall symbol token Hget)). }
    exists resp. split; [exact Hresp |]. intros symbol.
    destruct (JS.get (resolved tezos (AllowancesRequest.tokenSymbols req)) symbol)
      as [token |] eqn:Hget.
    + apply (allowances_entry_zero svc tezos req symbol token resp Hget
               (Hall symbol token Hget) Hresp).
    + destruct (allowances_Ok svc tezos req resp Hresp) as (_ & _ & Hmap).
      rewrite Hmap, allowances_callback_unresolved by exact Hget.
      reflexivity.
Qed.

End AllowancesMore.

(** No requested symbol is known: the fault, and nothing resolved. *)
Lemma allowances_failures_witness :
  outcome (allowances Sample.services Sample.tezos
             {| AllowancesRequest.address := "tz1owner";
                AllowancesRequest.spender := "tz1spender";
                AllowancesRequest.tokenSymbols := ["NOPE"] |}) =
    Throw (HttpException 500 "Token not supported: " 1007) /\
  JS.get (resolved Sample.tezos ["NOPE"]) "NOPE" = None.
Proof.
  split; [reflexivity |].
  destruct (allowances_failures Sample.services Sample.tezos
              {| AllowancesRequest.address := "tz1owner";
                 AllowancesRequest.spender := "tz1spender";
                 AllowancesRequest.tokenSymbols := ["NOPE"] |}
              (HttpException 500 "Token not supported: " 1007) eq_refl)
    as [[_ H] | (symbol & token & reason & _ & _ & _ & H)].
  - apply H.
  - discriminate H.
Defined.

(** CTEZ alone, with the node down: the allowance is still reported. *)
Lemma allowances_without_the_node_witness :
  (exists symbol token,
     JS.get (resolved Scenario.tezos ["CTEZ"; "NOPE"]) symbol = Some token) /\
  calls (allowances Sample.services Scenario.tezos
           {| AllowancesRequest.address := "tz1owner";
              AllowancesRequest.spender := "tz1spender";
              AllowancesRequest.tokenSymbols := ["CTEZ"; "NOPE"] |}) =
    [GetTokenForSymbol "CTEZ"; GetTokenForSymbol "NOPE"] /\
  exists resp,
    outcome (allowances Sample.services Scenario.tezos
               {| AllowancesRequest.address := "tz1owner";
                  AllowancesRequest.spender := "tz1spender";
                  AllowancesRequest.tokenSymbols := ["CTEZ"; "NOPE"] |}) = Ok resp /\
    JS.get (AllowancesResponse.approvals resp) "CTEZ" = Some "0.000000".
Proof.
  assert (exists symbol token,
            JS.get (resolved Scenario.tezos ["CTEZ"; "NOPE"]) symbol = Some token)
    as Hsome by (exists "CTEZ", Sample.CTEZ; reflexivity).
  assert (forall symbol token,
            JS.get (resolved Scenario.tezos ["CTEZ"; "NOPE"]) symbol = Some token ->
            TokenInfo.standard token = "fa1.2") as Hall.
  { intros symbol token.
    assert (resolved Scenario.tezos ["CTEZ"; "NOPE"] = [("CTEZ", Sample.CTEZ)])
      as -> by reflexivity.
    cbn [JS.get]. destruct ("CTEZ" =? symbol)%string; [| discriminate].
    intros [= <-]. reflexivity. }
  split; [exact Hsome |].
  destruct (allowances_without_the_node Sample.services Scenario.tezos
              {| AllowancesRequest.address := "tz1owner";
                 AllowancesRequest.spender := "tz1spender";
                 AllowancesRequest.tokenSymbols := ["CTEZ"; "NOPE"] |}
              Hsome Hall) as (Hcalls & resp & Hresp & Hget).
  split; [exact Hcalls |].
  exists resp. split; [exact Hresp |]. apply (Hget "CTEZ").
Defined.

(** ** [toTezosTransaction]: what [parseInt] reads *)

Lemma parseInt_numeral (n : Z) (suffix : string) :
  0 <= n -> unread_suffix suffix ->
  JS.parseInt (JS.decimal n ++ suffix) = JS.of_integer n.
Proof.
  intros Hn Hs.
  destruct (decimal_shape n Hn) as (c & rest & E & Hc & Hr).
  assert (JS.parse_digits 0 (JS.decimal n ++ suffix) = n) as Hvalue.
  { rewrite parse_digits_app.
    - rewrite parse_decimal by exact Hn.
      destruct suffix as [| x s]; [reflexivity |].
      destruct Hs as (Hx & _). simpl. rewrite Hx. reflexivity.
    - rewrite E. simpl. rewrite Hc, Hr. reflexivity. }
  rewrite <- Hvalue at 2. rewrite E. cbn [String.append].
  unfold JS.parseInt.
  rewrite (trim_start_digit c _ Hc).
  cbn [JS.strip_sign].
  rewrite (digit_not c "-" Hc eq_refl), (digit_not c "+" Hc eq_refl).
  assert (JS.strip_hex_prefix (String c (rest ++ suffix)) =
          (false, String c (rest ++ suffix))) as ->.
  { destruct rest as [| x rest'].
    - destruct suffix as [| x s]; [reflexivity |].
      destruct Hs as (_ & H1 & H2).
      cbn [String.append JS.strip_hex_prefix].
      apply Ascii.eqb_neq in H1, H2. rewrite H1, H2, andb_false_r. reflexivity.
    - simpl in Hr. apply andb_true_iff in Hr as [Hx _].
      cbn [String.append JS.strip_hex_prefix].
      rewrite (digit_not x "x" Hx eq_refl), (digit_not x "X" Hx eq_refl).
      rewrite andb_false_r. reflexivity. }
  rewrite Hc. reflexivity.
Qed.

(** [parseInt] reads the leading numeral and drops what follows it without
    an error: when the counter, the gas limit and the storage limit start
    with the numerals of [counter], [gas] and [storage] (within the exact
    range of doubles), the nonce is [counter] and the gas limit is the
    numeral of [gas + storage], whatever the suffixes are. *)
Theorem toTezosTransaction_reads_numerals (svc : Services) (hash : string)
    (transaction : OperationContents.t) (chainId : string)
    (counter gas storage : Z) (after_counter after_gas after_storage : string) :
  0 <= counter <= 2 ^ 53 ->
  0 <= gas -> 0 <= storage -> gas + storage <= 2 ^ 53 ->
  OperationContents.counter transaction = JS.decimal counter ++ after_counter ->
  OperationContents.gas_limit transaction = JS.decimal gas ++ after_gas ->
  OperationContents.storage_limit transaction =
    JS.decimal storage ++ after_storage ->
  unread_suffix after_counter -> unread_suffix after_gas ->
  unread_suffix after_storage ->
  let tx := toTezosTransaction svc hash transaction chainId in
  CustomTransaction.nonce tx = JS.Finite counter /\
  CustomTransaction.gasLimit tx = JS.decimal (gas + storage).
Proof.
  intros Hc Hg Hs Hsum Ec Eg Es Hac Hag Has tx. subst tx.
  unfold toTezosTransaction. simpl. rewrite Ec, Eg, Es.
  rewrite !parseInt_numeral by (assumption || lia).
  rewrite !of_integer_exact by lia.
  split; [reflexivity |].
  rewrite add_exact by lia. apply ToString_exact. lia.
Qed.

(** Gas 1500.75 and storage "300 units" are read as 1500 and 300. *)
Lemma toTezosTransaction_reads_numerals_witness :
  let transaction := Sample.operation "1500.75" "300 units" in
  OperationContents.counter transaction = JS.decimal 41 ++ "" /\
  OperationContents.gas_limit transaction = JS.decimal 1500 ++ ".75" /\
  OperationContents.storage_limit transaction = JS.decimal 300 ++ " units" /\
  CustomTransaction.nonce
    (toTezosTransaction Sample.services "op1" transaction "NetXdQprcVkpaWU")
    = JS.Finite 41 /\
  CustomTransaction.gasLimit
    (toTezosTransaction Sample.services "op1" transaction "NetXdQprcVkpaWU")
    = "1800".
Proof.
  intros transaction.
  repeat (split; [reflexivity |]).
  assert (0 <= 41 <= 2 ^ 53) as Hcounter by (split; intros E; discriminate E).
  assert (0 <= 1500) as Hgas by (intros E; discriminate E).
  assert (0 <= 300) as Hstorage by (intros E; discriminate E).
  assert (1500 + 300 <= 2 ^ 53) as Hsum by (intros E; discriminate E).
  assert (unread_suffix ".75" /\ unread_suffix " units") as [Hdot Hspace].
  { split; (split; [reflexivity | split; intros E; discriminate E]). }
  apply (toTezosTransaction_reads_numerals Sample.services "op1" transaction
           "NetXdQprcVkpaWU" 41 1500 300 "" ".75" " units"
           Hcounter Hgas Hstorage Hsum eq_refl eq_refl eq_refl I Hdot Hspace).
Defined.

Lemma parseInt_blank (s : string) :
  JS.trim_start s = "" -> JS.parseInt s = JS.NaN.
Proof.
  intros H. unfold JS.parseInt. rewrite H. reflexivity.
Qed.

(** A gas limit or a storage limit that is empty, or white space only,
    makes the normalized gas limit the string ["NaN"]; nothing is thrown. *)
Theorem toTezosTransaction_blank_limits (svc : Services) (hash : string)
    (transaction : OperationContents.t) (chainId : string) :
  JS.trim_start (OperationContents.gas_limit transaction) = "" \/
  JS.trim_start (OperationContents.storage_limit transaction) = "" ->
  CustomTransaction.gasLimit (toTezosTransaction svc hash transaction chainId)
    = "NaN".
Proof.
  intros [H | H]; unfold toTezosTransaction; simpl;
    rewrite (parseInt_blank _ H).
  - reflexivity.
  - destruct (JS.parseInt (OperationContents.gas_limit transaction));
      reflexivity.
Qed.

(** An empty gas limit. *)
Lemma toTezosTransaction_blank_limits_witness :
  JS.trim_start (OperationContents.gas_limit (Sample.operation "" "300")) = "" /\
  CustomTransaction.gasLimit
    (toTezosTransaction Sample.services "op1" (Sample.operation "" "300")
       "NetXdQprcVkpaWU") = "NaN".
Proof.
  split; [reflexivity |].
  apply (toTezosTransaction_blank_limits Sample.services "op1"
           (Sample.operation "" "300") "NetXdQprcVkpaWU").
  left. reflexivity.
Defined.

(** ** The routes *)

(** [/nonce] and [/nextNonce] take the same steps: they validate the body,
    connect to the chain of the request and ask the client for the nonce of
    the address.  For a nonce [n] below [2^53], [/nonce] answers 200 with
    [n] and [/nextNonce] answers 200 with [n + 1]; a rejected [getNonce]
    is thrown on by both. *)
Theorem nextNonce_increments (imports : Imports) (body : Body.t NonceRequest.t)
    (chain : Tezosish) :
  validateTezosNonceRequest imports body = Ok tt ->
  getChain imports (Body.chain body) (Body.network body) = Resolved chain ->
  let address := NonceRequest.address (Body.fields body) in
  let steps :=
    [Validate "validateTezosNonceRequest";
     GetChain (Body.chain body) (Body.network body);
     Client (GetNonce address)] in
  (forall n, getNonce chain address = Resolved n -> 0 <= n < 2 ^ 53 ->
     TezosRoutes.post_nonce imports body =
       (Ok (Reply.mk 200 {| NonceResponse.nonce := n |}), steps) /\
     TezosRoutes.post_nextNonce imports body =
       (Ok (Reply.mk 200 {| NextNonceResponse.nonce := JS.Finite (n + 1) |}),
        steps)) /\
  (forall reason, getNonce chain address = Rejected reason ->
     TezosRoutes.post_nonce imports body = (Throw (Uncaught reason), steps) /\
     TezosRoutes.post_nextNonce imports body = (Throw (Uncaught reason), steps)).
Proof.
  intros Hvalid Hchain address steps. subst address steps.
  unfold TezosRoutes.post_nonce, TezosRoutes.post_nextNonce, and_then, validated,
    connected, controller, respond, outcome, calls, nonce, bind, invoke, ret.
  rewrite Hvalid, Hchain. cbn -[JS.add]. split.
  - intros n Hnonce Hn. rewrite Hnonce. cbn -[JS.add].
    rewrite add_exact by lia. split; reflexivity.
  - intros reason Hnonce. rewrite Hnonce. split; reflexivity.
Qed.

(** The nonce 41 of the sample node, and the next one. *)
Lemma nextNonce_increments_witness :
  let body := Body.mk "tezos" "mainnet" {| NonceRequest.address := "tz1owner" |} in
  validateTezosNonceRequest (Scenario.imports Sample.tezos) body = Ok tt /\
  getChain (Scenario.imports Sample.tezos) "tezos" "mainnet" = Resolved Sample.tezos /\
  fst (TezosRoutes.post_nonce (Scenario.imports Sample.tezos) body) =
    Ok (Reply.mk 200 {| NonceResponse.nonce := 41 |}) /\
  fst (TezosRoutes.post_nextNonce (Scenario.imports Sample.tezos) body) =
    Ok (Reply.mk 200 {| NextNonceResponse.nonce := JS.Finite 42 |}).
Proof.
  intros body. split; [reflexivity |]. split; [reflexivity |].
  destruct (nextNonce_increments (Scenario.imports Sample.tezos) body
              Sample.tezos eq_refl eq_refl) as (H & _).
  assert (0 <= 41 < 2 ^ 53) as Hn by (split; [intros E; discriminate E | reflexivity]).
  destruct (H 41 eq_refl Hn) as [-> ->]. split; reflexivity.
Defined.

(** A body that its validator refuses goes no further: the route throws
    what the validator threw, without connecting to a chain and without a
    call of the client.  This holds for [/nonce], [/nextNonce], [/balances],
    [/allowances] and [/approve]; [/poll] validates nothing. *)
Theorem routes_refuse_invalid_requests (svc : Services) (imports : Imports) :
  (forall body e,
     validateTezosNonceRequest imports body = Throw e ->
     TezosRoutes.post_nonce imports body =
       (Throw e, [Validate "validateTezosNonceRequest"]) /\
     TezosRoutes.post_nextNonce imports body =
       (Throw e, [Validate "validateTezosNonceRequest"])) /\
  (forall body e,
     validateTezosBalanceRequest imports body = Throw e ->
     TezosRoutes.post_balances svc imports body =
       (Throw e, [Validate "validateTezosBalanceRequest"])) /\
  (forall body e,
     validateTezosAllowancesRequest imports body = Throw e ->
     TezosRoutes.post_allowances svc imports body =
       (Throw e, [Validate "validateTezosAllowancesRequest"])) /\
  (forall body e,
     validateTezosApproveRequest imports body = Throw e ->
     TezosRoutes.post_approve svc imports body =
       (Throw e, [Validate "validateTezosApproveRequest"])) /\
  (forall body validator,
     ~ In (Validate validator) (snd (TezosRoutes.post_poll svc imports body))).
Proof.
  unfold TezosRoutes.post_nonce, TezosRoutes.post_nextNonce, TezosRoutes.post_balances,
    TezosRoutes.post_allowances, TezosRoutes.post_approve, TezosRoutes.post_poll,
    and_then, validated, connected, controller, respond.
  repeat match goal with
    | |- _ /\ _ => split
    | |- forall body e, _ = Throw e -> _ => intros body e ->
    | |- _ = (Throw _, _) => reflexivity
    end.
  intros body validator.
  destruct (getChain imports _ _); simpl;
    [destruct (outcome _); simpl |];
    rewrite ?app_nil_r;
    intros [H | H]; try discriminate;
    try (apply in_map_iff in H as (c & H & _); discriminate);
    destruct H.
Qed.

(** Every route connects to the chain before it calls its controller, and
    throws the rejection of the connection manager without calling the
    client.  [/nonce], [/nextNonce], [/allowances] and [/approve] ask for the
    chain named in the body; [/balances] and [/poll] ask for ["tezos"]
    whatever the body names. *)
Theorem routes_connect (svc : Services) (imports : Imports) :
  (forall body, validateTezosNonceRequest imports body = Ok tt ->
     connects_to imports [Validate "validateTezosNonceRequest"] Body.chain
       (TezosRoutes.post_nonce imports) body /\
     connects_to imports [Validate "validateTezosNonceRequest"] Body.chain
       (TezosRoutes.post_nextNonce imports) body) /\
  (forall body, validateTezosBalanceRequest imports body = Ok tt ->
     connects_to imports [Validate "validateTezosBalanceRequest"]
       (fun _ => "tezos") (TezosRoutes.post_balances svc imports) body) /\
  (forall body,
     connects_to imports [] (fun _ => "tezos")
       (TezosRoutes.post_poll svc imports) body) /\
  (forall body, validateTezosAllowancesRequest imports body = Ok tt ->
     connects_to imports [Validate "validateTezosAllowancesRequest"] Body.chain
       (TezosRoutes.post_allowances svc imports) body) /\
  (forall body, validateTezosApproveRequest imports body = Ok tt ->
     connects_to imports [Validate "validateTezosApproveRequest"] Body.chain
       (TezosRoutes.post_approve svc imports) body).
Proof.
  unfold connects_to, TezosRoutes.post_nonce, TezosRoutes.post_nextNonce,
    TezosRoutes.post_balances, TezosRoutes.post_allowances, TezosRoutes.post_approve,
    TezosRoutes.post_poll, and_then, validated, connected, controller, respond.
  repeat match goal with
    | |- _ /\ _ => split
    | |- forall body, _ = Ok tt -> _ => intros body ->
    | |- forall body : Body.t _, _ => intros body
    | |- forall reason, _ = Rejected reason -> _ => intros reason ->; reflexivity
    | |- exists rest, _ =>
        destruct (getChain imports _ _); simpl;
        try (destruct (outcome _)); simpl; eauto
    end.
Qed.
